(** * SETools: the catalog-configuration interpreter of shapepipe

    A shallow embedding of [SETools_script.py] (classes [SETools] and
    [SEPlot]): the config reader, the mask builder, the random and flag
    splits, the save functions and the [@]-template of plot titles.

    Conventions of the embedding.
    - The script is Python 2 ([range] returns a list that [pop] shortens,
      [keys()] returns a list).
    - A Python [dict] is an association list in insertion order, and
      [keys] iterates in that order. Python 2 leaves the order of the keys
      unspecified; where a result depends on it, it is stated for each
      order.
    - A raised exception is a value of [exn], carrying the source's
      message; fallible code returns [result].
    - A function that changes a dictionary it is given returns the
      dictionary as it leaves it; an array shared between dictionaries is
      kept apart from them and referred to.
    - [sc.interpreter], [np.random.randint] and [float] are external to
      the file and are taken as section variables; what is handed to the
      I/O layer of [scatalog] is recorded as a value.
    - A Python float is an IEEE binary64 number, a primitive float of
      Rocq, and its arithmetic is the machine's: [28/100.] is
      [0.28000000000000003]. *)

From Stdlib Require Import List String Ascii Bool Arith ZArith Lia.
From Stdlib Require Import Permutation DecimalString DecimalNat DecimalZ.
From Stdlib Require PrimFloat FloatOps SpecFloat Uint63.
Import ListNotations.
Open Scope string_scope.
Open Scope nat_scope.

(** ** Exceptions and results *)

Inductive exn : Type :=
| Exception (msg : string)
| ValueError (msg : string)
| KeyError (key : string)
| NameError (var : string)
| TypeError (msg : string)
| IndexError (msg : string)
| AttributeError (msg : string)
| OverflowError (msg : string).

Inductive result (A : Type) : Type :=
| Ok (a : A)
| Raise (e : exn).

Arguments Ok {A} a.
Arguments Raise {A} e.

Definition bind {A B : Type} (m : result A) (f : A -> result B) : result B :=
  match m with
  | Ok a => f a
  | Raise e => Raise e
  end.

Notation "x <- m ;; k" := (bind m (fun x => k))
  (at level 61, m at next level, right associativity).

(** ** Python strings *)

Module PyStr.

(** [re.split] with a pattern that is one character or an alternation of
    single characters: [p] recognises the separators. *)
Fixpoint split (p : ascii -> bool) (s : string) : list string :=
  match s with
  | EmptyString => [""]
  | String c r =>
      if p c then "" :: split p r
      else match split p r with
           | x :: xs => String c x :: xs
           | [] => [String c ""]
           end
  end.

Definition is_char (c : ascii) : ascii -> bool := fun a => Ascii.eqb a c.

Definition split_on (c : ascii) : string -> list string := split (is_char c).

(** [s.replace(c, '')] for a one-character [c]. *)
Fixpoint remove_char (c : ascii) (s : string) : string :=
  match s with
  | EmptyString => EmptyString
  | String a r => if Ascii.eqb a c then remove_char c r else String a (remove_char c r)
  end.

(** [s[0]] of a list with a default used only where the list cannot be
    empty ([split] never returns the empty list). *)
Definition first (l : list string) : string := hd "" l.

(** ['{0}'.format(n)] for a natural number and for an integer. *)
Definition str_of_nat (n : nat) : string := NilEmpty.string_of_uint (Nat.to_uint n).
Definition str_of_Z (z : Z) : string := NilEmpty.string_of_int (Z.to_int z).

Definition starts_with (c : ascii) (s : string) : bool :=
  match s with
  | String a _ => Ascii.eqb a c
  | EmptyString => false
  end.

(** Facts about [split], [++] and the decimal printers. *)

(** [none p s]: no character of [s] satisfies [p]. *)
Fixpoint none (p : ascii -> bool) (s : string) : bool :=
  match s with
  | EmptyString => true
  | String c r => negb (p c) && none p r
  end.

Lemma split_not_nil (p : ascii -> bool) (s : string) : split p s <> [].
Proof.
  destruct s as [|c r]; simpl; [discriminate|].
  destruct (p c); [discriminate|].
  destruct (split p r); discriminate.
Qed.

Lemma split_none (p : ascii -> bool) (s : string) :
  none p s = true -> split p s = [s].
Proof.
  induction s as [|c r IH]; simpl; intros H; [reflexivity|].
  apply andb_prop in H as [Hc Hr].
  apply negb_true_iff in Hc. rewrite Hc, (IH Hr). reflexivity.
Qed.

Lemma split_app_sep (p : ascii -> bool) (s1 s2 : string) (c : ascii) :
  none p s1 = true -> p c = true ->
  split p (s1 ++ String c s2) = s1 :: split p s2.
Proof.
  intros H1 Hc. induction s1 as [|a r IH]; simpl in *.
  - rewrite Hc. reflexivity.
  - apply andb_prop in H1 as [Ha Hr]. apply negb_true_iff in Ha.
    rewrite Ha, (IH Hr). reflexivity.
Qed.

Lemma first_split_empty (p : ascii -> bool) (c : ascii) (r : string) :
  first (split p (String c r)) = "" <-> p c = true.
Proof.
  simpl. destruct (p c); simpl; [tauto|].
  destruct (split p r); simpl; split; discriminate.
Qed.

Lemma append_nil_r (s : string) : s ++ "" = s.
Proof. induction s; simpl; congruence. Qed.

Lemma append_assoc (a b c : string) : (a ++ b) ++ c = a ++ (b ++ c).
Proof. induction a; simpl; congruence. Qed.

Lemma append_inj_l (s a b : string) : s ++ a = s ++ b -> a = b.
Proof. induction s; simpl; intros H; [assumption|]. injection H. auto. Qed.

Lemma length_append (a b : string) :
  String.length (a ++ b) = String.length a + String.length b.
Proof. induction a; simpl; congruence. Qed.

Lemma append_inj_r (s a b : string) : a ++ s = b ++ s -> a = b.
Proof.
  revert b. induction a as [|x a IH]; intros [|y b] H; simpl in *.
  - reflexivity.
  - apply (f_equal String.length) in H. simpl in H. rewrite length_append in H. lia.
  - apply (f_equal String.length) in H. simpl in H. rewrite length_append in H. lia.
  - injection H as -> H. f_equal. auto.
Qed.

Lemma str_of_nat_inj (n m : nat) : str_of_nat n = str_of_nat m -> n = m.
Proof.
  unfold str_of_nat. intros H.
  apply (f_equal NilEmpty.uint_of_string) in H.
  rewrite !NilEmpty.usu in H. injection H as H.
  apply (f_equal Nat.of_uint) in H.
  rewrite !DecimalNat.Unsigned.of_to in H. assumption.
Qed.

Lemma str_of_Z_inj (x y : Z) : str_of_Z x = str_of_Z y -> x = y.
Proof.
  unfold str_of_Z. intros H.
  apply (f_equal NilEmpty.int_of_string) in H.
  rewrite !NilEmpty.isi in H. injection H as H.
  apply DecimalZ.to_int_inj. assumption.
Qed.

End PyStr.

(** ** Python dictionaries, in insertion order *)

Module Dict.

Section Ops.
Context {V : Type}.

Definition dict := list (string * V).

Fixpoint get (k : string) (d : dict) : option V :=
  match d with
  | [] => None
  | (k', v) :: r => if String.eqb k k' then Some v else get k r
  end.

(** [d[k] = v]: the value is replaced where the key stands, a new key goes
    to the end. *)
Fixpoint set (k : string) (v : V) (d : dict) : dict :=
  match d with
  | [] => [(k, v)]
  | (k', v') :: r => if String.eqb k k' then (k, v) :: r else (k', v') :: set k v r
  end.

(** The dictionary left by [d.pop(k)]. *)
Fixpoint remove (k : string) (d : dict) : dict :=
  match d with
  | [] => []
  | (k', v') :: r => if String.eqb k k' then remove k r else (k', v') :: remove k r
  end.

Definition keys (d : dict) : list string := map fst d.

Definition mem (k : string) (d : dict) : bool :=
  match get k d with Some _ => true | None => false end.

Lemma get_set_same (k : string) (v : V) (d : dict) : get k (set k v d) = Some v.
Proof.
  induction d as [|[k' v'] r IH]; simpl.
  - rewrite String.eqb_refl. reflexivity.
  - destruct (String.eqb k k') eqn:E; simpl; rewrite ?String.eqb_refl, ?E; auto.
Qed.

Lemma get_set_other (k k' : string) (v : V) (d : dict) :
  k <> k' -> get k' (set k v d) = get k' d.
Proof.
  intros Hne. induction d as [|[k0 v0] r IH]; simpl.
  - apply String.eqb_neq in Hne. rewrite String.eqb_sym, Hne. reflexivity.
  - destruct (String.eqb k k0) eqn:E; simpl.
    + apply String.eqb_eq in E. subst k0.
      apply String.eqb_neq in Hne. rewrite String.eqb_sym, Hne. reflexivity.
    + rewrite IH. reflexivity.
Qed.

Lemma get_none_keys (k : string) (d : dict) : get k d = None <-> ~ In k (keys d).
Proof.
  induction d as [|[k' v'] r IH]; simpl; [tauto|].
  destruct (String.eqb k k') eqn:E.
  - apply String.eqb_eq in E. subst. split; [discriminate|tauto].
  - apply String.eqb_neq in E. rewrite IH. split; [intros H [H'|H']; congruence|tauto].
Qed.

Lemma get_some_keys (k : string) (v : V) (d : dict) : get k d = Some v -> In k (keys d).
Proof.
  intros H. destruct (in_dec string_dec k (keys d)) as [Hin|Hout]; [assumption|].
  apply get_none_keys in Hout. congruence.
Qed.

Lemma keys_set_new (k : string) (v : V) (d : dict) :
  get k d = None -> set k v d = (d ++ [(k, v)])%list.
Proof.
  induction d as [|[k' v'] r IH]; simpl; [reflexivity|].
  destruct (String.eqb k k'); [discriminate|]. intros H. rewrite (IH H). reflexivity.
Qed.

Lemma keys_set_old (k : string) (v : V) (d : dict) :
  get k d <> None -> keys (set k v d) = keys d.
Proof.
  induction d as [|[k' v'] r IH]; simpl; [congruence|].
  destruct (String.eqb k k') eqn:E; simpl.
  - apply String.eqb_eq in E. subst. reflexivity.
  - intros H. rewrite (IH H). reflexivity.
Qed.

Lemma get_remove_same (k : string) (d : dict) : get k (remove k d) = None.
Proof.
  induction d as [|[k' v'] r IH]; simpl; [reflexivity|].
  destruct (String.eqb k k') eqn:E; simpl; rewrite ?E; assumption.
Qed.

Lemma get_remove_other (k k' : string) (d : dict) :
  k <> k' -> get k' (remove k d) = get k' d.
Proof.
  intros Hne. induction d as [|[k0 v0] r IH]; simpl; [reflexivity|].
  destruct (String.eqb k k0) eqn:E; simpl.
  - apply String.eqb_eq in E. subst k0.
    apply String.eqb_neq in Hne. rewrite String.eqb_sym, Hne. assumption.
  - rewrite IH. reflexivity.
Qed.

Lemma get_app (k : string) (d1 d2 : dict) :
  get k (d1 ++ d2)%list = match get k d1 with Some v => Some v | None => get k d2 end.
Proof.
  induction d1 as [|[k' v'] r IH]; simpl; [reflexivity|].
  destruct (String.eqb k k'); auto.
Qed.

Lemma keys_set_in (k x : string) (v : V) (d : dict) :
  In x (keys (set k v d)) <-> x = k \/ In x (keys d).
Proof.
  induction d as [|[k' v'] r IH]; simpl.
  - intuition congruence.
  - destruct (String.eqb_spec k k') as [->|Hne]; simpl.
    + intuition congruence.
    + rewrite IH. intuition congruence.
Qed.

Lemma remove_absent (k : string) (d : dict) : get k d = None -> remove k d = d.
Proof.
  induction d as [|[k' v'] r IH]; simpl; [reflexivity|].
  destruct (String.eqb k k'); [discriminate|]. intros H. rewrite (IH H). reflexivity.
Qed.

End Ops.

Arguments dict V : clear implicits.

End Dict.

Example split_header :
  PyStr.split (fun a => orb (Ascii.eqb a "[") (Ascii.eqb a "]")) "[MASK:star]" = [""; "MASK:star"; ""].
Proof. reflexivity. Qed.

Example str_of_nat_12 : PyStr.str_of_nat 12 = "12" /\ PyStr.str_of_Z (-5) = "-5" /\ PyStr.str_of_Z 0 = "0".
Proof. repeat split; reflexivity. Qed.

(** ** [SETools.read] and [SETools._clean_line] *)

Module Reader.

Import PyStr Dict.

Definition space : ascii := " "%char.
Definition hash : ascii := "#"%char.
Definition colon : ascii := ":"%char.
Definition lbracket : ascii := "["%char.
Definition rbracket : ascii := "]"%char.
Definition dquote : ascii := ascii_of_nat 34.
Definition newline : ascii := ascii_of_nat 10.
Definition tab : ascii := ascii_of_nat 9.

(** [_clean_line]: [None] for an empty line or a comment. *)
Definition _clean_line (line : string) : option string :=
  let s := split_on dquote line in
  let line_tmp :=
    match s with
    | [s0; s1; s2] => remove_char space s0 ++ s1 ++ remove_char space s2
    | _ => remove_char space line
    end in
  if String.eqb (first (split_on hash line_tmp)) "" then None
  else
    let line_tmp := remove_char newline line_tmp in
    let line_tmp := remove_char tab line_tmp in
    let line_tmp := first (split_on hash line_tmp) in
    if negb (String.eqb line_tmp "") then Some line_tmp else None.

(** The six section types, with the value [in_section] takes for each. *)
Inductive kind : Type := MASK | PLOT | STAT | NEW_CAT | RAND_SPLIT | FLAG_SPLIT.

Definition code (k : kind) : nat :=
  match k with
  | MASK => 1 | PLOT => 2 | STAT => 3 | NEW_CAT => 4 | RAND_SPLIT => 5 | FLAG_SPLIT => 6
  end.

Definition kind_of_code (n : nat) : option kind :=
  match n with
  | 1 => Some MASK | 2 => Some PLOT | 3 => Some STAT
  | 4 => Some NEW_CAT | 5 => Some RAND_SPLIT | 6 => Some FLAG_SPLIT
  | _ => None
  end.

(** The [if]/[elif] chain on [re.split(':', sec)[0]]. *)
Definition kind_of_string (s : string) : option kind :=
  if String.eqb s "MASK" then Some MASK
  else if String.eqb s "PLOT" then Some PLOT
  else if String.eqb s "STAT" then Some STAT
  else if String.eqb s "NEW_CAT" then Some NEW_CAT
  else if String.eqb s "RAND_SPLIT" then Some RAND_SPLIT
  else if String.eqb s "FLAG_SPLIT" then Some FLAG_SPLIT
  else None.

Definition prefix (k : kind) : string :=
  match k with
  | MASK => "mask_" | PLOT => "plot_" | STAT => "stat_"
  | NEW_CAT => "new_cat_" | RAND_SPLIT => "rand_split_" | FLAG_SPLIT => "flag_split_"
  end.

Definition var_name (k : kind) : string :=
  match k with
  | MASK => "mask_name" | PLOT => "plot_name" | STAT => "stat_name"
  | NEW_CAT => "new_cat_name" | RAND_SPLIT => "rand_split_name"
  | FLAG_SPLIT => "flag_split_name"
  end.

(** ['mask_{0}'.format(n)] and its five siblings. *)
Definition gen_name (k : kind) (n : nat) : string := prefix k ++ str_of_nat n.

(** The attributes [read] fills and its local variables; a name variable
    is [None] while it is unbound. *)
Record state : Type := mkState {
  _mask : dict (list string);
  _mask_key : list string;
  _plot : dict (list string);
  _stat : dict (list string);
  _new_cat : dict (list string);
  _rand_split : dict (list string);
  _flag_split : dict (list string);
  in_section : nat;
  mask_name : option string;
  plot_name : option string;
  stat_name : option string;
  new_cat_name : option string;
  rand_split_name : option string;
  flag_split_name : option string
}.

Definition init : state :=
  mkState [] [] [] [] [] [] [] 0 None None None None None None.

Definition sections (k : kind) (st : state) : dict (list string) :=
  match k with
  | MASK => _mask st | PLOT => _plot st | STAT => _stat st
  | NEW_CAT => _new_cat st | RAND_SPLIT => _rand_split st | FLAG_SPLIT => _flag_split st
  end.

Definition name_var (k : kind) (st : state) : option string :=
  match k with
  | MASK => mask_name st | PLOT => plot_name st | STAT => stat_name st
  | NEW_CAT => new_cat_name st | RAND_SPLIT => rand_split_name st
  | FLAG_SPLIT => flag_split_name st
  end.

(** One branch of the header chain: [in_section = code k], the name
    variable is bound and the dictionary entry is reset to [[]]; the MASK
    branch also appends to [_mask_key]. *)
Definition open_section (k : kind) (name : string) (st : state) : state :=
  match k with
  | MASK =>
      mkState (set name [] (_mask st)) (_mask_key st ++ [name])%list (_plot st) (_stat st)
        (_new_cat st) (_rand_split st) (_flag_split st) 1
        (Some name) (plot_name st) (stat_name st) (new_cat_name st)
        (rand_split_name st) (flag_split_name st)
  | PLOT =>
      mkState (_mask st) (_mask_key st) (set name [] (_plot st)) (_stat st)
        (_new_cat st) (_rand_split st) (_flag_split st) 2
        (mask_name st) (Some name) (stat_name st) (new_cat_name st)
        (rand_split_name st) (flag_split_name st)
  | STAT =>
      mkState (_mask st) (_mask_key st) (_plot st) (set name [] (_stat st))
        (_new_cat st) (_rand_split st) (_flag_split st) 3
        (mask_name st) (plot_name st) (Some name) (new_cat_name st)
        (rand_split_name st) (flag_split_name st)
  | NEW_CAT =>
      mkState (_mask st) (_mask_key st) (_plot st) (_stat st)
        (set name [] (_new_cat st)) (_rand_split st) (_flag_split st) 4
        (mask_name st) (plot_name st) (stat_name st) (Some name)
        (rand_split_name st) (flag_split_name st)
  | RAND_SPLIT =>
      mkState (_mask st) (_mask_key st) (_plot st) (_stat st)
        (_new_cat st) (set name [] (_rand_split st)) (_flag_split st) 5
        (mask_name st) (plot_name st) (stat_name st) (new_cat_name st)
        (Some name) (flag_split_name st)
  | FLAG_SPLIT =>
      mkState (_mask st) (_mask_key st) (_plot st) (_stat st)
        (_new_cat st) (_rand_split st) (set name [] (_flag_split st)) 6
        (mask_name st) (plot_name st) (stat_name st) (new_cat_name st)
        (rand_split_name st) (Some name)
  end.

Definition with_sections (k : kind) (d : dict (list string)) (st : state) : state :=
  match k with
  | MASK =>
      mkState d (_mask_key st) (_plot st) (_stat st) (_new_cat st) (_rand_split st)
        (_flag_split st) (in_section st) (mask_name st) (plot_name st) (stat_name st)
        (new_cat_name st) (rand_split_name st) (flag_split_name st)
  | PLOT =>
      mkState (_mask st) (_mask_key st) d (_stat st) (_new_cat st) (_rand_split st)
        (_flag_split st) (in_section st) (mask_name st) (plot_name st) (stat_name st)
        (new_cat_name st) (rand_split_name st) (flag_split_name st)
  | STAT =>
      mkState (_mask st) (_mask_key st) (_plot st) d (_new_cat st) (_rand_split st)
        (_flag_split st) (in_section st) (mask_name st) (plot_name st) (stat_name st)
        (new_cat_name st) (rand_split_name st) (flag_split_name st)
  | NEW_CAT =>
      mkState (_mask st) (_mask_key st) (_plot st) (_stat st) d (_rand_split st)
        (_flag_split st) (in_section st) (mask_name st) (plot_name st) (stat_name st)
        (new_cat_name st) (rand_split_name st) (flag_split_name st)
  | RAND_SPLIT =>
      mkState (_mask st) (_mask_key st) (_plot st) (_stat st) (_new_cat st) d
        (_flag_split st) (in_section st) (mask_name st) (plot_name st) (stat_name st)
        (new_cat_name st) (rand_split_name st) (flag_split_name st)
  | FLAG_SPLIT =>
      mkState (_mask st) (_mask_key st) (_plot st) (_stat st) (_new_cat st)
        (_rand_split st) d (in_section st) (mask_name st) (plot_name st) (stat_name st)
        (new_cat_name st) (rand_split_name st) (flag_split_name st)
  end.

(** [self._mask[mask_name].append(line_tmp)] and its five siblings. *)
Definition append_line (k : kind) (line : string) (st : state) : result state :=
  match name_var k st with
  | None => Raise (NameError (var_name k))
  | Some name =>
      match get name (sections k st) with
      | None => Raise (KeyError name)
      | Some ls => Ok (with_sections k (set name (ls ++ [line])%list (sections k st)) st)
      end
  end.

Definition is_bracket (a : ascii) : bool := Ascii.eqb a lbracket || Ascii.eqb a rbracket.

(** [re.split('\[', line_tmp)[0] == ''] *)
Definition at_header (line : string) : bool :=
  String.eqb (first (split_on lbracket line)) "".

Definition no_section : string := "No section found".
Definition bad_section : string :=
  "Section has to be in ['MASK','PLOT','STAT','NEW_CAT','RAND_SPLIT','FLAG_SPLIT']".

(** The header branch of the loop body ([if not in_section]). *)
Definition read_header (line : string) (st : state) : result state :=
  if negb (at_header line) then Raise (Exception no_section)
  else
    match nth_error (split is_bracket line) 1 with
    | None => Raise (IndexError "list index out of range")
    | Some sec =>
        match kind_of_string (first (split_on colon sec)) with
        | Some k =>
            let name :=
              match nth_error (split_on colon sec) 1 with
              | Some n => n
              | None => gen_name k (List.length (sections k st) + 1)
              end in
            Ok (open_section k name st)
        | None => Raise (Exception bad_section)
        end
    end.

(** The body of the [while] loop for one cleaned line. *)
Definition read_line (st : state) (line : string) : result state :=
  let in_sec :=
    if negb (in_section st =? 0) && at_header line then 0 else in_section st in
  if in_sec =? 0 then read_header line st
  else
    match kind_of_code in_sec with
    | Some k => append_line k line st
    | None => Ok st
    end.

Fixpoint read_lines (st : state) (lines : list string) : result state :=
  match lines with
  | [] => Ok st
  | l :: rest => st' <- read_line st l ;; read_lines st' rest
  end.

(** [read]: [file] is what successive [readline()] calls return; the
    empty string marks the end of the file. *)
Fixpoint read_loop (st : state) (file : list string) : result state :=
  match file with
  | [] => Ok st
  | line_tmp :: rest =>
      if String.eqb line_tmp "" then Ok st
      else
        match _clean_line line_tmp with
        | None => read_loop st rest
        | Some l => st' <- read_line st l ;; read_loop st' rest
        end
  end.

Definition read (file : list string) : result state := read_loop init file.

Example clean_examples :
  _clean_line (String space ("MAG < 20   # bright" ++ String newline "")) = Some "MAG<20"
  /\ _clean_line (String hash (" a comment" ++ String newline "")) = None
  /\ _clean_line (String newline "") = None
  /\ _clean_line ("TITLE = " ++ String dquote ("my title" ++ String dquote (String newline "")))
     = Some "TITLE=my title".
Proof. repeat split; reflexivity. Qed.

Example read_example :
  match read ["[MASK:star]" ; "MAG<20" ; "NO_SAVE" ; "[MASK]" ; "FLAGS==0" ; "[STAT]" ; "N=len(X)"] with
  | Ok st =>
      _mask st = [("star", ["MAG<20"; "NO_SAVE"]); ("mask_2", ["FLAGS==0"])]
      /\ _mask_key st = ["star"; "mask_2"]
      /\ _stat st = [("stat_1", ["N=len(X)"])]
  | Raise _ => False
  end.
Proof. vm_compute. repeat split. Qed.

(** *** What the reader does with each line *)

Definition kind_name (k : kind) : string :=
  match k with
  | MASK => "MASK" | PLOT => "PLOT" | STAT => "STAT"
  | NEW_CAT => "NEW_CAT" | RAND_SPLIT => "RAND_SPLIT" | FLAG_SPLIT => "FLAG_SPLIT"
  end.

Definition kind_names : list string :=
  ["MASK"; "PLOT"; "STAT"; "NEW_CAT"; "RAND_SPLIT"; "FLAG_SPLIT"].

(** A header line [[KIND]] or [[KIND:NAME]]. *)
Definition header (K : string) (name : option string) : string :=
  match name with
  | Some n => String lbracket (K ++ String colon (n ++ String rbracket ""))
  | None => String lbracket (K ++ String rbracket "")
  end.

(** No bracket and no colon in the text. *)
Definition plain (s : string) : bool :=
  none (fun a => is_bracket a || Ascii.eqb a colon) s.

Definition plain_opt (name : option string) : bool :=
  match name with Some n => plain n | None => true end.

(** The name a header of kind [k] is stored under. *)
Definition stored_name (k : kind) (name : option string) (st : state) : string :=
  match name with
  | Some n => n
  | None => gen_name k (List.length (sections k st) + 1)
  end.

(** The states the loop of [read] goes through. *)
Inductive reachable : state -> Prop :=
| reach_init : reachable init
| reach_step (st st' : state) (line : string) :
    reachable st -> read_line st line = Ok st' -> reachable st'.

(** While a section is open its name variable is bound to a stored key. *)
Definition open_ok (st : state) : Prop :=
  in_section st = 0 \/
  exists k name ls,
    in_section st = code k /\ name_var k st = Some name
    /\ get name (sections k st) = Some ls.

Lemma kind_of_string_some (K : string) (k : kind) :
  kind_of_string K = Some k <-> K = kind_name k.
Proof.
  unfold kind_of_string.
  repeat match goal with
    | |- context [String.eqb K ?s] =>
        destruct (String.eqb_spec K s) as [->|?];
        [destruct k; simpl; split; congruence|]
    end.
  split; [discriminate|]. intros ->. destruct k; simpl in *; congruence.
Qed.

Lemma kind_of_string_none (K : string) :
  kind_of_string K = None <-> ~ In K kind_names.
Proof.
  unfold kind_of_string, kind_names.
  repeat match goal with
    | |- context [String.eqb K ?s] =>
        destruct (String.eqb_spec K s) as [->|?];
        [split; [discriminate|simpl; tauto]|]
    end.
  split; [|reflexivity]. intros _. simpl. intuition congruence.
Qed.

Lemma none_app (p : ascii -> bool) (a b : string) :
  none p (a ++ b) = none p a && none p b.
Proof. induction a as [|c a IH]; simpl; [reflexivity|]. rewrite IH, andb_assoc. reflexivity. Qed.

Lemma none_weaken (p q : ascii -> bool) (s : string) :
  (forall a, q a = true -> p a = true) -> none p s = true -> none q s = true.
Proof.
  intros Hpq. induction s as [|c s IH]; simpl; [reflexivity|].
  intros H. apply andb_prop in H as [Hc Hs]. rewrite (IH Hs), andb_true_r.
  apply negb_true_iff in Hc. apply negb_true_iff.
  destruct (q c) eqn:E; [rewrite (Hpq c E) in Hc; discriminate|reflexivity].
Qed.

Lemma plain_no_bracket (s : string) : plain s = true -> none is_bracket s = true.
Proof. apply none_weaken. intros a ->. reflexivity. Qed.

Lemma plain_no_colon (s : string) : plain s = true -> none (is_char colon) s = true.
Proof. apply none_weaken. unfold is_char. intros a ->. apply orb_true_r. Qed.

Lemma at_header_cons (c : ascii) (r : string) :
  at_header (String c r) = Ascii.eqb c lbracket.
Proof.
  unfold at_header, split_on.
  destruct (Ascii.eqb c lbracket) eqn:E.
  - apply String.eqb_eq. apply first_split_empty. exact E.
  - apply String.eqb_neq. intros H. apply first_split_empty in H.
    unfold is_char in H. congruence.
Qed.

Lemma header_sec (K : string) (name : option string) :
  plain K = true -> plain_opt name = true ->
  nth_error (split is_bracket (header K name)) 1
  = Some (match name with Some n => K ++ String colon n | None => K end).
Proof.
  intros HK Hn. destruct name as [n|]; unfold header.
  - replace (K ++ String colon (n ++ String rbracket ""))
      with ((K ++ String colon n) ++ String rbracket "")
      by (rewrite append_assoc; reflexivity).
    change (split is_bracket (String lbracket ?s)) with ("" :: split is_bracket s).
    rewrite split_app_sep; [reflexivity| |reflexivity].
    rewrite none_app. simpl. rewrite (plain_no_bracket K HK), (plain_no_bracket n Hn).
    reflexivity.
  - change (split is_bracket (String lbracket ?s)) with ("" :: split is_bracket s).
    rewrite split_app_sep; [reflexivity|apply plain_no_bracket; assumption|reflexivity].
Qed.

Lemma sec_parts (K : string) (name : option string) :
  plain K = true -> plain_opt name = true ->
  split_on colon (match name with Some n => K ++ String colon n | None => K end)
  = match name with Some n => [K; n] | None => [K] end.
Proof.
  intros HK Hn. unfold split_on. destruct name as [n|].
  - rewrite split_app_sep; [|apply plain_no_colon; assumption|reflexivity].
    rewrite split_none; [reflexivity|apply plain_no_colon; assumption].
  - apply split_none. apply plain_no_colon. assumption.
Qed.

Lemma read_header_header (K : string) (name : option string) (st : state) :
  plain K = true -> plain_opt name = true ->
  read_header (header K name) st
  = match kind_of_string K with
    | Some k => Ok (open_section k (stored_name k name st) st)
    | None => Raise (Exception bad_section)
    end.
Proof.
  intros HK Hn. unfold read_header.
  replace (at_header (header K name)) with true
    by (destruct name; unfold header; rewrite at_header_cons; reflexivity).
  simpl negb. cbv iota.
  rewrite (header_sec K name HK Hn), (sec_parts K name HK Hn).
  destruct name as [n|]; simpl; destruct (kind_of_string K); reflexivity.
Qed.

Lemma read_line_header (line : string) (st : state) :
  at_header line = true -> read_line st line = read_header line st.
Proof.
  intros H. unfold read_line. rewrite H, andb_true_r.
  destruct (in_section st) as [|n] eqn:E; reflexivity.
Qed.

Lemma sections_open_same (k : kind) (name : string) (st : state) :
  sections k (open_section k name st) = set name [] (sections k st).
Proof. destruct k; reflexivity. Qed.

Lemma sections_open_other (k k' : kind) (name : string) (st : state) :
  k' <> k -> sections k' (open_section k name st) = sections k' st.
Proof. destruct k, k'; intros H; try reflexivity; congruence. Qed.

Lemma name_var_open (k : kind) (name : string) (st : state) :
  name_var k (open_section k name st) = Some name.
Proof. destruct k; reflexivity. Qed.

Lemma in_section_open (k : kind) (name : string) (st : state) :
  in_section (open_section k name st) = code k.
Proof. destruct k; reflexivity. Qed.

Lemma sections_with_same (k : kind) (d : dict (list string)) (st : state) :
  sections k (with_sections k d st) = d.
Proof. destruct k; reflexivity. Qed.

Lemma sections_with_other (k k' : kind) (d : dict (list string)) (st : state) :
  k' <> k -> sections k' (with_sections k d st) = sections k' st.
Proof. destruct k, k'; intros H; try reflexivity; congruence. Qed.

Lemma name_var_with (k k' : kind) (d : dict (list string)) (st : state) :
  name_var k' (with_sections k d st) = name_var k' st.
Proof. destruct k, k'; reflexivity. Qed.

Lemma in_section_with (k : kind) (d : dict (list string)) (st : state) :
  in_section (with_sections k d st) = in_section st.
Proof. destruct k; reflexivity. Qed.

Lemma kind_of_code_code (k : kind) : kind_of_code (code k) = Some k.
Proof. destruct k; reflexivity. Qed.

Lemma kind_of_code_some (n : nat) (k : kind) : kind_of_code n = Some k -> n = code k.
Proof.
  do 7 (destruct n as [|n]; simpl; try discriminate; try (intros [= <-]; reflexivity)).
Qed.

Lemma code_pos (k : kind) : code k <> 0.
Proof. destruct k; discriminate. Qed.

Lemma read_line_inside (k : kind) (c : ascii) (r : string) (st : state) :
  in_section st = code k -> Ascii.eqb c lbracket = false ->
  read_line st (String c r) = append_line k (String c r) st.
Proof.
  intros Hin Hc. unfold read_line. rewrite at_header_cons, Hc, andb_false_r, Hin.
  destruct (Nat.eqb_spec (code k) 0) as [E|_]; [destruct (code_pos k E)|].
  rewrite kind_of_code_code. reflexivity.
Qed.

Lemma read_line_open_ok (st st' : state) (line : string) :
  open_ok st -> read_line st line = Ok st' -> open_ok st'.
Proof.
  intros Hst Hstep. unfold read_line in Hstep.
  destruct ((if negb (in_section st =? 0) && at_header line then 0 else in_section st) =? 0) eqn:E0.
  - unfold read_header in Hstep.
    destruct (negb (at_header line)); [discriminate|].
    destruct (nth_error (split is_bracket line) 1) as [sec|]; [|discriminate].
    destruct (kind_of_string (first (split_on colon sec))) as [k|]; [|discriminate].
    injection Hstep as <-. right.
    eexists k, _, []. rewrite in_section_open, name_var_open, sections_open_same.
    repeat split. apply get_set_same.
  - destruct (negb (in_section st =? 0) && at_header line) eqn:E1; [discriminate|].
    destruct (kind_of_code (in_section st)) as [k|] eqn:Ek.
    + apply kind_of_code_some in Ek.
      unfold append_line in Hstep.
      destruct (name_var k st) as [name|] eqn:En; [|discriminate].
      destruct (get name (sections k st)) as [ls|] eqn:Eg; [|discriminate].
      injection Hstep as <-. right.
      exists k, name, (ls ++ [line])%list.
      rewrite in_section_with, name_var_with, sections_with_same.
      repeat split; try assumption. apply get_set_same.
    + injection Hstep as <-. assumption.
Qed.

Lemma reachable_open_ok (st : state) : reachable st -> open_ok st.
Proof.
  induction 1 as [|st st' line _ IH Hstep]; [left; reflexivity|].
  exact (read_line_open_ok st st' line IH Hstep).
Qed.

Lemma code_inj (k k' : kind) : code k = code k' -> k = k'.
Proof. destruct k, k'; simpl; intros H; try reflexivity; discriminate. Qed.

(** C7. Reading one cleaned line in a state [read] can be in:
    - a line that does not start with [[] while no section is open
      raises [Exception('No section found')];
    - a header whose KIND is none of the six raises the "Section has to be
      in ..." exception, whatever section was open;
    - a header of one of the six kinds, met with or without an open
      section, opens its section: [in_section] takes the kind's value, the
      name variable is bound and an empty line list is stored under the
      name, the dictionaries of the other kinds being left as they are;
    - a line that does not start with [[] inside an open section is
      appended to the line list stored under the open section's name,
      nothing else changing. *)
Theorem read_line_by_case (st : state) (Hst : reachable st) :
  (forall c r, in_section st = 0 -> Ascii.eqb c lbracket = false ->
     read_line st (String c r) = Raise (Exception "No section found"))
  /\ (forall K name, plain K = true -> plain_opt name = true -> ~ In K kind_names ->
     read_line st (header K name) = Raise (Exception bad_section))
  /\ (forall k name, plain_opt name = true ->
     let st' := open_section k (stored_name k name st) st in
     read_line st (header (kind_name k) name) = Ok st'
     /\ in_section st' = code k
     /\ name_var k st' = Some (stored_name k name st)
     /\ get (stored_name k name st) (sections k st') = Some []
     /\ (forall k', k' <> k -> sections k' st' = sections k' st))
  /\ (forall k c r, in_section st = code k -> Ascii.eqb c lbracket = false ->
     exists name ls st',
       name_var k st = Some name /\ get name (sections k st) = Some ls
       /\ read_line st (String c r) = Ok st'
       /\ in_section st' = code k /\ name_var k st' = Some name
       /\ get name (sections k st') = Some (ls ++ [String c r])%list
       /\ (forall n, n <> name -> get n (sections k st') = get n (sections k st))
       /\ (forall k', k' <> k -> sections k' st' = sections k' st)).
Proof.
  split; [|split; [|split]].
  - intros c r H0 Hc. unfold read_line.
    rewrite H0. simpl. unfold read_header. rewrite at_header_cons, Hc. reflexivity.
  - intros K name HK Hn Hnot.
    rewrite read_line_header by (destruct name; apply at_header_cons).
    rewrite (read_header_header K name st HK Hn).
    apply kind_of_string_none in Hnot. rewrite Hnot. reflexivity.
  - intros k name Hn st'.
    rewrite read_line_header by (destruct name; apply at_header_cons).
    rewrite (read_header_header (kind_name k) name st) by (destruct k; auto).
    replace (kind_of_string (kind_name k)) with (Some k)
      by (symmetry; apply kind_of_string_some; reflexivity).
    subst st'. rewrite in_section_open, name_var_open, sections_open_same, get_set_same.
    repeat split. intros k' Hk'. apply sections_open_other. assumption.
  - intros k c r Hin Hc.
    destruct (reachable_open_ok st Hst) as [H0|(k0 & name & ls & Hk0 & Hname & Hget)].
    { rewrite H0 in Hin. symmetry in Hin. destruct (code_pos k Hin). }
    assert (k0 = k) by (apply code_inj; congruence). subst k0.
    exists name, ls, (with_sections k (set name (ls ++ [String c r])%list (sections k st)) st).
    rewrite (read_line_inside k c r st Hin Hc). unfold append_line.
    rewrite Hname, Hget, in_section_with, name_var_with, sections_with_same, get_set_same.
    repeat split; try assumption.
    + intros n Hn. apply get_set_other. congruence.
    + intros k' Hk'. apply sections_with_other. assumption.
Qed.

Lemma read_line_by_case_witness :
  reachable (open_section MASK "star" init)
  /\ exists name ls st',
       name_var MASK (open_section MASK "star" init) = Some name
       /\ get name (sections MASK (open_section MASK "star" init)) = Some ls
       /\ read_line (open_section MASK "star" init) "MAG<20" = Ok st'
       /\ get name (sections MASK st') = Some (ls ++ ["MAG<20"])%list.
Proof.
  assert (H : reachable (open_section MASK "star" init)).
  { apply (reach_step init _ "[MASK:star]" reach_init). reflexivity. }
  split; [exact H|].
  destruct (read_line_by_case _ H) as (_ & _ & _ & H4).
  destruct (H4 MASK "M"%char "AG<20" eq_refl eq_refl)
    as (name & ls & st' & Hn & Hg & Hr & _ & _ & Hg' & _).
  exists name, ls, st'. repeat split; assumption.
Defined.

(** [read] applies [read_line] to the cleaned lines it keeps. *)
Fixpoint kept_lines (file : list string) : list string :=
  match file with
  | [] => []
  | l :: rest =>
      if String.eqb l "" then []
      else match _clean_line l with
           | Some c => c :: kept_lines rest
           | None => kept_lines rest
           end
  end.

Lemma read_loop_kept (file : list string) (st : state) :
  read_loop st file = read_lines st (kept_lines file).
Proof.
  revert st. induction file as [|l rest IH]; intros st; simpl; [reflexivity|].
  destruct (String.eqb l ""); [reflexivity|].
  destruct (_clean_line l); simpl; [|apply IH].
  destruct (read_line st s); simpl; [apply IH|reflexivity].
Qed.

Lemma read_lines_reachable (lines : list string) (st st' : state) :
  reachable st -> read_lines st lines = Ok st' -> reachable st'.
Proof.
  revert st. induction lines as [|l rest IH]; intros st Hst; simpl.
  - intros [= <-]. assumption.
  - destruct (read_line st l) as [st1|e] eqn:E; simpl; [|discriminate].
    apply IH. exact (reach_step st st1 l Hst E).
Qed.

(** *** Section names *)

(** A config seen as its sections: the kind and the optional name of the
    header, and the cleaned lines that follow it. *)
Record block : Type := mkBlock {
  b_kind : kind;
  b_name : option string;
  b_lines : list string
}.

Definition kind_eq_dec (a b : kind) : {a = b} + {a <> b}.
Proof. decide equality. Defined.

(** The cleaned lines of a config made of the sections [bs]. *)
Fixpoint render (bs : list block) : list string :=
  match bs with
  | [] => []
  | b :: r => (header (kind_name (b_kind b)) (b_name b) :: b_lines b ++ render r)%list
  end.

(** A line of a section body: not empty and not starting with [[]. *)
Definition body_line (l : string) : bool :=
  match l with
  | EmptyString => false
  | String c _ => negb (Ascii.eqb c lbracket)
  end.

Definition block_ok (b : block) : bool :=
  plain_opt (b_name b) && forallb body_line (b_lines b).

(** The names given in the headers of kind [k], in order. *)
Fixpoint explicit_names (k : kind) (bs : list block) : list string :=
  match bs with
  | [] => []
  | b :: r =>
      match b_name b with
      | Some x => if kind_eq_dec (b_kind b) k then x :: explicit_names k r
                  else explicit_names k r
      | None => explicit_names k r
      end
  end.

(** What the sections of kind [k] are meant to be stored as: each under
    its own name, the [i]-th section of the kind (counting from [n + 1])
    under [<kind>_<i>] when its header gives no name. *)
Fixpoint assign (k : kind) (n : nat) (bs : list block) : dict (list string) :=
  match bs with
  | [] => []
  | b :: r =>
      if kind_eq_dec (b_kind b) k then
        (match b_name b with Some x => x | None => gen_name k (n + 1) end, b_lines b)
          :: assign k (n + 1) r
      else assign k n r
  end.

Definition count_kind (k : kind) (bs : list block) : nat :=
  List.length (filter (fun b => if kind_eq_dec (b_kind b) k then true else false) bs).

Definition file_of (lines : list string) : list string :=
  map (fun l => l ++ String newline "") lines.

Lemma set_set (name : string) (v v' : list string) (d : dict (list string)) :
  set name v (set name v' d) = set name v d.
Proof.
  induction d as [|[k0 v0] r IH]; simpl.
  - rewrite String.eqb_refl. reflexivity.
  - destruct (String.eqb name k0) eqn:E; simpl.
    + rewrite String.eqb_refl. reflexivity.
    + rewrite E, IH. reflexivity.
Qed.

Lemma with_sections_twice (k : kind) (d d' : dict (list string)) (st : state) :
  with_sections k d (with_sections k d' st) = with_sections k d st.
Proof. destruct k; reflexivity. Qed.

Lemma gen_name_inj (k : kind) (n m : nat) : gen_name k n = gen_name k m -> n = m.
Proof. unfold gen_name. intros H. apply append_inj_l in H. apply str_of_nat_inj. exact H. Qed.

Lemma read_lines_app (l1 l2 : list string) (st : state) :
  read_lines st (l1 ++ l2) = (st' <- read_lines st l1 ;; read_lines st' l2).
Proof.
  revert st. induction l1 as [|l r IH]; intros st; simpl; [reflexivity|].
  destruct (read_line st l); simpl; [apply IH|reflexivity].
Qed.

(** The body of a section goes, line by line, to the open section. *)
Lemma read_lines_body (k : kind) (name : string) (body : list string) :
  forallb body_line body = true ->
  forall (st : state) (ls : list string),
    in_section st = code k -> name_var k st = Some name ->
    get name (sections k st) = Some ls ->
    read_lines st body
    = Ok (with_sections k (set name (ls ++ body)%list (sections k st)) st).
Proof.
  induction body as [|l r IH]; intros Hb st ls Hin Hname Hget; simpl.
  - rewrite app_nil_r. f_equal.
    replace (set name ls (sections k st)) with (sections k st).
    + destruct k, st; reflexivity.
    + clear - Hget. induction (sections k st) as [|[k0 v0] d IHd]; simpl in *; [discriminate|].
      destruct (String.eqb_spec name k0) as [->|Hne].
      * injection Hget as ->. reflexivity.
      * rewrite <- (IHd Hget). reflexivity.
  - simpl in Hb. apply andb_prop in Hb as [Hl Hr].
    destruct l as [|c s]; [discriminate|]. simpl in Hl. apply negb_true_iff in Hl.
    rewrite (read_line_inside k c s st Hin Hl). unfold append_line.
    rewrite Hname, Hget. simpl.
    rewrite (IH Hr _ (ls ++ [String c s])%list).
    + rewrite sections_with_same, set_set, with_sections_twice, <- app_assoc. reflexivity.
    + rewrite in_section_with. assumption.
    + rewrite name_var_with. assumption.
    + rewrite sections_with_same. apply get_set_same.
Qed.

(** One whole section: header and body. *)
Lemma read_lines_block (b : block) (st : state) :
  block_ok b = true ->
  read_lines st (header (kind_name (b_kind b)) (b_name b) :: b_lines b)
  = Ok (with_sections (b_kind b)
          (set (stored_name (b_kind b) (b_name b) st) (b_lines b) (sections (b_kind b) st))
          (open_section (b_kind b) (stored_name (b_kind b) (b_name b) st) st)).
Proof.
  intros Hok. apply andb_prop in Hok as [Hn Hb].
  destruct b as [k nm body]. simpl in *.
  rewrite read_line_header by (destruct nm; apply at_header_cons).
  rewrite (read_header_header (kind_name k) nm st) by (destruct k; auto).
  replace (kind_of_string (kind_name k)) with (Some k)
    by (symmetry; apply kind_of_string_some; reflexivity).
  simpl.
  rewrite (read_lines_body k (stored_name k nm st) body Hb _ []).
  - rewrite sections_open_same, set_set. reflexivity.
  - apply in_section_open.
  - apply name_var_open.
  - rewrite sections_open_same. apply get_set_same.
Qed.

Lemma mask_key_block (k : kind) (name : string) (d : dict (list string)) (st : state) :
  _mask_key (with_sections k d (open_section k name st))
  = if kind_eq_dec k MASK then (_mask_key st ++ [name])%list else _mask_key st.
Proof. destruct k; reflexivity. Qed.

Lemma keys_app {V : Type} (d1 d2 : dict V) : keys (d1 ++ d2)%list = (keys d1 ++ keys d2)%list.
Proof. apply map_app. Qed.

(** When the names the sections are meant to have are pairwise distinct,
    [read] stores every section under its name with its own lines. *)
Lemma read_lines_assign (bs : list block) :
  forallb block_ok bs = true ->
  forall st : state,
    (forall k, NoDup (keys (sections k st)
                      ++ keys (assign k (List.length (sections k st)) bs))%list) ->
    _mask_key st = keys (_mask st) ->
    exists st',
      read_lines st (render bs) = Ok st'
      /\ (forall k, sections k st'
                    = (sections k st ++ assign k (List.length (sections k st)) bs)%list)
      /\ _mask_key st' = keys (_mask st').
Proof.
  induction bs as [|b r IH]; intros Hok st Hnd Hkey.
  - exists st. simpl. repeat split; [|assumption].
    intros k. rewrite app_nil_r. reflexivity.
  - simpl in Hok. apply andb_prop in Hok as [Hb Hr].
    change (render (b :: r))
      with ((header (kind_name (b_kind b)) (b_name b) :: b_lines b) ++ render r)%list.
    rewrite read_lines_app, (read_lines_block b st Hb). simpl bind.
    set (k := b_kind b) in *.
    set (name := stored_name k (b_name b) st).
    set (st1 := with_sections k (set name (b_lines b) (sections k st)) (open_section k name st)).
    assert (Hassign : assign k (List.length (sections k st)) (b :: r)
                      = (name, b_lines b) :: assign k (List.length (sections k st) + 1) r).
    { simpl. fold k. destruct (kind_eq_dec k k) as [_|N]; [reflexivity|congruence]. }
    assert (Hfresh : get name (sections k st) = None).
    { apply get_none_keys. intros Hin. specialize (Hnd k). rewrite Hassign in Hnd.
      simpl in Hnd. apply NoDup_remove_2 in Hnd. apply Hnd.
      apply in_or_app. left. assumption. }
    assert (Hsame : sections k st1 = (sections k st ++ [(name, b_lines b)])%list).
    { unfold st1. rewrite sections_with_same. apply keys_set_new. assumption. }
    assert (Hother : forall k', k' <> k -> sections k' st1 = sections k' st).
    { intros k' Hk'. unfold st1.
      rewrite sections_with_other, sections_open_other by assumption. reflexivity. }
    destruct (IH Hr st1) as (st' & Hrun & Hsec & Hkey').
    + intros k'. destruct (kind_eq_dec k' k) as [->|Hne].
      * rewrite Hsame, keys_app, length_app. simpl.
        specialize (Hnd k). rewrite Hassign in Hnd. simpl in Hnd.
        rewrite <- app_assoc. simpl. exact Hnd.
      * rewrite (Hother k' Hne). specialize (Hnd k'). simpl in Hnd. fold k in Hnd.
        destruct (kind_eq_dec k k') as [E|_]; [congruence|]. exact Hnd.
    + unfold st1. rewrite mask_key_block.
      destruct (kind_eq_dec k MASK) as [E|Hne].
      * change (_mask ?s) with (sections MASK s). rewrite <- E. fold st1.
        rewrite Hsame, keys_app, Hkey. simpl. rewrite E. reflexivity.
      * change (_mask ?s) with (sections MASK s). fold st1.
        rewrite Hother by congruence. exact Hkey.
    + exists st'. split; [exact Hrun|]. split; [|exact Hkey'].
      intros k'. rewrite Hsec. destruct (kind_eq_dec k' k) as [->|Hne].
      * rewrite Hsame, Hassign, length_app, <- app_assoc. reflexivity.
      * rewrite (Hother k' Hne). simpl. fold k.
        destruct (kind_eq_dec k k') as [E|_]; [congruence|]. reflexivity.
Qed.

Lemma assign_keys_in (k : kind) (bs : list block) (n : nat) (y : string) :
  In y (keys (assign k n bs)) ->
  In y (explicit_names k bs) \/ exists m, n < m /\ y = gen_name k m.
Proof.
  revert n. induction bs as [|b r IH]; intros n; simpl; [tauto|].
  destruct (kind_eq_dec (b_kind b) k) as [E|Hne].
  - simpl. intros [Hy|Hy].
    + destruct (b_name b) as [x|].
      * left. left. assumption.
      * right. exists (n + 1). split; [lia|congruence].
    + destruct (IH _ Hy) as [Hin|(m & Hm & ->)].
      * left. destruct (b_name b); [right|]; assumption.
      * right. exists m. split; [lia|reflexivity].
  - intros Hy. destruct (IH _ Hy) as [Hin|Hgen]; [left|right; assumption].
    destruct (b_name b); assumption.
Qed.

(** Distinct given names, none of them of the generated form, make all the
    names distinct. *)
Lemma assign_keys_nodup (k : kind) (bs : list block) (n : nat) :
  NoDup (explicit_names k bs) ->
  (forall x m, In x (explicit_names k bs) -> x <> gen_name k m) ->
  NoDup (keys (assign k n bs)).
Proof.
  revert n. induction bs as [|b r IH]; intros n Hnd Hgen; simpl; [constructor|].
  simpl in Hnd, Hgen.
  destruct (kind_eq_dec (b_kind b) k) as [E|Hne].
  - simpl. destruct (b_name b) as [x|].
    + apply NoDup_cons_iff in Hnd as [Hx Hnd']. constructor.
      * intros Hin. apply assign_keys_in in Hin as [Hin|(m & _ & ->)]; [tauto|].
        apply (Hgen (gen_name k m) m); [left|]; reflexivity.
      * apply IH; [assumption|]. intros y m Hy. apply Hgen. right. assumption.
    + constructor.
      * intros Hin. apply assign_keys_in in Hin as [Hin|(m & Hm & Heq)].
        -- apply (Hgen _ (n + 1) Hin). reflexivity.
        -- apply gen_name_inj in Heq. lia.
      * apply IH; assumption.
  - destruct (b_name b); apply IH; assumption.
Qed.

Lemma assign_length (k : kind) (bs : list block) (n : nat) :
  List.length (assign k n bs) = count_kind k bs.
Proof.
  unfold count_kind. revert n. induction bs as [|b r IH]; intros n; simpl; [reflexivity|].
  destruct (kind_eq_dec (b_kind b) k); simpl; rewrite IH; reflexivity.
Qed.

(** C9 (as the code has it). For a config whose sections are [bs], when
    the names given in the headers of each kind are pairwise distinct and
    none of them has the generated form [<kind>_<n>], [read] succeeds and
    stores, for each kind, every section under its own name with its own
    line list: a section without a name is stored as [<kind>_<i>], [i]
    its position among the sections of its kind; the stored names are
    pairwise distinct and as many as the sections of the kind; and
    [_mask_key] lists the MASK names in order. *)
Theorem read_names_unique (bs : list block) (file : list string) :
  kept_lines file = render bs ->
  forallb block_ok bs = true ->
  (forall k, NoDup (explicit_names k bs)) ->
  (forall k x m, In x (explicit_names k bs) -> x <> gen_name k m) ->
  exists st,
    read file = Ok st
    /\ (forall k, sections k st = assign k 0 bs
                  /\ NoDup (keys (sections k st))
                  /\ List.length (sections k st) = count_kind k bs)
    /\ _mask_key st = keys (_mask st).
Proof.
  intros Hfile Hok Hnd Hgen.
  destruct (read_lines_assign bs Hok init) as (st & Hrun & Hsec & Hkey).
  - intros k. replace (sections k init) with (@nil (string * list string))
      by (destruct k; reflexivity).
    simpl. apply assign_keys_nodup; [apply Hnd|apply Hgen].
  - reflexivity.
  - exists st. unfold read. rewrite read_loop_kept, Hfile. split; [exact Hrun|].
    split; [|exact Hkey]. intros k. specialize (Hsec k).
    replace (sections k init) with (@nil (string * list string)) in Hsec
      by (destruct k; reflexivity).
    simpl in Hsec. rewrite Hsec. split; [reflexivity|]. split.
    + apply assign_keys_nodup; [apply Hnd|apply Hgen].
    + apply assign_length.
Qed.

Definition two_masks_one_stat : list block :=
  [ mkBlock MASK (Some "bright") ["MAG<20"; "NO_SAVE"];
    mkBlock MASK None ["FLAGS==0"];
    mkBlock STAT None ["N=len(X)"] ].

Lemma read_names_unique_witness :
  exists st,
    read (file_of (render two_masks_one_stat)) = Ok st
    /\ (forall k, sections k st = assign k 0 two_masks_one_stat
                  /\ NoDup (keys (sections k st))
                  /\ List.length (sections k st) = count_kind k two_masks_one_stat)
    /\ _mask_key st = keys (_mask st).
Proof.
  apply (read_names_unique two_masks_one_stat (file_of (render two_masks_one_stat))).
  - reflexivity.
  - reflexivity.
  - intros k. destruct k; simpl; repeat constructor; simpl; tauto.
  - intros k x m Hin. destruct k; simpl in Hin; try tauto.
    destruct Hin as [<-|[]]. discriminate.
Defined.

(** C9 as stated fails: a section named like a generated name is replaced
    by the unnamed section that follows it. *)
Lemma read_names_collide :
  exists st,
    read (file_of ["[MASK:mask_2]"; "MAG<20"; "[MASK]"; "FLAGS==0"]) = Ok st
    /\ _mask_key st = ["mask_2"; "mask_2"]
    /\ _mask st = [("mask_2", ["FLAGS==0"])]
    /\ ~ NoDup (_mask_key st).
Proof.
  eexists. split; [vm_compute; reflexivity|]. simpl.
  repeat split. intros H. apply NoDup_cons_iff in H as [H _]. apply H. left. reflexivity.
Qed.

Example read_same_name_twice :
  exists st,
    read (file_of ["[STAT:s]"; "A=mean(X)"; "[STAT:s]"; "B=mean(Y)"]) = Ok st
    /\ _stat st = [("s", ["B=mean(Y)"])].
Proof. eexists. split; [vm_compute; reflexivity|reflexivity]. Qed.

End Reader.

(** ** numpy arrays, as far as the script uses them *)

Module Numpy.

(** What [sc.interpreter(...).result] can be: a boolean array, or an array
    of another dtype (its cells kept in printed form). *)
Inductive ndarray : Type :=
| BoolArr (b : list bool)
| OtherArr (cells : list string).

(** [np.ones(n, dtype=bool)] *)
Definition ones (n : nat) : list bool := repeat true n.

Fixpoint vand (a b : list bool) : list bool :=
  match a, b with
  | x :: a', y :: b' => (x && y) :: vand a' b'
  | _, _ => []
  end.

(** The operand of [mask &= r] as [numpy] reads it against a boolean array
    of [n] cells: the array itself when it has [n] cells, its one cell
    repeated when it has one, and an error otherwise. *)
Definition broadcast (n : nat) (r : ndarray) : result (list bool) :=
  match r with
  | BoolArr b =>
      if List.length b =? n then Ok b
      else if List.length b =? 1 then Ok (repeat (hd true b) n)
      else Raise (ValueError "operands could not be broadcast together")
  | OtherArr _ => Raise (TypeError "ufunc 'bitwise_and' output cannot be cast to bool")
  end.

(** [mask &= r], in place: the array keeps its shape. *)
Definition iand (mask : list bool) (r : ndarray) : result (list bool) :=
  b <- broadcast (List.length mask) r ;; Ok (vand mask b).

(** [data[mask]] for a boolean [mask]. *)
Fixpoint select {A : Type} (data : list A) (mask : list bool) : list A :=
  match data, mask with
  | x :: data', b :: mask' => if b then x :: select data' mask' else select data' mask'
  | _, _ => []
  end.

(** A mask with one cell for each row selects rows; a mask without any
    cell selects none, whatever the rows; any other mask is refused. *)
Definition bool_index {A : Type} (data : list A) (mask : list bool) : result (list A) :=
  if (List.length mask =? List.length data) || (List.length mask =? 0)
  then Ok (select data mask)
  else Raise (IndexError "boolean index did not match indexed array").

(** [data[idx]] for an array of integers [idx], as [np.where] returns
    them. *)
Fixpoint take {A : Type} (data : list A) (idx : list nat) : result (list A) :=
  match idx with
  | [] => Ok []
  | i :: r =>
      match nth_error data i with
      | Some x => xs <- take data r ;; Ok (x :: xs)
      | None => Raise (IndexError "index out of bounds")
      end
  end.

(** [data[np.array(l)]] for a Python list [l] of integers: [np.array([])]
    has the dtype [float64], and an array of floats is refused as an
    index. *)
Definition take_list {A : Type} (data : list A) (l : list nat) : result (list A) :=
  match l with
  | [] => Raise (IndexError "arrays used as indices must be of integer (or boolean) type")
  | _ => take data l
  end.

(** [len(np.where(mask)[0])] *)
Definition count_true (mask : list bool) : nat := List.length (filter (fun b => b) mask).

Lemma ones_length (n : nat) : List.length (ones n) = n.
Proof. apply repeat_length. Qed.

Lemma vand_length (a b : list bool) :
  List.length b = List.length a -> List.length (vand a b) = List.length a.
Proof.
  revert b. induction a as [|x a IH]; intros [|y b] H; simpl in *; try lia.
  rewrite IH; lia.
Qed.

Lemma broadcast_length (n : nat) (r : ndarray) (b : list bool) :
  broadcast n r = Ok b -> List.length b = n.
Proof.
  destruct r as [c|c]; simpl; [|discriminate].
  destruct (Nat.eqb_spec (List.length c) n) as [E|_].
  - intros [= <-]. exact E.
  - destruct (List.length c =? 1); [|discriminate].
    intros [= <-]. apply repeat_length.
Qed.

Lemma iand_length (mask : list bool) (r : ndarray) (m : list bool) :
  iand mask r = Ok m -> List.length m = List.length mask.
Proof.
  unfold iand. destruct (broadcast (List.length mask) r) as [b|e] eqn:E; simpl; [|discriminate].
  intros [= <-]. apply vand_length. exact (broadcast_length _ _ _ E).
Qed.

Lemma vand_ones (b : list bool) : vand (ones (List.length b)) b = b.
Proof. induction b as [|x b IH]; simpl; [reflexivity|]. unfold ones in IH. rewrite IH. reflexivity. Qed.

End Numpy.

(** ** [SETools._make_mask] and the mask part of [SETools.process] *)

Module Masks.

Import PyStr Dict Numpy.

(** One call of [save_as_fits] on a [FITSCatalog] opened on [path]. *)
Record fits_write (Row : Type) : Type := mkWrite {
  path : string;
  rows : list Row;
  ext_name : string;
  sex_cat_path : option string
}.

Arguments mkWrite {Row} path rows ext_name sex_cat_path.
Arguments path {Row} f.
Arguments rows {Row} f.

Section WithCatalog.

(** The rows of the catalog, [self._cat_file.get_data()], and
    [sc.interpreter(line, data, make_compare, mask_dict).result]. *)
Variable Row : Type.
Variable interpreter :
  string -> list Row -> bool -> dict (list bool) -> result ndarray.

Variable data : list Row.
Variable cat_filepath : string.

(** [self._cat_size] *)
Definition _cat_size : nat := List.length data.

(** The loop over the lines of one section:
    [for j in self._mask[i]: if j == 'NO_SAVE': continue; mask_tmp &= ...]. *)
Fixpoint lines_loop (lines : list string) (mask_tmp : list bool)
    (mask : dict (list bool)) : result (list bool) :=
  match lines with
  | [] => Ok mask_tmp
  | j :: rest =>
      if String.eqb j "NO_SAVE" then lines_loop rest mask_tmp mask
      else
        r <- interpreter j data true mask ;;
        mask_tmp' <- iand mask_tmp r ;;
        lines_loop rest mask_tmp' mask
  end.

(** The loop [for i in self._mask_key]; [mask] is [self.mask]. *)
Fixpoint mask_loop (_mask : dict (list string)) (keys : list string)
    (mask : dict (list bool)) : result (dict (list bool)) :=
  match keys with
  | [] => Ok mask
  | i :: rest =>
      match get i _mask with
      | None => Raise (KeyError i)
      | Some lines =>
          mask_tmp <- lines_loop lines (ones _cat_size) mask ;;
          mask_loop _mask rest (set i mask_tmp mask)
      end
  end.

(** [_make_mask]: [None] when [self.mask] is left unset. *)
Definition _make_mask (st : Reader.state) : result (option (dict (list bool))) :=
  if List.length (Reader._mask st) =? 0 then Ok None
  else mask <- mask_loop (Reader._mask st) (Reader._mask_key st) [] ;; Ok (Some mask).

(** [save_mask] *)
Definition save_mask (mask : option (list bool)) (output_path : option string)
    (ext : string) : result (fits_write Row) :=
  match mask with
  | None => Raise (ValueError "mask not provided")
  | Some m =>
      match output_path with
      | None => Raise (ValueError "output path not provided")
      | Some p =>
          selected <- bool_index data m ;;
          Ok (mkWrite p selected ext (Some cat_filepath))
      end
  end.

Definition mask_file_name (output_dir file_number i : string) : string :=
  output_dir ++ "/mask/" ++ i ++ file_number ++ ".fits".

(** ['NO_SAVE' in self._mask[i]] *)
Definition has_no_save (lines : list string) : bool :=
  existsb (String.eqb "NO_SAVE") lines.

(** The loop [for i in self.mask.keys()] of [process]. *)
Fixpoint save_loop (output_dir file_number : string) (_mask : dict (list string))
    (mask : dict (list bool)) (ks : list string) : result (list (fits_write Row)) :=
  match ks with
  | [] => Ok []
  | i :: rest =>
      match get i _mask with
      | None => Raise (KeyError i)
      | Some lines =>
          if has_no_save lines then save_loop output_dir file_number _mask mask rest
          else
            w <- save_mask (get i mask) (Some (mask_file_name output_dir file_number i))
                   "LDAC_OBJECTS" ;;
            ws <- save_loop output_dir file_number _mask mask rest ;;
            Ok (w :: ws)
      end
  end.

(** The mask part of [process]: the masks built and the files written. *)
Definition process_masks (output_dir file_number : string) (st : Reader.state)
    : result (option (dict (list bool)) * list (fits_write Row)) :=
  if negb (List.length (Reader._mask st) =? 0) then
    made <- _make_mask st ;;
    match made with
    | None => Raise (NameError "mask")
    | Some mask =>
        ws <- save_loop output_dir file_number (Reader._mask st) mask (keys mask) ;;
        Ok (Some mask, ws)
    end
  else Ok (None, []).

(** *** The mask as the spec words it *)

(** The constraint lines of a section: all but the directive. *)
Definition constraints (lines : list string) : list string :=
  filter (fun j => negb (String.eqb j "NO_SAVE")) lines.

(** The predicate-mode results of the lines, in order, each as a boolean
    vector of [n] cells. *)
Fixpoint predicates (n : nat) (lines : list string) (mask : dict (list bool))
    : result (list (list bool)) :=
  match lines with
  | [] => Ok []
  | j :: rest =>
      r <- interpreter j data true mask ;;
      b <- broadcast n r ;;
      bs <- predicates n rest mask ;;
      Ok (b :: bs)
  end.

(** The AND of the vectors [bs], from the seed. *)
Definition and_all (seed : list bool) (bs : list (list bool)) : list bool :=
  fold_left vand bs seed.

Definition mask_spec (lines : list string) (mask : dict (list bool)) : result (list bool) :=
  bs <- predicates _cat_size (constraints lines) mask ;;
  Ok (and_all (ones _cat_size) bs).

(** *** Facts *)

Lemma predicates_lengths (n : nat) (lines : list string) (mask : dict (list bool))
    (bs : list (list bool)) :
  predicates n lines mask = Ok bs -> Forall (fun b => List.length b = n) bs.
Proof.
  revert bs. induction lines as [|j rest IH]; intros bs; simpl.
  - intros [= <-]. constructor.
  - destruct (interpreter j data true mask) as [r|e]; simpl; [|discriminate].
    destruct (broadcast n r) as [b|e] eqn:Eb; simpl; [|discriminate].
    destruct (predicates n rest mask) as [bs'|e]; simpl; [|discriminate].
    intros [= <-]. constructor; [exact (broadcast_length _ _ _ Eb)|apply IH; reflexivity].
Qed.

Lemma and_all_length (n : nat) (bs : list (list bool)) (seed : list bool) :
  Forall (fun b => List.length b = n) bs -> List.length seed = n ->
  List.length (and_all seed bs) = n.
Proof.
  unfold and_all. revert seed. induction bs as [|b bs IH]; intros seed Hbs Hseed; simpl.
  - assumption.
  - inversion Hbs as [|? ? Hb Hbs']; subst. apply IH; [assumption|].
    rewrite vand_length; congruence.
Qed.

(** The loop over the lines computes the AND of the constraint lines. *)
Lemma lines_loop_and (lines : list string) (mask : dict (list bool)) :
  forall mask_tmp : list bool,
    List.length mask_tmp = _cat_size ->
    lines_loop lines mask_tmp mask
    = (bs <- predicates _cat_size (constraints lines) mask ;; Ok (and_all mask_tmp bs)).
Proof.
  induction lines as [|j rest IH]; intros mask_tmp Hlen; simpl; [reflexivity|].
  destruct (String.eqb j "NO_SAVE"); simpl; [apply IH; assumption|].
  destruct (interpreter j data true mask) as [r|e]; simpl; [|reflexivity].
  unfold iand. rewrite Hlen.
  destruct (broadcast _cat_size r) as [b|e] eqn:Eb; simpl; [|reflexivity].
  rewrite IH.
  - destruct (predicates _cat_size (constraints rest) mask); reflexivity.
  - rewrite vand_length; [assumption|]. rewrite (broadcast_length _ _ _ Eb). congruence.
Qed.

Lemma lines_loop_constraints (lines : list string) (mask : dict (list bool))
    (mask_tmp : list bool) :
  lines_loop lines mask_tmp mask = lines_loop (constraints lines) mask_tmp mask.
Proof.
  revert mask_tmp. induction lines as [|j rest IH]; intros mask_tmp; simpl; [reflexivity|].
  destruct (String.eqb j "NO_SAVE") eqn:E; simpl; [apply IH|].
  rewrite E. destruct (interpreter j data true mask) as [r|e]; simpl; [|reflexivity].
  destruct (iand mask_tmp r); simpl; [apply IH|reflexivity].
Qed.

Lemma mask_loop_split (_mask : dict (list string)) (pre post : list string) (i : string) :
  forall (mask0 masks : dict (list bool)),
    mask_loop _mask (pre ++ i :: post) mask0 = Ok masks ->
    exists earlier lines m,
      mask_loop _mask pre mask0 = Ok earlier
      /\ get i _mask = Some lines
      /\ lines_loop lines (ones _cat_size) earlier = Ok m
      /\ mask_loop _mask post (set i m earlier) = Ok masks.
Proof.
  induction pre as [|p pre IH]; intros mask0 masks; simpl.
  - destruct (get i _mask) as [lines|]; [|discriminate].
    destruct (lines_loop lines (ones _cat_size) mask0) as [m|e] eqn:E; simpl; [|discriminate].
    intros H. exists mask0, lines, m. repeat split; assumption.
  - destruct (get p _mask) as [pl|]; [|discriminate].
    destruct (lines_loop pl (ones _cat_size) mask0) as [m|e]; simpl; [|discriminate].
    apply IH.
Qed.

Lemma mask_loop_get_other (_mask : dict (list string)) (ks : list string) (i : string) :
  forall (mask0 masks : dict (list bool)),
    mask_loop _mask ks mask0 = Ok masks -> ~ In i ks -> get i masks = get i mask0.
Proof.
  induction ks as [|k ks IH]; intros mask0 masks; simpl.
  - intros [= <-] _. reflexivity.
  - destruct (get k _mask) as [kl|]; [|discriminate].
    destruct (lines_loop kl (ones _cat_size) mask0) as [m|e]; simpl; [|discriminate].
    intros H Hnot. rewrite (IH _ _ H) by tauto. apply get_set_other. tauto.
Qed.

Lemma mask_loop_keys (_mask : dict (list string)) (ks : list string) :
  forall (mask0 masks : dict (list bool)),
    mask_loop _mask ks mask0 = Ok masks ->
    forall i, In i (keys masks) <-> In i ks \/ In i (keys mask0).
Proof.
  induction ks as [|k ks IH]; intros mask0 masks; simpl.
  - intros [= <-] i. tauto.
  - destruct (get k _mask) as [kl|]; [|discriminate].
    destruct (lines_loop kl (ones _cat_size) mask0) as [m|e]; simpl; [|discriminate].
    intros H i. rewrite (IH _ _ H), keys_set_in. intuition congruence.
Qed.

Lemma has_no_save_in (lines : list string) :
  has_no_save lines = true <-> In "NO_SAVE" lines.
Proof.
  unfold has_no_save. rewrite existsb_exists. split.
  - intros (x & Hin & Hx). apply String.eqb_eq in Hx. congruence.
  - intros H. exists "NO_SAVE". split; [assumption|apply String.eqb_refl].
Qed.

Lemma mask_file_name_inj (output_dir file_number i i' : string) :
  mask_file_name output_dir file_number i = mask_file_name output_dir file_number i' ->
  i = i'.
Proof.
  unfold mask_file_name. intros H.
  apply append_inj_l in H. apply append_inj_l in H.
  apply (append_inj_r (file_number ++ ".fits")). exact H.
Qed.

(** What the loop of [process] writes. *)
Lemma save_loop_in (output_dir file_number : string) (_mask : dict (list string))
    (mask : dict (list bool)) (ks : list string) :
  forall ws, save_loop output_dir file_number _mask mask ks = Ok ws ->
  forall w, In w ws <->
    exists i lines m selected,
      In i ks /\ get i _mask = Some lines /\ has_no_save lines = false
      /\ get i mask = Some m /\ bool_index data m = Ok selected
      /\ w = mkWrite (mask_file_name output_dir file_number i) selected
               "LDAC_OBJECTS" (Some cat_filepath).
Proof.
  induction ks as [|k ks IH]; intros ws; simpl.
  - intros [= <-] w. simpl. split; [tauto|]. intros (i & _ & _ & _ & [] & _).
  - destruct (get k _mask) as [kl|] eqn:Ek; [|discriminate].
    destruct (has_no_save kl) eqn:Ens.
    + intros H w. rewrite (IH _ H). split.
      * intros (i & lines & m & sel & Hi & Hrest). exists i, lines, m, sel. tauto.
      * intros (i & lines & m & sel & [->|Hi] & Hg & Hn & Hrest).
        -- congruence.
        -- exists i, lines, m, sel. tauto.
    + unfold save_mask.
      destruct (get k mask) as [m|] eqn:Em; simpl; [|discriminate].
      destruct (bool_index data m) as [sel|e] eqn:Es; simpl; [|discriminate].
      destruct (save_loop output_dir file_number _mask mask ks) as [ws'|e]; simpl; [|discriminate].
      intros [= <-] w. simpl. rewrite (IH _ eq_refl). split.
      * intros [<-|(i & lines & m' & sel' & Hi & Hrest)].
        -- exists k, kl, m, sel. repeat split; auto.
        -- exists i, lines, m', sel'. tauto.
      * intros (i & lines & m' & sel' & [->|Hi] & Hg & Hn & Hm & Hs & ->).
        -- left. congruence.
        -- right. exists i, lines, m', sel'. repeat split; auto.
Qed.

Lemma save_loop_written (output_dir file_number : string) (_mask : dict (list string))
    (mask : dict (list bool)) (ks : list string) (i : string) (lines : list string) :
  forall ws, save_loop output_dir file_number _mask mask ks = Ok ws ->
  In i ks -> get i _mask = Some lines -> has_no_save lines = false ->
  exists m selected,
    get i mask = Some m /\ bool_index data m = Ok selected
    /\ In (mkWrite (mask_file_name output_dir file_number i) selected
             "LDAC_OBJECTS" (Some cat_filepath)) ws.
Proof.
  induction ks as [|k ks IH]; intros ws; simpl; [tauto|].
  destruct (get k _mask) as [kl|] eqn:Ek; [|discriminate].
  destruct (has_no_save kl) eqn:Ens.
  - intros H [->|Hi] Hg Hn; [congruence|]. apply (IH ws); assumption.
  - unfold save_mask.
    destruct (get k mask) as [m|] eqn:Em; simpl; [|discriminate].
    destruct (bool_index data m) as [sel|e] eqn:Es; simpl; [|discriminate].
    destruct (save_loop output_dir file_number _mask mask ks) as [ws'|e]; simpl; [|discriminate].
    intros [= <-] [->|Hi] Hg Hn.
    + exists m, sel. repeat split; auto. left. reflexivity.
    + destruct (IH ws' eq_refl Hi Hg Hn) as (m' & sel' & Hm & Hs & Hin).
      exists m', sel'. repeat split; auto. right. assumption.
Qed.

(** C1. The loop over the lines of a MASK section is the AND, seeded with
    the all-true vector, of the predicate-mode results of its constraint
    lines (all lines but [NO_SAVE]), in order; and when [_make_mask]
    returns, the mask stored for a section is that AND, evaluated against
    the masks of the sections before it, it has as many cells as the
    catalog has rows, and it is the all-true vector when the section has
    no constraint line. *)
Theorem make_mask_is_and (st : Reader.state) (masks : dict (list bool)) :
  _make_mask st = Ok (Some masks) ->
  forall pre i post,
    Reader._mask_key st = (pre ++ i :: post)%list -> ~ In i post ->
    exists lines earlier m,
      get i (Reader._mask st) = Some lines
      /\ mask_loop (Reader._mask st) pre [] = Ok earlier
      /\ lines_loop lines (ones _cat_size) earlier = mask_spec lines earlier
      /\ mask_spec lines earlier = Ok m
      /\ get i masks = Some m
      /\ List.length m = _cat_size
      /\ (constraints lines = [] -> m = ones _cat_size).
Proof.
  unfold _make_mask. destruct (List.length (Reader._mask st) =? 0); [discriminate|].
  destruct (mask_loop (Reader._mask st) (Reader._mask_key st) []) as [mk|e] eqn:Hloop;
    simpl; [|discriminate].
  intros [= <-] pre i post Hkeys Hpost. rewrite Hkeys in Hloop.
  destruct (mask_loop_split _ pre post i _ _ Hloop) as (earlier & lines & m & Hpre & Hg & Hl & Hrest).
  assert (Hspec : lines_loop lines (ones _cat_size) earlier = mask_spec lines earlier).
  { apply lines_loop_and. apply ones_length. }
  exists lines, earlier, m. repeat split; try assumption; try congruence.
  - rewrite (mask_loop_get_other _ _ i _ _ Hrest Hpost). apply get_set_same.
  - rewrite Hspec in Hl. unfold mask_spec in Hl.
    destruct (predicates _cat_size (constraints lines) earlier) as [bs|e] eqn:Eb;
      simpl in Hl; [|discriminate].
    injection Hl as <-. apply and_all_length; [|apply ones_length].
    exact (predicates_lengths _ _ _ _ Eb).
  - intros Hnone. rewrite Hspec in Hl. unfold mask_spec in Hl. rewrite Hnone in Hl.
    simpl in Hl. congruence.
Qed.

(** C5. When the mask part of [process] returns: a line [NO_SAVE] is
    skipped by the evaluation of its section; every section has its mask
    in [self.mask]; no file is written for a section that holds a
    [NO_SAVE] line; and the file of every other section is written, with
    the rows the mask selects. *)
Theorem no_save_mask_not_written (output_dir file_number : string)
    (st : Reader.state) (masks : dict (list bool)) (ws : list (fits_write Row)) :
  process_masks output_dir file_number st = Ok (Some masks, ws) ->
  forall i lines,
    In i (Reader._mask_key st) -> get i (Reader._mask st) = Some lines ->
    (forall mask_tmp mask,
        lines_loop lines mask_tmp mask = lines_loop (constraints lines) mask_tmp mask)
    /\ ~ In "NO_SAVE" (constraints lines)
    /\ (exists m, get i masks = Some m)
    /\ (In "NO_SAVE" lines ->
        forall w, In w ws -> path w <> mask_file_name output_dir file_number i)
    /\ (~ In "NO_SAVE" lines ->
        exists m selected,
          get i masks = Some m /\ bool_index data m = Ok selected
          /\ In (mkWrite (mask_file_name output_dir file_number i) selected
                   "LDAC_OBJECTS" (Some cat_filepath)) ws).
Proof.
  unfold process_masks, _make_mask.
  destruct (List.length (Reader._mask st) =? 0); simpl; [discriminate|].
  destruct (mask_loop (Reader._mask st) (Reader._mask_key st) []) as [mk|e] eqn:Hloop;
    simpl; [|discriminate].
  destruct (save_loop output_dir file_number (Reader._mask st) mk (keys mk)) as [ws'|e] eqn:Hsave;
    simpl; [|discriminate].
  intros [= <- <-] i lines Hkey Hlines.
  assert (Hin : In i (keys mk)).
  { apply (mask_loop_keys _ _ _ _ Hloop). left. assumption. }
  split; [intros; apply lines_loop_constraints|].
  split.
  { unfold constraints. rewrite filter_In. intros [_ H]. discriminate. }
  split.
  { destruct (get i mk) as [m|] eqn:E; [exists m; reflexivity|].
    apply get_none_keys in E. contradiction. }
  split.
  - intros Hns w Hw Hpath.
    apply (save_loop_in _ _ _ _ _ _ Hsave) in Hw
      as (i' & lines' & m & sel & _ & Hg & Hn & _ & _ & ->).
    simpl in Hpath. apply mask_file_name_inj in Hpath. subst i'.
    apply has_no_save_in in Hns. congruence.
  - intros Hns. apply (save_loop_written _ _ _ _ _ i lines _ Hsave Hin Hlines).
    destruct (has_no_save lines) eqn:E; [|reflexivity].
    apply has_no_save_in in E. contradiction.
Qed.

End WithCatalog.

(** *** A small catalog *)

Definition demo_data : list Z := [18; 21; 19; 25]%Z.

(** An interpreter for two comparisons on the one column of [demo_data]
    and for references to masks. *)
Definition demo_interpreter (j : string) (data : list Z) (make_compare : bool)
    (mask : dict (list bool)) : result ndarray :=
  if String.eqb j "MAG<20" then Ok (BoolArr (map (fun x => Z.ltb x 20) data))
  else if String.eqb j "MAG>18" then Ok (BoolArr (map (fun x => Z.ltb 18 x) data))
  else match get j mask with
       | Some m => Ok (BoolArr m)
       | None => Raise (ValueError "unknown name")
       end.

Definition demo_file : list string :=
  Reader.file_of ["[MASK:bright]"; "MAG<20"; "NO_SAVE"; "[MASK:mid]"; "bright"; "MAG>18"].

Definition demo_state : Reader.state :=
  Eval vm_compute in
    match Reader.read demo_file with Ok st => st | Raise _ => Reader.init end.

Definition demo_masks : dict (list bool) :=
  [("bright", [true; false; true; false]); ("mid", [false; false; true; false])].

Lemma make_mask_is_and_witness :
  _make_mask Z demo_interpreter demo_data demo_state = Ok (Some demo_masks)
  /\ exists lines earlier m,
       get "mid" (Reader._mask demo_state) = Some lines
       /\ mask_loop Z demo_interpreter demo_data (Reader._mask demo_state) ["bright"] []
          = Ok earlier
       /\ mask_spec Z demo_interpreter demo_data lines earlier = Ok m
       /\ get "mid" demo_masks = Some m
       /\ List.length m = 4.
Proof.
  split; [reflexivity|].
  destruct (make_mask_is_and Z demo_interpreter demo_data demo_state demo_masks
              eq_refl ["bright"] "mid" [] eq_refl (fun H => H))
    as (lines & earlier & m & H1 & H2 & _ & H3 & H4 & H5 & _).
  exists lines, earlier, m. repeat split; assumption.
Defined.

Lemma no_save_mask_not_written_witness :
  exists ws,
    process_masks Z demo_interpreter demo_data "cat-001-0.fits" "out" "-001-0" demo_state
    = Ok (Some demo_masks, ws)
    /\ (forall w, In w ws -> path w <> "out/mask/bright-001-0.fits")
    /\ In (mkWrite "out/mask/mid-001-0.fits" [19%Z] "LDAC_OBJECTS" (Some "cat-001-0.fits")) ws.
Proof.
  eexists. split; [reflexivity|].
  pose proof (no_save_mask_not_written Z demo_interpreter demo_data "cat-001-0.fits"
                "out" "-001-0" demo_state demo_masks _ eq_refl) as H.
  split.
  - destruct (H "bright" ["MAG<20"; "NO_SAVE"] (or_introl eq_refl) eq_refl)
      as (_ & _ & _ & Hno & _).
    apply Hno. right. left. reflexivity.
  - destruct (H "mid" ["bright"; "MAG>18"] (or_intror (or_introl eq_refl)) eq_refl)
      as (_ & _ & _ & _ & Hyes).
    destruct Hyes as (m & sel & Hm & Hs & Hin).
    + intros [E|[E|[]]]; discriminate.
    + injection Hm as <-. injection Hs as <-. exact Hin.
Defined.

End Masks.

(** ** Python floats *)

Module PyFloat.

(** [float(n)] for a Python integer [n] ([0 <= n < 2^63]); exact below
    [2^53]. *)
Definition of_Z (z : Z) : PrimFloat.float := PrimFloat.of_uint63 (Uint63.of_Z z).

Definition of_nat (n : nat) : PrimFloat.float := of_Z (Z.of_nat n).

(** The integer a float is turned into, its value [n * 2^e] rounded up
    ([int(ceil(x))], with [ceil] of [math]) or cut towards zero
    ([int(x)]). [int] refuses the infinities and NaN. *)
Definition to_int (up : bool) (x : PrimFloat.float) : result Z :=
  match FloatOps.Prim2SF x with
  | SpecFloat.S754_zero _ => Ok 0%Z
  | SpecFloat.S754_infinity _ =>
      Raise (OverflowError "cannot convert float infinity to integer")
  | SpecFloat.S754_nan => Raise (ValueError "cannot convert float NaN to integer")
  | SpecFloat.S754_finite s m e =>
      let n := if s then Z.neg m else Z.pos m in
      if (0 <=? e)%Z then Ok (n * 2 ^ e)%Z
      else if up then Ok (- ((- n) / 2 ^ (- e)))%Z
      else Ok (Z.quot n (2 ^ (- e)))
  end.

(** [int(ceil(x))] *)
Definition int_ceil (x : PrimFloat.float) : result Z := to_int true x.

(** [int(x)] *)
Definition int (x : PrimFloat.float) : result Z := to_int false x.

Example int_ceil_values :
  int_ceil (PrimFloat.div (of_nat 9) (of_nat 2)) = Ok 5%Z
  /\ int_ceil (PrimFloat.opp (PrimFloat.div (of_nat 9) (of_nat 2))) = Ok (-4)%Z
  /\ int (PrimFloat.div (of_nat 9) (of_nat 2)) = Ok 4%Z
  /\ int (PrimFloat.opp (PrimFloat.div (of_nat 9) (of_nat 2))) = Ok (-4)%Z
  /\ int_ceil (of_nat 7) = Ok 7%Z
  /\ int_ceil PrimFloat.infinity
     = Raise (OverflowError "cannot convert float infinity to integer")
  /\ int_ceil PrimFloat.nan = Raise (ValueError "cannot convert float NaN to integer").
Proof. repeat split; vm_compute; reflexivity. Qed.

(** Binary64 at work: [28/100.] lies above 0.28, and [0.29*100] below
    29. *)
Example rounding_values :
  int_ceil (PrimFloat.mul (of_nat 25) (PrimFloat.div (of_nat 28) (of_nat 100))) = Ok 8%Z
  /\ int (PrimFloat.mul (PrimFloat.div (of_nat 29) (of_nat 100)) (of_nat 100)) = Ok 28%Z.
Proof. split; vm_compute; reflexivity. Qed.

End PyFloat.

(** ** [SETools._make_rand_split] *)

Module RandSplit.

Import PyStr Dict Numpy.

(** What a split dictionary holds: under ['mask'] the array [mask] of
    [_make_rand_split] itself (one array, allocated once before the loop
    over the sections, and shared), under the ratio keys arrays of
    indices. *)
Inductive entry : Type :=
| MaskRef
| Indices (idx : list nat).

(** [l.pop(j)] *)
Fixpoint pop (j : nat) (l : list nat) {struct l} : option (nat * list nat) :=
  match l, j with
  | [], _ => None
  | x :: r, 0 => Some (x, r)
  | x :: r, S j' =>
      match pop j' r with
      | Some (y, r') => Some (y, x :: r')
      | None => None
      end
  end.

(** [if ratio >= 1: ratio /= 100.] *)
Definition norm_ratio (ratio : PrimFloat.float) : PrimFloat.float :=
  if PrimFloat.leb (PyFloat.of_nat 1) ratio then PrimFloat.div ratio (PyFloat.of_nat 100)
  else ratio.

(** [int(ceil(cat_size*ratio))] *)
Definition n_keep_of (cat_size : nat) (ratio : PrimFloat.float) : result Z :=
  PyFloat.int_ceil (PrimFloat.mul (PyFloat.of_nat cat_size) ratio).

(** [int(ratio*100)] *)
Definition percent_of (ratio : PrimFloat.float) : result Z :=
  PyFloat.int (PrimFloat.mul ratio (PyFloat.of_nat 100)).

(** ['ratio_{0}'.format(n)] *)
Definition ratio_key (n : Z) : string := "ratio_" ++ str_of_Z n.

Definition equal_sign : ascii := "="%char.
Definition comma : ascii := ","%char.

Section WithRandom.

(** [float(s)], [None] when it raises; and the raw value behind the
    [k]-th call of [np.random.randint]. *)
Variable float : string -> option PrimFloat.float.
Variable rnd : nat -> nat.

(** [np.random.randint(0, high)], as the [k]-th call. *)
Definition randint (k : nat) (high : nat) : result nat :=
  if high =? 0 then Raise (ValueError "low >= high")
  else Ok (rnd k mod high).

(** The [while] loop of the draws; [k] counts the calls of [randint].
    [None] only when the fuel runs out. *)
Fixpoint draw (fuel : nat) (n_keep : Z) (mask_ratio mask_left : list nat) (k : nat)
    : option (result (list nat * list nat * nat)) :=
  match fuel with
  | 0 => None
  | S fuel' =>
      if negb (Z.of_nat (List.length mask_ratio) =? n_keep)%Z then
        match randint k (List.length mask_left) with
        | Raise e => Some (Raise e)
        | Ok j =>
            match pop j mask_left with
            | None => Some (Raise (IndexError "pop index out of range"))
            | Some (x, mask_left') =>
                draw fuel' n_keep (mask_ratio ++ [x])%list mask_left' (S k)
            end
        end
      else Some (Ok (mask_ratio, mask_left, k))
  end.

(** The draws for a pool of [cat_size] rows: each turn of the loop takes
    one index out of [mask_left] or ends the loop, so [cat_size + 1] turns
    are all it can make. *)
Definition draw_split (cat_size : nat) (n_keep : Z) (k : nat)
    : option (result (list nat * list nat * nat)) :=
  draw (S cat_size) n_keep [] (seq 0 cat_size) k.

(** The local variables the loop over the sections carries along:
    [ratio] ([None] while unbound), the array [mask], and the number of
    calls of [randint] made so far. *)
Record locals : Type := mkLocals {
  ratio : option PrimFloat.float;
  mask : list bool;
  calls : nat
}.

(** [for k in ss: try: mask &= self.mask[k] except: raise ValueError] *)
Fixpoint and_masks (self_mask : option (dict (list bool))) (ss : list string)
    (mask : list bool) : result (list bool) :=
  match ss with
  | [] => Ok mask
  | k :: rest =>
      match self_mask with
      | None => Raise (ValueError ("mask " ++ k ++ " does not exist"))
      | Some masks =>
          match get k masks with
          | None => Raise (ValueError ("mask " ++ k ++ " does not exist"))
          | Some m =>
              match iand mask (BoolArr m) with
              | Ok mask' => and_masks self_mask rest mask'
              | Raise _ => Raise (ValueError ("mask " ++ k ++ " does not exist"))
              end
          end
      end
  end.

(** The loop over the lines of one section; [line0] is
    [self._rand_split[i][0]]. *)
Fixpoint lines_loop (self_mask : option (dict (list bool))) (line0 : string)
    (lines : list string) (loc : locals) : result locals :=
  match lines with
  | [] => Ok loc
  | j :: rest =>
      match split_on equal_sign j with
      | [s0; s1] =>
          if String.eqb s0 "RATIO" then
            match float s1 with
            | None => Raise (ValueError "RATIO is not a number")
            | Some r =>
                lines_loop self_mask line0 rest
                  (mkLocals (Some (norm_ratio r)) (mask loc) (calls loc))
            end
          else if String.eqb s0 "MASK" then
            mask' <- and_masks self_mask (split_on comma s1) (mask loc) ;;
            lines_loop self_mask line0 rest (mkLocals (ratio loc) mask' (calls loc))
          else lines_loop self_mask line0 rest loc
      | _ => Raise (ValueError ("Not a good format : " ++ line0))
      end
  end.

(** The body of the loop over the sections, for the section [i]. *)
Definition section_body (self_mask : option (dict (list bool))) (i : string)
    (lines : list string) (rand_split : dict (dict entry)) (loc : locals)
    : option (result (dict (dict entry) * locals)) :=
  match lines_loop self_mask (first lines) lines loc with
  | Raise e => Some (Raise e)
  | Ok loc' =>
      let cat_size := count_true (mask loc') in
      match ratio loc' with
      | None => Some (Raise (NameError "ratio"))
      | Some r =>
          match n_keep_of cat_size r with
          | Raise e => Some (Raise e)
          | Ok n_keep =>
              match draw_split cat_size n_keep (calls loc') with
              | None => None
              | Some (Raise e) => Some (Raise e)
              | Some (Ok (mask_ratio, mask_left, k')) =>
                  match percent_of r with
                  | Raise e => Some (Raise e)
                  | Ok p =>
                      let d := set "mask" MaskRef [] in
                      let d := set (ratio_key p) (Indices mask_ratio) d in
                      let d := set (ratio_key (100 - p)%Z) (Indices mask_left) d in
                      Some (Ok (set i d rand_split, mkLocals (Some r) (mask loc') k'))
                  end
              end
          end
      end
  end.

Fixpoint sections_loop (self_mask : option (dict (list bool)))
    (sections : dict (list string)) (rand_split : dict (dict entry)) (loc : locals)
    : option (result (dict (dict entry) * locals)) :=
  match sections with
  | [] => Some (Ok (rand_split, loc))
  | (i, lines) :: rest =>
      match section_body self_mask i lines rand_split loc with
      | Some (Ok (rand_split', loc')) => sections_loop self_mask rest rand_split' loc'
      | other => other
      end
  end.

(** [_make_rand_split] for a catalog of [cat_size] rows: the dictionary
    [self.rand_split] and the final contents of the shared array [mask];
    [Ok None] when there is no section and [self.rand_split] stays unset. *)
Definition _make_rand_split (cat_size : nat) (self_mask : option (dict (list bool)))
    (_rand_split : dict (list string))
    : option (result (option (dict (dict entry) * list bool))) :=
  if List.length _rand_split =? 0 then Some (Ok None)
  else
    match sections_loop self_mask _rand_split [] (mkLocals None (ones cat_size) 0) with
    | None => None
    | Some (Raise e) => Some (Raise e)
    | Some (Ok (rand_split, loc)) => Some (Ok (Some (rand_split, mask loc)))
    end.

(** *** The draws *)

Lemma pop_some (j : nat) (l : list nat) :
  j < List.length l -> exists x l', pop j l = Some (x, l').
Proof.
  revert j. induction l as [|y l IH]; intros j Hj; simpl in *; [lia|].
  destruct j as [|j]; simpl; [eauto|].
  destruct (IH j) as (x & l' & ->); [lia|]. eauto.
Qed.

Lemma pop_perm (j : nat) (l l' : list nat) (x : nat) :
  pop j l = Some (x, l') -> Permutation l (x :: l').
Proof.
  revert j l'. induction l as [|y l IH]; intros j l'; simpl; [discriminate|].
  destruct j as [|j].
  - intros [= <- <-]. reflexivity.
  - destruct (pop j l) as [[z r]|] eqn:E; [|discriminate].
    intros [= <- <-]. rewrite (IH _ _ E). apply perm_swap.
Qed.

Lemma randint_ok (k high : nat) :
  high <> 0 -> randint k high = Ok (rnd k mod high) /\ rnd k mod high < high.
Proof.
  intros H. unfold randint. destruct (Nat.eqb_spec high 0); [contradiction|].
  split; [reflexivity|]. apply Nat.mod_upper_bound. assumption.
Qed.

(** The loop never runs out of the fuel [draw_split] gives it. *)
Lemma draw_fuel (fuel : nat) :
  forall n_keep mask_ratio mask_left k,
    List.length mask_left < fuel ->
    draw fuel n_keep mask_ratio mask_left k <> None.
Proof.
  induction fuel as [|fuel IH]; intros n_keep mask_ratio mask_left k Hf; [lia|].
  simpl. destruct (Z.of_nat (List.length mask_ratio) =? n_keep)%Z; simpl; [discriminate|].
  destruct (Nat.eq_dec (List.length mask_left) 0) as [E|E].
  - unfold randint. rewrite E. simpl. discriminate.
  - destruct (randint_ok k _ E) as [-> Hlt].
    destruct (pop_some _ _ Hlt) as (x & l' & Hpop). rewrite Hpop.
    apply IH. apply pop_perm, Permutation_length in Hpop. simpl in Hpop. lia.
Qed.

(** With [n_keep] between what is kept and what the pool can still give,
    the loop ends with [n_keep] indices kept, all taken from
    [mask_left]. *)
Lemma draw_ok (fuel : nat) :
  forall n_keep mask_ratio mask_left k,
    (Z.of_nat (List.length mask_ratio) <= n_keep)%Z ->
    (n_keep <= Z.of_nat (List.length mask_ratio + List.length mask_left))%Z ->
    Z.to_nat n_keep - List.length mask_ratio < fuel ->
    exists kept left,
      draw fuel n_keep mask_ratio mask_left k
      = Some (Ok (kept, left, k + (Z.to_nat n_keep - List.length mask_ratio)))
      /\ Z.of_nat (List.length kept) = n_keep
      /\ Permutation (kept ++ left) (mask_ratio ++ mask_left).
Proof.
  induction fuel as [|fuel IH]; intros n_keep mask_ratio mask_left k Hlo Hhi Hf; [lia|].
  simpl. destruct (Z.eqb_spec (Z.of_nat (List.length mask_ratio)) n_keep) as [E|E]; simpl.
  - exists mask_ratio, mask_left. split; [|split; [assumption|reflexivity]].
    do 3 f_equal. lia.
  - assert (Hne : List.length mask_left <> 0) by lia.
    destruct (randint_ok k _ Hne) as [-> Hlt].
    destruct (pop_some _ _ Hlt) as (x & l' & Hpop). rewrite Hpop.
    pose proof (pop_perm _ _ _ _ Hpop) as Hperm.
    pose proof (Permutation_length Hperm) as Hlen. simpl in Hlen.
    destruct (IH n_keep (mask_ratio ++ [x])%list l' (S k)) as (kept & left & Hd & Hk & Hp).
    + rewrite length_app. simpl. lia.
    + rewrite length_app. simpl. lia.
    + rewrite length_app. simpl. lia.
    + exists kept, left. split; [|split; [assumption|]].
      * rewrite Hd. do 3 f_equal. rewrite length_app. simpl. lia.
      * rewrite Hp, <- app_assoc. simpl.
        apply Permutation_app_head. symmetry. assumption.
Qed.

Lemma nodup_app_disjoint (a b : list nat) (x : nat) :
  NoDup (a ++ b) -> In x a -> ~ In x b.
Proof.
  induction a as [|y a IH]; simpl; [tauto|].
  intros Hnd [->|Hin] Hb.
  - apply NoDup_cons_iff in Hnd as [Hx _]. apply Hx. apply in_or_app. right. assumption.
  - apply NoDup_cons_iff in Hnd as [_ Hnd]. exact (IH Hnd Hin Hb).
Qed.

(** The loop of draws on a pool of [P] rows, asked for a number of indices
    between 0 and [P]: whatever [randint] returns, it ends, with that many
    indices kept and the others left; no index is kept twice, none is both
    kept and left, and together they are the indices below [P]. *)
Lemma draw_split_partition (P : nat) (n_keep : Z) (k : nat) :
  (0 <= n_keep <= Z.of_nat P)%Z ->
  exists kept left,
    draw_split P n_keep k = Some (Ok (kept, left, k + List.length kept))
    /\ Z.of_nat (List.length kept) = n_keep
    /\ List.length left = P - List.length kept
    /\ NoDup kept /\ NoDup left
    /\ (forall x, In x kept -> ~ In x left)
    /\ (forall x, In x kept \/ In x left <-> x < P).
Proof.
  intros Hb.
  destruct (draw_ok (S P) n_keep [] (seq 0 P) k) as (kept & left & Hd & Hk & Hp).
  - simpl. lia.
  - simpl. rewrite length_seq. lia.
  - simpl. lia.
  - simpl in Hp.
    assert (Hnd : NoDup (kept ++ left)).
    { apply (Permutation_NoDup (Permutation_sym Hp)). apply seq_NoDup. }
    pose proof (Permutation_length Hp) as Hlen. rewrite length_app, length_seq in Hlen.
    exists kept, left. unfold draw_split. rewrite Hd.
    split; [do 3 f_equal; simpl; lia|].
    split; [exact Hk|]. split; [lia|].
    split; [exact (NoDup_app_remove_r _ _ Hnd)|].
    split; [exact (NoDup_app_remove_l _ _ Hnd)|].
    split; [intros x; apply nodup_app_disjoint; assumption|].
    intros x. rewrite <- in_app_iff. split.
    + intros Hin. apply (Permutation_in _ Hp) in Hin. apply in_seq in Hin. lia.
    + intros Hx. apply (Permutation_in _ (Permutation_sym Hp)). apply in_seq. lia.
Qed.

(** [_make_rand_split] always returns or raises: the fuel is never what
    stops it. *)
Lemma section_body_total self_mask i lines rand_split loc :
  section_body self_mask i lines rand_split loc <> None.
Proof.
  unfold section_body.
  destruct (lines_loop self_mask (first lines) lines loc) as [loc'|e]; [|discriminate].
  destruct (ratio loc') as [r|]; [|discriminate].
  destruct (n_keep_of (count_true (mask loc')) r) as [n_keep|e]; [|discriminate].
  destruct (draw_split (count_true (mask loc')) n_keep (calls loc'))
    as [[[[kept left] k']|e]|] eqn:E; try discriminate.
  - destruct (percent_of r); discriminate.
  - exfalso. revert E. apply draw_fuel. rewrite length_seq. lia.
Qed.

Lemma sections_loop_total self_mask sections :
  forall rand_split loc, sections_loop self_mask sections rand_split loc <> None.
Proof.
  induction sections as [|[i lines] rest IH]; intros rand_split loc; simpl; [discriminate|].
  pose proof (section_body_total self_mask i lines rand_split loc) as Hb.
  destruct (section_body self_mask i lines rand_split loc) as [[[rs loc']|e]|];
    [apply IH|discriminate|contradiction].
Qed.

Lemma make_rand_split_total cat_size self_mask _rand_split :
  _make_rand_split cat_size self_mask _rand_split <> None.
Proof.
  unfold _make_rand_split. destruct (List.length _rand_split =? 0); [discriminate|].
  pose proof (sections_loop_total self_mask _rand_split [] (mkLocals None (ones cat_size) 0)) as H.
  destruct (sections_loop self_mask _rand_split [] (mkLocals None (ones cat_size) 0))
    as [[[rs loc]|e]|]; [discriminate|discriminate|contradiction].
Qed.

End WithRandom.

(** What a split dictionary holds once the shared array is read. *)
Inductive value : Type :=
| Mask (m : list bool)
| Index (idx : list nat).

Definition resolve (shared : list bool) (e : entry) : value :=
  match e with
  | MaskRef => Mask shared
  | Indices idx => Index idx
  end.

(** The dictionary [self.rand_split[i]] as [save_rand_split] receives it. *)
Definition product (out : dict (dict entry) * list bool) (i : string) : option (dict value) :=
  match get i (fst out) with
  | Some d => Some (map (fun kv => (fst kv, resolve (snd out) (snd kv))) d)
  | None => None
  end.

(** [float] on [inf], on [nan], and on plain decimal literals of at most
    fifteen digits, [12] or [0.5]: the two integers divided are held
    exactly, so their quotient is the float nearest to the literal. *)
Definition demo_float (s : string) : option PrimFloat.float :=
  if String.eqb s "inf" then Some PrimFloat.infinity
  else if String.eqb s "nan" then Some PrimFloat.nan
  else
    match split_on "."%char s with
    | [i] =>
        if String.eqb i "" then None
        else match NilEmpty.uint_of_string i with
             | Some u => Some (PyFloat.of_Z (Z.of_uint u))
             | None => None
             end
    | [i; f] =>
        if String.eqb (i ++ f) "" then None
        else match NilEmpty.uint_of_string i, NilEmpty.uint_of_string f with
             | Some u, Some w =>
                 let scale := (10 ^ Z.of_nat (String.length f))%Z in
                 Some (PrimFloat.div (PyFloat.of_Z (Z.of_uint u * scale + Z.of_uint w))
                         (PyFloat.of_Z scale))
             | _, _ => None
             end
    | _ => None
    end.

Example demo_float_values :
  demo_float "50" = Some (PyFloat.of_nat 50)
  /\ demo_float "0.5" = Some (PrimFloat.div (PyFloat.of_nat 1) (PyFloat.of_nat 2))
  /\ demo_float "half" = None
  /\ demo_float "inf" = Some PrimFloat.infinity.
Proof. repeat split; vm_compute; reflexivity. Qed.

(** The rows kept are as many as [ceil] finds in the product of two
    floats. With [RATIO=28] the ratio is [28/100.], just above 0.28, and
    of 25 rows 8 are kept. *)
Example ratio_28_on_25 :
  n_keep_of 25 (norm_ratio (PyFloat.of_nat 28)) = Ok 8%Z
  /\ n_keep_of 9 (norm_ratio (PyFloat.of_nat 50)) = Ok 5%Z
  /\ norm_ratio (PyFloat.of_nat 50) = PrimFloat.div (PyFloat.of_nat 1) (PyFloat.of_nat 2).
Proof. repeat split; vm_compute; reflexivity. Qed.

(** The ratio is not checked against 1: with [RATIO=200] the loop asks for
    twice the pool and [randint] raises once the pool is used up. *)
Example ratio_above_one_raises :
  n_keep_of 1 (norm_ratio (PyFloat.of_nat 200)) = Ok 2%Z
  /\ draw_split (fun k => k) 1 2 0 = Some (Raise (ValueError "low >= high"))
  /\ _make_rand_split demo_float (fun k => k) 1 None [("half", ["RATIO=200"])]
     = Some (Raise (ValueError "low >= high")).
Proof. repeat split; vm_compute; reflexivity. Qed.

(** The scenario of the spec with the draws [randint] makes when its raw
    values are 0, 1, 2, ... *)
Example ratio_50_on_9 :
  _make_rand_split demo_float (fun k => k) 9 None [("half", ["RATIO=50"])]
  = Some (Ok (Some ([("half", [("mask", MaskRef); ("ratio_50", Indices [1; 3; 5; 7])])],
                    ones 9)))
  /\ draw_split (fun k => k) 9 5 0 = Some (Ok ([0; 2; 4; 6; 8], [1; 3; 5; 7], 5)).
Proof. split; vm_compute; reflexivity. Qed.


(** *** The pool of a section *)

Definition bright_only : option (dict (list bool)) :=
  Some [("bright", [true; false; true; false])].

(** A mask that was not built stops the run. *)
Lemma and_masks_missing (masks : dict (list bool)) (k : string) (rest : list string)
    (mask : list bool) :
  get k masks = None ->
  and_masks (Some masks) (k :: rest) mask
  = Raise (ValueError ("mask " ++ k ++ " does not exist")).
Proof. intros H. simpl. rewrite H. reflexivity. Qed.

(** The loop over the names of a [MASK] line ANDs the masks it names into
    the pool. *)
Lemma and_masks_and (masks : dict (list bool)) (ss : list string) :
  forall mask mask',
    and_masks (Some masks) ss mask = Ok mask' ->
    exists bs,
      Forall2 (fun k b => exists m, get k masks = Some m
                                    /\ broadcast (List.length mask) (BoolArr m) = Ok b) ss bs
      /\ mask' = fold_left vand bs mask
      /\ List.length mask' = List.length mask.
Proof.
  induction ss as [|k rest IH]; intros mask mask'; simpl.
  - intros [= <-]. exists []. repeat split. constructor.
  - destruct (get k masks) as [m|] eqn:Ek; [|discriminate].
    destruct (iand mask (BoolArr m)) as [mk|e] eqn:Ei; [|discriminate].
    intros H. destruct (IH _ _ H) as (bs & Hf & -> & Hlen).
    pose proof (iand_length _ _ _ Ei) as Hmk.
    unfold iand in Ei.
    destruct (broadcast (List.length mask) (BoolArr m)) as [b|e] eqn:Eb; [|discriminate].
    simpl in Ei. injection Ei as <-.
    exists (b :: bs). split; [|split; [reflexivity|congruence]].
    constructor; [exists m; split; assumption|].
    rewrite Hmk in Hf. exact Hf.
Qed.

(** The dictionary of section [b] after [_make_rand_split] on a catalog of
    four rows, with the mask [bright] built. *)
Definition product_b (_rand_split : dict (list string)) : option (dict value) :=
  match _make_rand_split demo_float (fun k => k) 4 bright_only _rand_split with
  | Some (Ok (Some out)) => product out "b"
  | _ => None
  end.

(** C4, at a config with two sections, [a] with [MASK=bright] and [b] with
    no [MASK] line. The array [mask] is allocated once, before the loop
    over the sections, and every section stores that same array. When [a]
    comes first, the pool of [b] is the two rows of [bright], not the four
    of the catalog; when [b] comes first, its indices are drawn from the
    four rows, and the mask stored for it is turned into [bright] by the
    section that follows. *)
Theorem rand_split_pool_carried_over :
  product_b [("a", ["RATIO=25"; "MASK=bright"]); ("b", ["RATIO=25"])]
  = Some [("mask", Mask [true; false; true; false]);
          ("ratio_25", Index [1]); ("ratio_75", Index [0])]
  /\ product_b [("b", ["RATIO=25"]); ("a", ["RATIO=25"; "MASK=bright"])]
     = Some [("mask", Mask [true; false; true; false]);
             ("ratio_25", Index [0]); ("ratio_75", Index [1; 2; 3])]
  /\ ones 4 <> [true; false; true; false].
Proof. repeat split; try (vm_compute; reflexivity). discriminate. Qed.

(** Alone, the section [a] has the pool its [MASK] line names, and [b] the
    whole catalog. *)
Example rand_split_one_section :
  _make_rand_split demo_float (fun k => k) 4 bright_only [("a", ["RATIO=25"; "MASK=bright"])]
  = Some (Ok (Some ([("a", [("mask", MaskRef); ("ratio_25", Indices [0]);
                            ("ratio_75", Indices [1])])],
                    [true; false; true; false])))
  /\ _make_rand_split demo_float (fun k => k) 4 bright_only [("b", ["RATIO=25"])]
     = Some (Ok (Some ([("b", [("mask", MaskRef); ("ratio_25", Indices [0]);
                               ("ratio_75", Indices [1; 2; 3])])],
                       ones 4)))
  /\ _make_rand_split demo_float (fun k => k) 4 bright_only [("a", ["RATIO=25"; "MASK=dim"])]
     = Some (Raise (ValueError "mask dim does not exist")).
Proof. repeat split; vm_compute; reflexivity. Qed.

End RandSplit.

(** ** [SETools._make_flag_split] *)

Module FlagSplit.

Import PyStr Dict.

(** The catalog as this function reads it: a column of integer flags
    under each column name. *)
Definition catalog : Type := dict (list Z).

Definition equal_sign : ascii := "="%char.

(** [np.where(col == j)[0]], the positions counted from [start]. *)
Fixpoint where_eq (start : nat) (col : list Z) (j : Z) : list nat :=
  match col with
  | [] => []
  | x :: rest =>
      if Z.eqb x j then start :: where_eq (S start) rest j
      else where_eq (S start) rest j
  end.

(** [list(set(col))]: the distinct values. The order a Python set gives
    them in is not specified; what follows looks entries up by key. *)
Definition distinct (col : list Z) : list Z := nodup Z.eq_dec col.

(** The loop over the lines of one section; [param_name] is [None] while
    the variable is unbound. *)
Fixpoint lines_loop (line0 : string) (lines : list string) (param_name : option string)
    : result (option string) :=
  match lines with
  | [] => Ok param_name
  | j :: rest =>
      match split_on equal_sign j with
      | [s0; s1] =>
          if String.eqb s0 "PARAM_NAME" then lines_loop line0 rest (Some s1)
          else Raise (ValueError "PARAM_NAME not provided")
      | _ => Raise (ValueError ("Not a good format : " ++ line0))
      end
  end.

(** The loop over the sections: each gets an empty dictionary, and the
    variables [i] and [param_name] keep what the last turn left. *)
Fixpoint sections_loop (sections : dict (list string))
    (flag_split : dict (dict (list nat))) (i param_name : option string)
    : result (dict (dict (list nat)) * option string * option string) :=
  match sections with
  | [] => Ok (flag_split, i, param_name)
  | (i', lines) :: rest =>
      p <- lines_loop (first lines) lines param_name ;;
      sections_loop rest (set i' [] flag_split) (Some i') p
  end.

(** The loop [for j in flag_values:
    self.flag_split[i]['{}'.format(j)] = np.where(col == j)[0]]. *)
Fixpoint store_all (i : string) (col : list Z) (flag_values : list Z)
    (flag_split : dict (dict (list nat))) : result (dict (dict (list nat))) :=
  match flag_values with
  | [] => Ok flag_split
  | j :: rest =>
      match get i flag_split with
      | None => Raise (KeyError i)
      | Some d =>
          store_all i col rest (set i (set (str_of_Z j) (where_eq 0 col j) d) flag_split)
      end
  end.

(** [_make_flag_split]. The [try] and the loop over the values stand after
    the loop over the sections, not inside it. *)
Definition _make_flag_split (cat_filepath : string) (data : catalog)
    (_flag_split : dict (list string)) : result (option (dict (dict (list nat)))) :=
  if List.length _flag_split =? 0 then Ok None
  else
    out <- sections_loop _flag_split [] None None ;;
    match out with
    | (flag_split, i, param_name) =>
        match param_name with
        | None => Raise (NameError "param_name")
        | Some p =>
            match get p data with
            | None =>
                Raise (ValueError ("PARAM_NAME : " ++ p ++ " not in catalog " ++ cat_filepath))
            | Some col =>
                match i with
                | None => Raise (NameError "i")
                | Some i =>
                    flag_split' <- store_all i col (distinct col) flag_split ;;
                    Ok (Some flag_split')
                end
            end
        end
    end.

(** The scenario of the spec: a column with the values 0, 1, 2 occurring
    2, 3 and 5 times. *)
Definition class_catalog : catalog :=
  [("CLASS", [0; 1; 2; 1; 2; 2; 0; 1; 2; 2]%Z)].

Example flag_split_one_section :
  match _make_flag_split "cat.fits" class_catalog [("byflag", ["PARAM_NAME=CLASS"])] with
  | Ok (Some fs) =>
      match get "byflag" fs with
      | Some d =>
          get "0" d = Some [0; 6] /\ get "1" d = Some [1; 3; 7]
          /\ get "2" d = Some [2; 4; 5; 8; 9] /\ List.length d = 3
      | None => False
      end
  | _ => False
  end.
Proof. vm_compute. repeat split. Qed.

(** *** One section *)

(** The partitions of a column, as the loop over its values leaves them in
    a dictionary that held [d] before. *)
Definition partitions (col : list Z) (values : list Z) (d : dict (list nat)) : dict (list nat) :=
  fold_left (fun d j => set (str_of_Z j) (where_eq 0 col j) d) values d.

Lemma store_all_get (i : string) (col : list Z) (values : list Z) :
  forall (flag_split : dict (dict (list nat))) (d : dict (list nat)),
    get i flag_split = Some d ->
    exists fs,
      store_all i col values flag_split = Ok fs
      /\ get i fs = Some (partitions col values d)
      /\ (forall i', i' <> i -> get i' fs = get i' flag_split).
Proof.
  induction values as [|j rest IH]; intros flag_split d Hd; simpl.
  - exists flag_split. repeat split. assumption.
  - rewrite Hd.
    destruct (IH (set i (set (str_of_Z j) (where_eq 0 col j) d) flag_split)
                (set (str_of_Z j) (where_eq 0 col j) d)) as (fs & Hs & Hg & Ho).
    + apply get_set_same.
    + exists fs. split; [assumption|]. split; [assumption|].
      intros i' Hi'. rewrite (Ho i' Hi'). apply get_set_other. congruence.
Qed.

Lemma partitions_get (col : list Z) (values : list Z) (v : Z) :
  forall d,
    get (str_of_Z v) (partitions col values d)
    = if in_dec Z.eq_dec v values then Some (where_eq 0 col v) else get (str_of_Z v) d.
Proof.
  unfold partitions. induction values as [|j rest IH]; intros d; simpl; [reflexivity|].
  rewrite IH. destruct (in_dec Z.eq_dec v rest) as [Hin|Hout].
  - destruct (Z.eq_dec j v); reflexivity.
  - destruct (Z.eq_dec j v) as [->|Hne].
    + apply get_set_same.
    + apply get_set_other. intros H. apply str_of_Z_inj in H. contradiction.
Qed.

Lemma partitions_keys (col : list Z) (values : list Z) (key : string) :
  forall d,
    In key (keys (partitions col values d)) ->
    In key (keys d) \/ exists v, In v values /\ key = str_of_Z v.
Proof.
  unfold partitions. induction values as [|j rest IH]; intros d; simpl; [tauto|].
  intros H. apply IH in H as [H|(v & Hv & ->)].
  - apply keys_set_in in H as [->|H]; [right; exists j; tauto|left; assumption].
  - right. exists v. tauto.
Qed.

Lemma where_eq_in (col : list Z) (v : Z) :
  forall start n,
    In n (where_eq start col v) <-> start <= n /\ nth_error col (n - start) = Some v.
Proof.
  induction col as [|x rest IH]; intros start n; simpl.
  - split; [tauto|]. intros [_ H]. destruct (n - start); discriminate.
  - destruct (Z.eqb_spec x v) as [->|Hne]; simpl; rewrite IH.
    + split.
      * intros [<-|[Hle Hn]].
        -- rewrite Nat.sub_diag. split; [lia|reflexivity].
        -- split; [lia|]. replace (n - start) with (S (n - S start)) by lia. assumption.
      * intros [Hle Hn]. destruct (Nat.eq_dec start n) as [E|E]; [left; assumption|right].
        split; [lia|]. replace (n - start) with (S (n - S start)) in Hn by lia. assumption.
    + split.
      * intros [Hle Hn]. split; [lia|].
        replace (n - start) with (S (n - S start)) by lia. assumption.
      * intros [Hle Hn]. destruct (Nat.eq_dec start n) as [E|E].
        -- subst. rewrite Nat.sub_diag in Hn. simpl in Hn. congruence.
        -- split; [lia|]. replace (n - start) with (S (n - S start)) in Hn by lia. assumption.
Qed.

(** With one FLAG_SPLIT section naming a column of the catalog, the result
    holds, for each value of the column, the positions of that value under
    the value's printed form, and nothing else; every row is in the
    partition of its value and in no other. *)
Lemma flag_split_single (cat_filepath : string) (data : catalog)
    (i : string) (lines : list string) (p : string) (col : list Z) :
  lines_loop (first lines) lines None = Ok (Some p) ->
  get p data = Some col ->
  exists fs d,
    _make_flag_split cat_filepath data [(i, lines)] = Ok (Some fs)
    /\ get i fs = Some d
    /\ (forall v, In v col -> get (str_of_Z v) d = Some (where_eq 0 col v))
    /\ (forall key, In key (keys d) -> exists v, In v col /\ key = str_of_Z v)
    /\ (forall n v, In n (where_eq 0 col v) <-> nth_error col n = Some v).
Proof.
  intros Hlines Hcol. unfold _make_flag_split. simpl. rewrite Hlines. simpl. rewrite Hcol.
  destruct (store_all_get i col (distinct col) [(i, [])] []) as (fs & Hs & Hg & _).
  { simpl. rewrite String.eqb_refl. reflexivity. }
  rewrite Hs. simpl. exists fs, (partitions col (distinct col) []).
  split; [reflexivity|]. split; [assumption|]. split; [|split].
  - intros v Hv. rewrite partitions_get.
    destruct (in_dec Z.eq_dec v (distinct col)) as [_|Hout]; [reflexivity|].
    exfalso. apply Hout. apply nodup_In. assumption.
  - intros key Hkey. apply partitions_keys in Hkey as [[]|(v & Hv & ->)].
    exists v. split; [|reflexivity]. apply (nodup_In Z.eq_dec). assumption.
  - intros n v. rewrite where_eq_in, Nat.sub_0_r. split; [tauto|]. split; [lia|assumption].
Qed.

(** C3, at configs with two FLAG_SPLIT sections. The values of the column
    are stored once, after the loop over the sections, under the name the
    loop ended on: section [a] is left without a partition, and the column
    it names is never looked up, so that a column that is not in the
    catalog goes unnoticed. *)
Theorem flag_split_first_section_empty :
  (exists fs d,
      _make_flag_split "cat.fits" class_catalog
        [("a", ["PARAM_NAME=CLASS"]); ("b", ["PARAM_NAME=CLASS"])] = Ok (Some fs)
      /\ get "a" fs = Some []
      /\ get "b" fs = Some d
      /\ get "0" d = Some [0; 6] /\ get "1" d = Some [1; 3; 7]
      /\ get "2" d = Some [2; 4; 5; 8; 9])
  /\ (exists fs,
      _make_flag_split "cat.fits" class_catalog
        [("a", ["PARAM_NAME=NOPE"]); ("b", ["PARAM_NAME=CLASS"])] = Ok (Some fs)
      /\ get "NOPE" class_catalog = None
      /\ get "a" fs = Some []).
Proof.
  split.
  - eexists. eexists. split; [vm_compute; reflexivity|]. repeat split.
  - eexists. split; [vm_compute; reflexivity|]. repeat split.
Qed.

Example flag_split_missing_column :
  _make_flag_split "cat.fits" class_catalog [("a", ["PARAM_NAME=NOPE"])]
  = Raise (ValueError "PARAM_NAME : NOPE not in catalog cat.fits").
Proof. reflexivity. Qed.

End FlagSplit.

(** ** [SETools.save_new_cat] and [SETools.save_rand_split] *)

Module Save.

Import PyStr Dict Numpy.

(** What a derived catalog holds: the literal of [OUTPUT_FORMAT], and the
    results of the interpreter, arrays (their cells in printed form) or
    scalars. *)
Inductive value : Type :=
| Str (s : string)
| Column (cells : list string)
| Scalar (s : string).

(** What [save_new_cat] hands to the I/O layer. *)
Inductive write : Type :=
| FitsTable (path : string) (data : dict value) (ext_name : string)
| SExCatalog (path : string) (data : dict value) (ext_name : string) (sex_cat_path : string)
| TextFile (path : string) (content : string).

(** [output_format == s] *)
Definition is_str (v : value) (s : string) : bool :=
  match v with
  | Str t => String.eqb t s
  | _ => false
  end.

(** The cells [len(v)] counts and [v[i]] reads; [None] for a scalar, on
    which [len] raises. *)
Definition cells_of (v : value) : option (list string) :=
  match v with
  | Str s => Some (map (fun c => String c "") (list_ascii_of_string s))
  | Column cells => Some cells
  | Scalar _ => None
  end.

Definition tab : string := String (ascii_of_nat 9) "".
Definition nl : string := String (ascii_of_nat 10) "".

(** The loop that writes the header and finds [n_max] (which starts at
    -1, kept here as [None]). *)
Fixpoint header_loop (d : dict value) (n_max : option nat) (out : string)
    : result (option nat * string) :=
  match d with
  | [] => Ok (n_max, out)
  | (i, v) :: rest =>
      match cells_of v with
      | None => Raise (TypeError "object has no len()")
      | Some cells =>
          let n := List.length cells in
          let n_max' :=
            match n_max with
            | None => Some n
            | Some m => if m <? n then Some n else Some m
            end in
          header_loop rest n_max' (out ++ i ++ tab)
      end
  end.

(** One row: [new_cat[j][i]] and a tab for each key, a tab alone where the
    column is too short. *)
Fixpoint row_text (d : dict value) (i : nat) : string :=
  match d with
  | [] => ""
  | (_, v) :: rest =>
      match cells_of v with
      | Some cells =>
          match nth_error cells i with
          | Some c => c ++ tab ++ row_text rest i
          | None => tab ++ row_text rest i
          end
      | None => tab ++ row_text rest i
      end
  end.

Definition rows_text (d : dict value) (n_max : nat) : string :=
  fold_left (fun out i => out ++ row_text d i ++ nl) (seq 0 n_max) "".

Definition write_txt (d : dict value) (output_path : string) : result write :=
  r <- header_loop d None ("# HEADER" ++ nl ++ "# ") ;;
  match r with
  | (n_max, out) =>
      let n := match n_max with Some n => n | None => 0 end in
      Ok (TextFile (output_path ++ ".txt") (out ++ nl ++ rows_text d n))
  end.

Definition not_provided : string := "OUTPUT_FORMAT not provided".
Definition bad_format : string := "Format should be in ['fits', 'SEx_cat', 'txt']".

(** [save_new_cat]: the dictionary as the call leaves it, and what the
    call wrote or raised. *)
Definition save_new_cat (cat_filepath : string) (new_cat : dict value)
    (output_path ext_name : string) : dict value * result write :=
  match get "OUTPUT_FORMAT" new_cat with
  | None => (new_cat, Raise (ValueError not_provided))
  | Some output_format =>
      let new_cat := remove "OUTPUT_FORMAT" new_cat in
      if is_str output_format "fits" then
        (new_cat, Ok (FitsTable (output_path ++ ".fits") new_cat ext_name))
      else if is_str output_format "SEx_cat" then
        (new_cat, Ok (SExCatalog (output_path ++ ".fits") new_cat ext_name cat_filepath))
      else if is_str output_format "txt" || is_str output_format "ascii" then
        (new_cat, write_txt new_cat output_path)
      else (new_cat, Raise (ValueError bad_format))
  end.

Section WithCatalog.

Variable Row : Type.
Variable data : list Row.
Variable cat_filepath : string.

(** [data[v]], for the boolean mask or one of the index arrays that
    [_make_rand_split] stored, each made by [np.array] from a list. *)
Definition index (rows : list Row) (v : RandSplit.value) : result (list Row) :=
  match v with
  | RandSplit.Mask m => bool_index rows m
  | RandSplit.Index idx => take_list rows idx
  end.

(** The loop [for i in rand_split.keys()] of [save_rand_split]. *)
Fixpoint split_loop (rows : list Row) (output_path file_number ext_name : string)
    (rand_split : dict RandSplit.value) : result (list (Masks.fits_write Row)) :=
  match rand_split with
  | [] => Ok []
  | (i, v) :: rest =>
      selected <- index rows v ;;
      ws <- split_loop rows output_path file_number ext_name rest ;;
      Ok (Masks.mkWrite (output_path ++ i ++ file_number ++ ".fits") selected ext_name
            (Some cat_filepath) :: ws)
  end.

(** [save_rand_split]: the dictionary as the call leaves it, and what the
    call wrote or raised. *)
Definition save_rand_split (rand_split : option (dict RandSplit.value))
    (output_path file_number : option string) (ext_name : string)
    : option (dict RandSplit.value) * result (list (Masks.fits_write Row)) :=
  match rand_split with
  | None => (None, Raise (ValueError "rand_split not provided"))
  | Some rs =>
      match output_path with
      | None => (Some rs, Raise (ValueError "output path not provided"))
      | Some op =>
          match file_number with
          | None => (Some rs, Raise (ValueError "file_number path not provided"))
          | Some fn =>
              match get "mask" rs with
              | None => (Some rs, Raise (KeyError "mask"))
              | Some mask =>
                  let rs' := remove "mask" rs in
                  (Some rs',
                   rows <- index data mask ;; split_loop rows op fn ext_name rs')
              end
          end
      end
  end.

End WithCatalog.

Definition small_cat : dict value :=
  [("X", Column ["1.5"; "2.5"; "3.5"]); ("OUTPUT_FORMAT", Str "txt"); ("Y", Column ["7"])].

Example save_small_cat :
  save_new_cat "cat.fits" small_cat "out/new_cat/c-001-0" "LDAC_OBJECTS"
  = ([("X", Column ["1.5"; "2.5"; "3.5"]); ("Y", Column ["7"])],
     Ok (TextFile "out/new_cat/c-001-0.txt"
           ("# HEADER" ++ nl ++ "# X" ++ tab ++ "Y" ++ tab ++ nl
            ++ "1.5" ++ tab ++ "7" ++ tab ++ nl
            ++ "2.5" ++ tab ++ tab ++ nl
            ++ "3.5" ++ tab ++ tab ++ nl))).
Proof. reflexivity. Qed.

(** *** The errors of [save_new_cat] *)

Lemma is_str_true (v : value) (s : string) : is_str v s = true <-> v = Str s.
Proof.
  destruct v as [t|c|t]; simpl; try (split; discriminate).
  rewrite String.eqb_eq. split; congruence.
Qed.

Lemma header_loop_cases (d : dict value) :
  forall n_max out,
    header_loop d n_max out = Raise (TypeError "object has no len()")
    \/ exists r, header_loop d n_max out = Ok r.
Proof.
  induction d as [|[i v] rest IH]; intros n_max out; simpl; [right; eauto|].
  destruct (cells_of v); [apply IH|left; reflexivity].
Qed.

Lemma write_txt_cases (d : dict value) (output_path : string) :
  write_txt d output_path = Raise (TypeError "object has no len()")
  \/ exists content, write_txt d output_path = Ok (TextFile (output_path ++ ".txt") content).
Proof.
  unfold write_txt.
  destruct (header_loop_cases d None ("# HEADER" ++ nl ++ "# ")) as [->|([n_max out] & ->)].
  - left. reflexivity.
  - right. simpl. eauto.
Qed.

(** *** The text file *)

(** The number of cells of a column. *)
Definition n_cells (v : value) : nat :=
  match cells_of v with
  | Some cells => List.length cells
  | None => 0
  end.

(** The cell of a column in the row [i], empty where the column is too
    short. *)
Definition cell (v : value) (i : nat) : string :=
  match cells_of v with
  | Some cells => nth i cells ""
  | None => ""
  end.

Definition flat (l : list string) : string := fold_right append "" l.

(** The text of a catalog: the line [# HEADER], the line of the keys, and
    a line for each row, as many as the longest column has cells; every
    key and every cell is followed by a tab. *)
Definition text_of (d : dict value) : string :=
  "# HEADER" ++ nl ++ "# " ++ flat (map (fun kv => fst kv ++ tab) d) ++ nl
  ++ flat (map (fun i => flat (map (fun kv => cell (snd kv) i ++ tab) d) ++ nl)
             (seq 0 (list_max (map (fun kv => n_cells (snd kv)) d)))).

Definition n_of (n_max : option nat) : nat :=
  match n_max with
  | Some n => n
  | None => 0
  end.

Lemma header_loop_ok (d : dict value) :
  Forall (fun kv => cells_of (snd kv) <> None) d ->
  forall n_max out,
    exists n_max',
      header_loop d n_max out = Ok (n_max', out ++ flat (map (fun kv => fst kv ++ tab) d))
      /\ n_of n_max' = Nat.max (n_of n_max) (list_max (map (fun kv => n_cells (snd kv)) d)).
Proof.
  induction 1 as [|[i v] rest Hv _ IH]; intros n_max out.
  - exists n_max. simpl. rewrite append_nil_r, Nat.max_0_r. split; reflexivity.
  - simpl in Hv. cbn [header_loop map fst snd list_max fold_right flat].
    unfold n_cells at 1. destruct (cells_of v) as [cells|]; [|contradiction].
    match goal with |- context [header_loop rest ?nm ?o] =>
      destruct (IH nm o) as (n_max' & -> & Hn) end.
    exists n_max'. split.
    + rewrite !append_assoc. reflexivity.
    + rewrite Hn. fold (list_max (map (fun kv => n_cells (snd kv)) rest)).
      destruct n_max as [m|]; simpl.
      * destruct (Nat.ltb_spec m (List.length cells)); simpl; lia.
      * lia.
Qed.

Lemma header_loop_raises (d : dict value) :
  Exists (fun kv => cells_of (snd kv) = None) d ->
  forall n_max out, header_loop d n_max out = Raise (TypeError "object has no len()").
Proof.
  induction d as [|[i v] rest IH]; intros Hex n_max out.
  - inversion Hex.
  - simpl. destruct (cells_of v) as [cells|] eqn:Ev; [|reflexivity].
    apply IH. apply Exists_cons in Hex as [H|H]; [|exact H].
    simpl in H. congruence.
Qed.

Lemma row_text_flat (d : dict value) (i : nat) :
  row_text d i = flat (map (fun kv => cell (snd kv) i ++ tab) d).
Proof.
  induction d as [|[k v] rest IH]; [reflexivity|].
  cbn [row_text map snd flat fold_right]. fold (flat (map (fun kv => cell (snd kv) i ++ tab) rest)).
  rewrite <- IH. unfold cell.
  destruct (cells_of v) as [cells|]; [|reflexivity].
  destruct (nth_error cells i) as [c|] eqn:En.
  - rewrite (nth_error_nth _ _ _ En), append_assoc. reflexivity.
  - apply nth_error_None in En. rewrite (nth_overflow _ _ En). reflexivity.
Qed.

Lemma fold_left_flat (g : nat -> string) (l : list nat) :
  forall acc, fold_left (fun out i => out ++ g i) l acc = acc ++ flat (map g l).
Proof.
  induction l as [|x l IH]; intros acc; simpl.
  - rewrite append_nil_r. reflexivity.
  - rewrite IH, append_assoc. reflexivity.
Qed.

(** When every value has a length the loops write the text of the
    catalog. *)
Lemma write_txt_ok (d : dict value) (output_path : string) :
  Forall (fun kv => cells_of (snd kv) <> None) d ->
  write_txt d output_path = Ok (TextFile (output_path ++ ".txt") (text_of d)).
Proof.
  intros Hd. unfold write_txt.
  destruct (header_loop_ok d Hd None ("# HEADER" ++ nl ++ "# ")) as (n_max' & -> & Hn).
  cbn [bind]. simpl in Hn. fold (n_of n_max'). rewrite Hn.
  unfold rows_text, text_of.
  rewrite (fold_left_flat (fun i => row_text d i ++ nl)).
  rewrite (map_ext _ _ (fun i => f_equal (fun t => t ++ nl) (row_text_flat d i))).
  rewrite !append_assoc. reflexivity.
Qed.

Lemma write_txt_raises (d : dict value) (output_path : string) :
  Exists (fun kv => cells_of (snd kv) = None) d ->
  write_txt d output_path = Raise (TypeError "object has no len()").
Proof.
  intros Hd. unfold write_txt. rewrite (header_loop_raises d Hd). reflexivity.
Qed.

(** C8 (as the code has it). [save_new_cat] raises "OUTPUT_FORMAT not
    provided" exactly when the dictionary has no [OUTPUT_FORMAT] entry,
    and "Format should be in ..." exactly when the entry is there and is
    none of [fits], [SEx_cat], [txt], [ascii]. With [fits] it hands the
    other entries to the I/O layer as a FITS table, with [SEx_cat] as a
    SExtractor catalog. With [txt] or [ascii] it writes the text of the
    other entries to [output_path + '.txt'] when each of them has a length,
    and raises [TypeError] when one of them has none. *)
Theorem save_new_cat_format (cat_filepath : string) (new_cat : dict value)
    (output_path ext_name : string) :
  let r := snd (save_new_cat cat_filepath new_cat output_path ext_name) in
  let rest := remove "OUTPUT_FORMAT" new_cat in
  (r = Raise (ValueError not_provided) <-> get "OUTPUT_FORMAT" new_cat = None)
  /\ (r = Raise (ValueError bad_format) <->
      exists v, get "OUTPUT_FORMAT" new_cat = Some v
                /\ v <> Str "fits" /\ v <> Str "SEx_cat" /\ v <> Str "txt" /\ v <> Str "ascii")
  /\ (get "OUTPUT_FORMAT" new_cat = Some (Str "fits") ->
      r = Ok (FitsTable (output_path ++ ".fits") rest ext_name))
  /\ (get "OUTPUT_FORMAT" new_cat = Some (Str "SEx_cat") ->
      r = Ok (SExCatalog (output_path ++ ".fits") rest ext_name cat_filepath))
  /\ (get "OUTPUT_FORMAT" new_cat = Some (Str "txt")
      \/ get "OUTPUT_FORMAT" new_cat = Some (Str "ascii") ->
      (Forall (fun kv => cells_of (snd kv) <> None) rest ->
       r = Ok (TextFile (output_path ++ ".txt") (text_of rest)))
      /\ (Exists (fun kv => cells_of (snd kv) = None) rest ->
          r = Raise (TypeError "object has no len()"))).
Proof.
  unfold save_new_cat. cbv zeta.
  destruct (get "OUTPUT_FORMAT" new_cat) as [v|] eqn:Eg; simpl.
  2:{ split; [|split; [|split; [|split]]].
      - split; reflexivity.
      - split; [discriminate|]. intros (v & Hv & _). discriminate.
      - discriminate.
      - discriminate.
      - intros [H|H]; discriminate. }
  destruct (is_str v "fits") eqn:E1.
  { apply is_str_true in E1. subst v. simpl.
    split; [|split; [|split; [|split]]].
    - split; discriminate.
    - split; [discriminate|]. intros (v & [= <-] & H & _). congruence.
    - reflexivity.
    - discriminate.
    - intros [H|H]; discriminate. }
  destruct (is_str v "SEx_cat") eqn:E2.
  { apply is_str_true in E2. subst v. simpl.
    split; [|split; [|split; [|split]]].
    - split; discriminate.
    - split; [discriminate|]. intros (v & [= <-] & _ & H & _). congruence.
    - discriminate.
    - reflexivity.
    - intros [H|H]; discriminate. }
  destruct (is_str v "txt" || is_str v "ascii") eqn:E3; simpl.
  { pose proof (write_txt_cases (remove "OUTPUT_FORMAT" new_cat) output_path) as Hw.
    split; [|split; [|split; [|split]]].
    - split; [|discriminate]. destruct Hw as [->|(c & ->)]; discriminate.
    - split.
      + destruct Hw as [->|(c & ->)]; discriminate.
      + intros (v' & [= <-] & _ & _ & H3 & H4). apply orb_prop in E3 as [E|E];
          apply is_str_true in E; congruence.
    - intros [= ->]. discriminate.
    - intros [= ->]. discriminate.
    - intros _. split; [apply write_txt_ok|apply write_txt_raises]. }
  apply orb_false_elim in E3 as [E3 E4].
  assert (Hne : forall s, is_str v s = false -> v <> Str s).
  { intros s Hs Hv. apply is_str_true in Hv. congruence. }
  split; [|split; [|split; [|split]]].
  - split; discriminate.
  - split; [|reflexivity]. intros _. exists v. repeat split; auto.
  - intros [= ->]. discriminate.
  - intros [= ->]. discriminate.
  - intros [[= ->]|[= ->]]; discriminate.
Qed.

(** A catalog with a column and the number of its rows, to be saved as
    text. *)
Definition counted_cat : dict value :=
  [("OUTPUT_FORMAT", Str "txt"); ("X", Column ["1.5"; "2.5"]); ("N", Scalar "2")].

Lemma save_new_cat_format_witness :
  snd (save_new_cat "cat.fits" small_cat "out/c" "LDAC_OBJECTS")
  = Ok (TextFile "out/c.txt"
          ("# HEADER" ++ nl ++ "# X" ++ tab ++ "Y" ++ tab ++ nl
           ++ "1.5" ++ tab ++ "7" ++ tab ++ nl
           ++ "2.5" ++ tab ++ tab ++ nl
           ++ "3.5" ++ tab ++ tab ++ nl))
  /\ snd (save_new_cat "cat.fits" counted_cat "out/c" "LDAC_OBJECTS")
     = Raise (TypeError "object has no len()")
  /\ snd (save_new_cat "cat.fits" [("X", Column ["1"])] "out/c" "LDAC_OBJECTS")
     = Raise (ValueError not_provided).
Proof.
  split; [|split].
  - destruct (save_new_cat_format "cat.fits" small_cat "out/c" "LDAC_OBJECTS")
      as (_ & _ & _ & _ & H).
    destruct (H (or_introl eq_refl)) as [Hok _].
    apply Hok. repeat constructor; discriminate.
  - destruct (save_new_cat_format "cat.fits" counted_cat "out/c" "LDAC_OBJECTS")
      as (_ & _ & _ & _ & H).
    destruct (H (or_introl eq_refl)) as [_ Hraise].
    apply Hraise. apply Exists_cons_tl, Exists_cons_hd. reflexivity.
  - destruct (save_new_cat_format "cat.fits" [("X", Column ["1"])] "out/c" "LDAC_OBJECTS")
      as (H & _).
    apply H. reflexivity.
Defined.

(** C8 as stated fails: with [OUTPUT_FORMAT=txt] and an entry that has no
    length, here the number of rows, [len] raises [TypeError] while the
    header is written: the save does not go through, and the error is
    neither of the two the claim names. *)
Lemma save_txt_scalar_raises :
  get "OUTPUT_FORMAT" counted_cat = Some (Str "txt")
  /\ snd (save_new_cat "cat.fits" counted_cat "out/c" "LDAC_OBJECTS")
     = Raise (TypeError "object has no len()")
  /\ (forall w, snd (save_new_cat "cat.fits" counted_cat "out/c" "LDAC_OBJECTS") <> Ok w)
  /\ snd (save_new_cat "cat.fits" counted_cat "out/c" "LDAC_OBJECTS")
     <> Raise (ValueError not_provided)
  /\ snd (save_new_cat "cat.fits" counted_cat "out/c" "LDAC_OBJECTS")
     <> Raise (ValueError bad_format).
Proof. repeat split; try reflexivity; try intros w; discriminate. Qed.

(** *** The save functions change the dictionary they are given *)

Lemma save_new_cat_leaves (cat_filepath : string) (new_cat : dict value)
    (output_path ext_name : string) :
  fst (save_new_cat cat_filepath new_cat output_path ext_name)
  = remove "OUTPUT_FORMAT" new_cat.
Proof.
  unfold save_new_cat. destruct (get "OUTPUT_FORMAT" new_cat) as [v|] eqn:E; simpl.
  - destruct (is_str v "fits"); [reflexivity|].
    destruct (is_str v "SEx_cat"); [reflexivity|].
    destruct (is_str v "txt" || is_str v "ascii"); reflexivity.
  - symmetry. apply remove_absent. assumption.
Qed.

(** C10. A call of [save_new_cat] that returns leaves the dictionary
    without its [OUTPUT_FORMAT] entry, and a call of [save_rand_split] that
    returns leaves it without its ['mask'] entry; the same call on the
    dictionary so left raises, "OUTPUT_FORMAT not provided" for the first
    and [KeyError('mask')] for the second, and writes nothing. *)
Theorem save_twice_fails :
  (forall cat_filepath new_cat output_path ext_name new_cat' w,
      save_new_cat cat_filepath new_cat output_path ext_name = (new_cat', Ok w) ->
      new_cat' = remove "OUTPUT_FORMAT" new_cat
      /\ get "OUTPUT_FORMAT" new_cat <> None
      /\ get "OUTPUT_FORMAT" new_cat' = None
      /\ save_new_cat cat_filepath new_cat' output_path ext_name
         = (new_cat', Raise (ValueError not_provided)))
  /\ (forall (Row : Type) (data : list Row) cat_filepath rand_split output_path
             file_number ext_name rand_split' ws,
      save_rand_split Row data cat_filepath rand_split output_path file_number ext_name
      = (rand_split', Ok ws) ->
      exists rs,
        rand_split = Some rs
        /\ rand_split' = Some (remove "mask" rs)
        /\ get "mask" rs <> None
        /\ get "mask" (remove "mask" rs) = None
        /\ save_rand_split Row data cat_filepath rand_split' output_path file_number ext_name
           = (rand_split', Raise (KeyError "mask"))).
Proof.
  split.
  - intros cat_filepath new_cat output_path ext_name new_cat' w H.
    pose proof (save_new_cat_leaves cat_filepath new_cat output_path ext_name) as Hl.
    rewrite H in Hl. simpl in Hl. subst new_cat'.
    assert (Hnone : get "OUTPUT_FORMAT" (remove "OUTPUT_FORMAT" new_cat) = None)
      by apply get_remove_same.
    repeat split; try assumption.
    + intros E. unfold save_new_cat in H. rewrite E in H. discriminate.
    + unfold save_new_cat. rewrite Hnone. reflexivity.
  - intros Row data cat_filepath rand_split output_path file_number ext_name rand_split' ws H.
    unfold save_rand_split in H.
    destruct rand_split as [rs|]; [|discriminate].
    destruct output_path as [op|]; [|discriminate].
    destruct file_number as [fn|]; [|discriminate].
    destruct (get "mask" rs) as [m|] eqn:Em; [|discriminate].
    injection H as <- _.
    assert (Hnone : get "mask" (remove "mask" rs) = None) by apply get_remove_same.
    exists rs. repeat split; try assumption; try congruence.
    unfold save_rand_split. rewrite Hnone. reflexivity.
Qed.

Definition half_split : dict RandSplit.value :=
  [("mask", RandSplit.Mask [true; false; true; true]);
   ("ratio_25", RandSplit.Index [2]); ("ratio_75", RandSplit.Index [0; 1])].

Lemma save_twice_fails_witness :
  save_new_cat "cat.fits" (remove "OUTPUT_FORMAT" small_cat) "out/c" "LDAC_OBJECTS"
  = (remove "OUTPUT_FORMAT" small_cat, Raise (ValueError not_provided))
  /\ save_rand_split Z [10; 20; 30; 40]%Z "cat.fits" (Some (remove "mask" half_split))
       (Some "out/s_") (Some "-001-0") "LDAC_OBJECTS"
     = (Some (remove "mask" half_split), Raise (KeyError "mask")).
Proof.
  destruct save_twice_fails as [Hcat Hsplit]. split.
  - destruct (Hcat "cat.fits" small_cat "out/c" "LDAC_OBJECTS" _ _ eq_refl)
      as (_ & _ & _ & H).
    exact H.
  - destruct (Hsplit Z [10; 20; 30; 40]%Z "cat.fits" (Some half_split)
                (Some "out/s_") (Some "-001-0") "LDAC_OBJECTS" _ _ eq_refl)
      as (rs & Hrs & _ & _ & _ & H).
    exact H.
Defined.

Example save_half_split :
  save_rand_split Z [10; 20; 30; 40]%Z "cat.fits" (Some half_split)
    (Some "out/s_") (Some "-001-0") "LDAC_OBJECTS"
  = (Some [("ratio_25", RandSplit.Index [2]); ("ratio_75", RandSplit.Index [0; 1])],
     Ok [Masks.mkWrite "out/s_ratio_25-001-0.fits" [40%Z] "LDAC_OBJECTS" (Some "cat.fits");
         Masks.mkWrite "out/s_ratio_75-001-0.fits" [10; 30]%Z "LDAC_OBJECTS" (Some "cat.fits")]).
Proof. reflexivity. Qed.

End Save.

(** ** The [@]-template of titles and labels in [SEPlot] *)

Module Plot.

Import PyStr Dict.

Definition at_sign : ascii := "@"%char.

(** [s[1:-1]] *)
Definition middle (s : list string) : list string := removelast (tl s).

Section WithInterpreter.

(** [str(sc.interpreter(i, self._cat, make_compare=False,
    mask_dict=self._mask_dict).result)] *)
Variable interp_str : string -> result string.

(** The loop [for i in s[1:-1]], with its counter [ii]. *)
Fixpoint title_loop (items : list string) (ii : nat) (title : string) : result string :=
  match items with
  | [] => Ok title
  | i :: rest =>
      if ii mod 2 =? 0 then title_loop rest (S ii) (title ++ i)
      else r <- interp_str i ;; title_loop rest (S ii) (title ++ r)
  end.

(** What [_make_plot], [_make_scatter] and [_make_hist] do with a title
    (and with a label). *)
Definition interpolate (title : string) : result string :=
  let s := split_on at_sign title in
  if 3 <=? List.length s then title_loop (middle s) 1 (first s)
  else Ok title.

(** The title of a plot: [self._plot['TITLE']['0']], or the empty title. *)
Definition title_of (_plot : dict (dict string)) : result string :=
  match get "TITLE" _plot with
  | Some d =>
      match get "0" d with
      | Some title => interpolate title
      | None => Raise (KeyError "0")
      end
  | None => Ok ""
  end.

(** The number of [c] in [s]. *)
Fixpoint count_char (c : ascii) (s : string) : nat :=
  match s with
  | EmptyString => 0
  | String a r => (if Ascii.eqb a c then 1 else 0) + count_char c r
  end.

Lemma split_length (c : ascii) (s : string) :
  List.length (split_on c s) = S (count_char c s).
Proof.
  unfold split_on, is_char. induction s as [|a r IH]; simpl; [reflexivity|].
  destruct (Ascii.eqb a c); simpl; [rewrite IH; reflexivity|].
  destruct (split (fun a0 => Ascii.eqb a0 c) r) eqn:E; simpl in *; [discriminate|assumption].
Qed.

(** With fewer than two markers the text is kept as it is. *)
Lemma interpolate_literal (title : string) :
  count_char at_sign title < 2 -> interpolate title = Ok title.
Proof.
  intros H. unfold interpolate. rewrite split_length.
  destruct (Nat.leb_spec 3 (S (count_char at_sign title))); [lia|reflexivity].
Qed.

(** With two markers the text after the second one is left out. *)
Lemma interpolate_two_markers (text expr more : string) :
  none (is_char at_sign) text = true ->
  none (is_char at_sign) expr = true ->
  none (is_char at_sign) more = true ->
  interpolate (text ++ String at_sign (expr ++ String at_sign more))
  = (r <- interp_str expr ;; Ok (text ++ r)).
Proof.
  intros Ht He Hm. unfold interpolate, split_on.
  rewrite (split_app_sep _ text _ at_sign Ht eq_refl).
  rewrite (split_app_sep _ expr _ at_sign He eq_refl).
  rewrite (split_none _ more Hm). simpl.
  destruct (interp_str expr); reflexivity.
Qed.

End WithInterpreter.

(** An interpreter that knows one expression. *)
Definition count_rows (i : string) : result string :=
  if String.eqb i "len(X)" then Ok "42" else Raise (ValueError "unknown name").

(** C6, at the title [N = @len(X)@ stars]: the result of the expression
    takes its place after the text before it, and the text after the
    second marker is not in the result. *)
Theorem title_loses_last_segment :
  interpolate count_rows "N = @len(X)@ stars" = Ok "N = 42"
  /\ interpolate count_rows "N = @len(X)@ stars" <> Ok "N = 42 stars"
  /\ interpolate count_rows "@len(X)@ stars in @len(X)@ rows" = Ok "42 stars in 42"
  /\ interpolate count_rows "N = @len(X)@" = Ok "N = 42"
  /\ interpolate count_rows "user@host" = Ok "user@host".
Proof. repeat split; try reflexivity. discriminate. Qed.

End Plot.

(** ** More on [_clean_line] *)

Module CleanLine.

Import PyStr Dict Reader.

Lemma none_remove_same (c : ascii) (s : string) :
  none (is_char c) (remove_char c s) = true.
Proof.
  induction s as [|a r IH]; simpl; [reflexivity|].
  destruct (Ascii.eqb a c) eqn:E; [assumption|].
  simpl. unfold is_char at 1. rewrite E. assumption.
Qed.

Lemma none_remove (p : ascii -> bool) (c : ascii) (s : string) :
  none p s = true -> none p (remove_char c s) = true.
Proof.
  induction s as [|a r IH]; simpl; [reflexivity|].
  intros H. apply andb_prop in H as [Ha Hr].
  destruct (Ascii.eqb a c); simpl; [auto|]. rewrite Ha. auto.
Qed.

Lemma none_first_split (p : ascii -> bool) (s : string) :
  none p (first (split p s)) = true.
Proof.
  induction s as [|a r IH]; simpl; [reflexivity|].
  destruct (p a) eqn:E; simpl; [reflexivity|].
  destruct (split p r) as [|x xs] eqn:Es; simpl in *; rewrite E; simpl; [reflexivity|assumption].
Qed.

Lemma none_first_split_other (p q : ascii -> bool) (s : string) :
  none q s = true -> none q (first (split p s)) = true.
Proof.
  induction s as [|a r IH]; simpl; [reflexivity|].
  intros H. apply andb_prop in H as [Ha Hr].
  destruct (p a); simpl; [reflexivity|].
  destruct (split p r) as [|x xs] eqn:Es; simpl in *; rewrite Ha; simpl; auto.
Qed.

Lemma remove_char_none (c : ascii) (s : string) :
  none (is_char c) s = true -> remove_char c s = s.
Proof.
  induction s as [|a r IH]; simpl; [reflexivity|].
  unfold is_char at 1. intros H. apply andb_prop in H as [Ha Hr].
  apply negb_true_iff in Ha. rewrite Ha, (IH Hr). reflexivity.
Qed.

Lemma remove_char_app (c : ascii) (a b : string) :
  remove_char c (a ++ b) = remove_char c a ++ remove_char c b.
Proof.
  induction a as [|x a IH]; simpl; [reflexivity|].
  destruct (Ascii.eqb x c); simpl; rewrite IH; reflexivity.
Qed.

(** The text [_clean_line] works on once the spaces are taken out. *)
Definition unspaced (line : string) : string :=
  match split_on dquote line with
  | [s0; s1; s2] => remove_char space s0 ++ s1 ++ remove_char space s2
  | _ => remove_char space line
  end.

Lemma clean_line_unspaced (line l : string) :
  _clean_line line = Some l ->
  l = first (split_on hash (remove_char tab (remove_char newline (unspaced line))))
  /\ l <> "".
Proof.
  unfold _clean_line. fold (unspaced line).
  destruct (String.eqb (first (split_on hash (unspaced line))) ""); [discriminate|].
  destruct (String.eqb_spec
              (first (split_on hash (remove_char tab (remove_char newline (unspaced line))))) "")
    as [E|E]; simpl; [discriminate|].
  intros [= <-]. split; [reflexivity|assumption].
Qed.

(** X1. A line [_clean_line] keeps is not empty and holds no [#], no
    newline and no tab. *)
Theorem clean_line_shape (line l : string) :
  _clean_line line = Some l ->
  l <> ""
  /\ none (is_char hash) l = true
  /\ none (is_char newline) l = true
  /\ none (is_char tab) l = true.
Proof.
  intros H. apply clean_line_unspaced in H as [-> Hne].
  split; [assumption|]. split; [|split].
  - apply none_first_split.
  - apply none_first_split_other, none_remove, none_remove_same.
  - apply none_first_split_other, none_remove_same.
Qed.

Lemma clean_line_shape_witness :
  _clean_line (" MAG < 20 " ++ String tab ("# bright" ++ String newline "")) = Some "MAG<20"
  /\ none (is_char hash) "MAG<20" = true.
Proof.
  split; [reflexivity|].
  apply (clean_line_shape (" MAG < 20 " ++ String tab ("# bright" ++ String newline ""))).
  reflexivity.
Defined.

(** The number of [c] in [s]. *)
Fixpoint count (c : ascii) (s : string) : nat :=
  match s with
  | EmptyString => 0
  | String a r => (if Ascii.eqb a c then 1 else 0) + count c r
  end.

Lemma split_on_length (c : ascii) (s : string) :
  List.length (split_on c s) = S (count c s).
Proof.
  unfold split_on, is_char. induction s as [|a r IH]; simpl; [reflexivity|].
  destruct (Ascii.eqb a c); simpl; [rewrite IH; reflexivity|].
  destruct (split (fun a0 => Ascii.eqb a0 c) r) eqn:E; simpl in *; [discriminate|assumption].
Qed.

(** X2. Unless the line holds exactly two double quotes, the line
    [_clean_line] keeps holds no space. *)
Theorem clean_line_no_space (line l : string) :
  count dquote line <> 2 ->
  _clean_line line = Some l ->
  none (is_char space) l = true.
Proof.
  intros Hq H. apply clean_line_unspaced in H as [-> _].
  apply none_first_split_other, none_remove, none_remove.
  unfold unspaced. pose proof (split_on_length dquote line) as Hlen.
  destruct (split_on dquote line) as [|s0 [|s1 [|s2 [|s3 t]]]]; try apply none_remove_same.
  simpl in Hlen. congruence.
Qed.

Lemma clean_line_no_space_witness :
  none (is_char space) "RATIO=50" = true.
Proof.
  apply (clean_line_no_space (" RATIO = 50 " ++ String newline "") "RATIO=50").
  - vm_compute. discriminate.
  - reflexivity.
Defined.

(** X3. With exactly two double quotes, the quotes go, the spaces between
    them stay, and the spaces before and after them go: for a line
    [a"b"c] without [#], tab or newline, [_clean_line] gives [a] and [c]
    without their spaces around [b] as it is (or drops the line when
    nothing is left). *)
Theorem clean_line_quoted (a b c : string) :
  none (is_char dquote) a = true -> none (is_char dquote) b = true ->
  none (is_char dquote) c = true ->
  none (fun x => is_char hash x || is_char newline x || is_char tab x) (a ++ b ++ c) = true ->
  _clean_line (a ++ String dquote (b ++ String dquote c))
  = if String.eqb (remove_char space a ++ b ++ remove_char space c) "" then None
    else Some (remove_char space a ++ b ++ remove_char space c).
Proof.
  intros Ha Hb Hc Hn.
  unfold _clean_line, split_on.
  rewrite (split_app_sep _ a _ dquote Ha) by apply Ascii.eqb_refl.
  rewrite (split_app_sep _ b _ dquote Hb) by apply Ascii.eqb_refl.
  rewrite (split_none _ c Hc).
  set (t := remove_char space a ++ b ++ remove_char space c).
  assert (Ht : forall x, none (is_char x) (a ++ b ++ c) = true -> none (is_char x) t = true).
  { intros x. unfold t. rewrite !none_app. intros H.
    apply andb_prop in H as [H1 H]. apply andb_prop in H as [H2 H3].
    rewrite (none_remove _ space a H1), H2, (none_remove _ space c H3). reflexivity. }
  assert (Hh : none (is_char hash) t = true).
  { apply Ht. revert Hn. apply none_weaken. intros x ->. reflexivity. }
  assert (Hl : none (is_char newline) t = true).
  { apply Ht. revert Hn. apply none_weaken. intros x ->. rewrite orb_true_r. reflexivity. }
  assert (Htab : none (is_char tab) t = true).
  { apply Ht. revert Hn. apply none_weaken. intros x ->. rewrite orb_true_r. reflexivity. }
  rewrite (remove_char_none newline t Hl), (remove_char_none tab t Htab).
  rewrite (split_none _ t Hh). simpl.
  destruct (String.eqb t ""); reflexivity.
Qed.

Lemma clean_line_quoted_witness :
  _clean_line ("TITLE = " ++ String dquote ("my title" ++ String dquote " "))
  = Some "TITLE=my title".
Proof.
  apply (clean_line_quoted "TITLE = " "my title" " "); reflexivity.
Defined.

End CleanLine.

(** ** More on [read] *)

Module ReadRun.

Import PyStr Dict Reader.

Lemma kept_lines_skip (pre post : list string) (l : string) :
  l <> "" -> _clean_line l = None ->
  kept_lines (pre ++ l :: post) = kept_lines (pre ++ post).
Proof.
  intros Hl Hc. induction pre as [|x pre IH]; simpl.
  - apply String.eqb_neq in Hl. rewrite Hl, Hc. reflexivity.
  - destruct (String.eqb x ""); [reflexivity|].
    destruct (_clean_line x); rewrite IH; reflexivity.
Qed.

(** X4. A blank line or a comment, anywhere in the file, changes nothing
    of what [read] returns or raises. *)
Theorem read_skips_comments (pre post : list string) (l : string) :
  l <> "" -> _clean_line l = None ->
  read (pre ++ l :: post) = read (pre ++ post).
Proof.
  intros Hl Hc. unfold read.
  rewrite !read_loop_kept, (kept_lines_skip pre post l Hl Hc). reflexivity.
Qed.

Lemma read_skips_comments_witness :
  read (file_of ["[MASK:star]"; "# the bright ones"; "MAG<20"])
  = read (file_of ["[MASK:star]"; "MAG<20"]).
Proof.
  apply (read_skips_comments (file_of ["[MASK:star]"]) (file_of ["MAG<20"])
           ("# the bright ones" ++ String newline "")).
  - discriminate.
  - reflexivity.
Defined.

Lemma kept_lines_nonempty (file : list string) :
  Forall (fun l => l <> "") (kept_lines file).
Proof.
  induction file as [|x rest IH]; simpl; [constructor|].
  destruct (String.eqb x ""); [constructor|].
  destruct (_clean_line x) as [c|] eqn:E; [|assumption].
  constructor; [|assumption]. apply CleanLine.clean_line_unspaced in E. tauto.
Qed.

(** What one line can raise in a state the loop reaches. *)
Lemma read_line_raises (st : state) (line : string) (e : exn) :
  reachable st -> line <> "" -> read_line st line = Raise e ->
  e = Exception no_section \/ e = Exception bad_section.
Proof.
  intros Hst Hne. destruct line as [|c r]; [congruence|].
  destruct (Ascii.eqb c lbracket) eqn:Ec.
  - rewrite read_line_header by (rewrite at_header_cons; assumption).
    unfold read_header. rewrite at_header_cons, Ec. simpl negb. cbv iota.
    apply Ascii.eqb_eq in Ec. subst c.
    change (split is_bracket (String lbracket r)) with ("" :: split is_bracket r).
    destruct (split is_bracket r) as [|sec t] eqn:Es; [destruct (split_not_nil _ _ Es)|].
    simpl. destruct (kind_of_string (first (split_on colon sec))); [discriminate|].
    intros [= <-]. right. reflexivity.
  - destruct (reachable_open_ok st Hst) as [H0|(k & name & ls & Hk & Hname & Hget)].
    + unfold read_line. rewrite H0. simpl. unfold read_header.
      rewrite at_header_cons, Ec. simpl. intros [= <-]. left. reflexivity.
    + rewrite (read_line_inside k c r st Hk Ec). unfold append_line.
      rewrite Hname, Hget. discriminate.
Qed.

Lemma read_lines_raises (lines : list string) :
  Forall (fun l => l <> "") lines ->
  forall st e, reachable st -> read_lines st lines = Raise e ->
  e = Exception no_section \/ e = Exception bad_section.
Proof.
  induction 1 as [|l rest Hl _ IH]; intros st e Hst; simpl; [discriminate|].
  destruct (read_line st l) as [st'|e'] eqn:E; simpl.
  - apply IH. exact (reach_step st st' l Hst E).
  - intros [= <-]. exact (read_line_raises st l e' Hst Hl E).
Qed.

(** X5. Whatever the file, [read] raises nothing but its two exceptions,
    "No section found" and "Section has to be in ...": no lookup of a
    section name and no index into a split header ever fails. *)
Theorem read_raises_only (file : list string) (e : exn) :
  read file = Raise e ->
  e = Exception no_section \/ e = Exception bad_section.
Proof.
  unfold read. rewrite read_loop_kept.
  apply read_lines_raises; [apply kept_lines_nonempty|apply reach_init].
Qed.

Lemma read_raises_only_witness :
  Exception "No section found" = Exception no_section
  \/ Exception "No section found" = Exception bad_section.
Proof.
  apply (read_raises_only (file_of ["MAG<20"; "[MASK]"])). reflexivity.
Defined.

Lemma mask_with_sections (k : kind) (d : dict (list string)) (st : state) :
  _mask_key (with_sections k d st) = _mask_key st
  /\ (k <> MASK -> _mask (with_sections k d st) = _mask st).
Proof. destruct k; split; try reflexivity; congruence. Qed.

Lemma mask_open_section (k : kind) (name : string) (st : state) :
  k <> MASK ->
  _mask_key (open_section k name st) = _mask_key st
  /\ _mask (open_section k name st) = _mask st.
Proof. destruct k; intros H; split; try reflexivity; congruence. Qed.

(** The names in [_mask_key] are the keys of [_mask]. *)
Definition keyed (st : state) : Prop :=
  forall i, In i (_mask_key st) <-> In i (keys (_mask st)).

Lemma read_line_keyed (st st' : state) (line : string) :
  keyed st -> read_line st line = Ok st' -> keyed st'.
Proof.
  intros Hst Hstep. unfold read_line in Hstep.
  destruct ((if negb (in_section st =? 0) && at_header line then 0 else in_section st) =? 0).
  - unfold read_header in Hstep.
    destruct (negb (at_header line)); [discriminate|].
    destruct (nth_error (split is_bracket line) 1) as [sec|]; [|discriminate].
    destruct (kind_of_string (first (split_on colon sec))) as [k|]; [|discriminate].
    injection Hstep as <-.
    destruct (kind_eq_dec k MASK) as [->|Hk].
    + intros i. simpl. rewrite in_app_iff, keys_set_in, (Hst i). simpl. intuition congruence.
    + unfold keyed.
      match goal with
      | |- context [open_section k ?n st] =>
          destruct (mask_open_section k n st Hk) as [E1 E2]
      end.
      intros i. rewrite E1, E2. apply Hst.
  - destruct (kind_of_code
                (if negb (in_section st =? 0) && at_header line then 0 else in_section st))
      as [k|]; [|injection Hstep as <-; assumption].
    unfold append_line in Hstep.
    destruct (name_var k st) as [name|]; [|discriminate].
    destruct (get name (sections k st)) as [ls|] eqn:Eg; [|discriminate].
    injection Hstep as <-. intros i.
    destruct (mask_with_sections k (set name (ls ++ [line])%list (sections k st)) st)
      as [-> Hm].
    destruct (kind_eq_dec k MASK) as [->|Hk].
    + simpl in *. rewrite keys_set_in, (Hst i). split; [tauto|].
      intros [->|H]; [|assumption]. exact (get_some_keys _ _ _ Eg).
    + rewrite (Hm Hk). apply Hst.
Qed.

Lemma read_lines_keyed (lines : list string) :
  forall st st', keyed st -> read_lines st lines = Ok st' -> keyed st'.
Proof.
  induction lines as [|l rest IH]; intros st st' Hst; simpl.
  - intros [= <-]. assumption.
  - destruct (read_line st l) as [st1|e] eqn:E; simpl; [|discriminate].
    apply IH. exact (read_line_keyed st st1 l Hst E).
Qed.

Lemma read_keyed (file : list string) (st : state) :
  read file = Ok st -> keyed st.
Proof.
  unfold read. rewrite read_loop_kept. apply read_lines_keyed.
  intros i. simpl. tauto.
Qed.

(** X6. After [read], the names listed in [_mask_key] are exactly the keys
    of [_mask]: the loop of [_make_mask] finds the lines of every name it
    goes through. *)
Theorem read_mask_key (file : list string) (st : state) :
  read file = Ok st ->
  forall i, In i (_mask_key st) <-> In i (keys (_mask st)).
Proof.
  intros H. unfold read in H. rewrite read_loop_kept in H.
  apply (read_lines_keyed (kept_lines file) init st); [|exact H].
  intros i. simpl. tauto.
Qed.

Lemma read_mask_key_witness :
  In "mask_2" ["mask_2"; "mask_2"] <-> In "mask_2" (keys [("mask_2", ["FLAGS==0"])]).
Proof.
  apply (read_mask_key (file_of ["[MASK:mask_2]"; "MAG<20"; "[MASK]"; "FLAGS==0"])
           (mkState [("mask_2", ["FLAGS==0"])] ["mask_2"; "mask_2"] [] [] [] [] [] 1
              (Some "mask_2") None None None None None)).
  reflexivity.
Defined.

End ReadRun.

(** ** More on the masks and their files *)

Module MaskFiles.

Import PyStr Dict Numpy Masks.

Lemma nth_vand (a b : list bool) (k : nat) :
  nth k (vand a b) false = nth k a false && nth k b false.
Proof.
  revert b k. induction a as [|x a IH]; intros b k; simpl.
  - destruct k; reflexivity.
  - destruct b as [|y b]; simpl.
    + destruct k; simpl; rewrite andb_false_r; reflexivity.
    + destruct k; simpl; [reflexivity|apply IH].
Qed.

Lemma nth_and_all (bs : list (list bool)) (seed : list bool) (k : nat) :
  nth k (and_all seed bs) false
  = nth k seed false && forallb (fun b => nth k b false) bs.
Proof.
  unfold and_all. revert seed. induction bs as [|b bs IH]; intros seed; simpl.
  - rewrite andb_true_r. reflexivity.
  - rewrite IH, nth_vand, andb_assoc. reflexivity.
Qed.

Lemma nth_ones (n k : nat) : k < n -> nth k (ones n) false = true.
Proof.
  unfold ones. revert k. induction n as [|n IH]; intros k Hk; [lia|].
  destruct k; simpl; [reflexivity|]. apply IH. lia.
Qed.

Lemma select_length {A : Type} (data : list A) (m : list bool) :
  List.length m = List.length data -> List.length (select data m) = count_true m.
Proof.
  unfold count_true. revert m. induction data as [|x data IH]; intros [|b m] H; simpl in *;
    try reflexivity; try discriminate.
  destruct b; simpl; rewrite IH; auto.
Qed.

Section WithCatalog.

Variable Row : Type.
Variable interpreter :
  string -> list Row -> bool -> dict (list bool) -> result ndarray.
Variable data : list Row.
Variable cat_filepath : string.

Abbreviation N := (_cat_size Row data).

(** The line [j] evaluates to the vector [b] against the masks [mask]. *)
Definition evaluates (mask : dict (list bool)) (j : string) (b : list bool) : Prop :=
  exists r, interpreter j data true mask = Ok r /\ broadcast N r = Ok b.

Lemma predicates_evaluates (lines : list string) (mask : dict (list bool)) :
  forall bs, predicates Row interpreter data N lines mask = Ok bs ->
  Forall2 (evaluates mask) lines bs.
Proof.
  induction lines as [|j rest IH]; intros bs; simpl.
  - intros [= <-]. constructor.
  - destruct (interpreter j data true mask) as [r|e] eqn:Er; simpl; [|discriminate].
    destruct (broadcast N r) as [b|e] eqn:Eb; simpl; [|discriminate].
    destruct (predicates Row interpreter data N rest mask) as [bs'|e]; simpl; [|discriminate].
    intros [= <-]. constructor; [exists r; split; assumption|apply IH; reflexivity].
Qed.

(** X7. When the loop over the lines of a section, started on the
    all-true vector as [_make_mask] starts it, returns a mask, every line
    of the section other than [NO_SAVE] has been evaluated to a vector, and
    a row is selected by the mask exactly when each of these vectors
    selects it. *)
Theorem mask_selects_row (lines : list string) (mask : dict (list bool)) (m : list bool) :
  lines_loop Row interpreter data lines (ones N) mask = Ok m ->
  exists bs,
    Forall2 (evaluates mask) (filter (fun j => negb (String.eqb j "NO_SAVE")) lines) bs
    /\ forall k, k < N ->
         (nth k m false = true <-> forall b, In b bs -> nth k b false = true).
Proof.
  rewrite (lines_loop_and Row interpreter data lines mask (ones N) (ones_length N)).
  fold (constraints lines).
  destruct (predicates Row interpreter data N (constraints lines) mask) as [bs|e] eqn:Ep;
    simpl; [|discriminate].
  intros [= <-]. exists bs. split; [apply predicates_evaluates; assumption|].
  intros k Hk. rewrite nth_and_all, (nth_ones _ _ Hk). simpl.
  rewrite forallb_forall. reflexivity.
Qed.

(** What the loop over the lines can raise. *)
Definition raised_by_line (e : exn) : Prop :=
  exists j mask,
    interpreter j data true mask = Raise e
    \/ exists r, interpreter j data true mask = Ok r /\ broadcast N r = Raise e.

Lemma lines_loop_raises (lines : list string) (mask : dict (list bool)) (e : exn) :
  forall mask_tmp, List.length mask_tmp = N ->
  lines_loop Row interpreter data lines mask_tmp mask = Raise e -> raised_by_line e.
Proof.
  induction lines as [|j rest IH]; intros mask_tmp Hlen; simpl; [discriminate|].
  destruct (String.eqb j "NO_SAVE"); [apply IH; assumption|].
  destruct (interpreter j data true mask) as [r|e'] eqn:Er; simpl.
  - unfold iand. rewrite Hlen.
    destruct (broadcast N r) as [b|e'] eqn:Eb; simpl.
    + apply IH. rewrite vand_length; [assumption|].
      rewrite (broadcast_length _ _ _ Eb). congruence.
    + intros [= <-]. exists j, mask. right. exists r. split; assumption.
  - intros [= <-]. exists j, mask. left. assumption.
Qed.

Lemma mask_loop_raises (_mask : dict (list string)) (ks : list string) (e : exn) :
  (forall i, In i ks -> In i (keys _mask)) ->
  forall mask, mask_loop Row interpreter data _mask ks mask = Raise e -> raised_by_line e.
Proof.
  induction ks as [|i rest IH]; intros Hks mask; simpl; [discriminate|].
  destruct (get i _mask) as [lines|] eqn:Eg.
  - destruct (lines_loop Row interpreter data lines (ones N) mask) as [m|e'] eqn:El; simpl.
    + apply IH. intros i' Hi'. apply Hks. right. assumption.
    + intros [= <-]. exact (lines_loop_raises lines mask e' _ (ones_length _) El).
  - exfalso. apply get_none_keys in Eg. apply Eg, Hks. left. reflexivity.
Qed.

(** X8. On what [read] returns, [_make_mask] raises only what the
    interpreter raises on a line, or what [&=] raises on its result: the
    lines of every section it goes through are found. *)
Theorem make_mask_raises_only (file : list string) (st : Reader.state) (e : exn) :
  Reader.read file = Ok st ->
  _make_mask Row interpreter data st = Raise e ->
  raised_by_line e.
Proof.
  intros Hread. unfold _make_mask.
  destruct (List.length (Reader._mask st) =? 0); [discriminate|].
  destruct (mask_loop Row interpreter data (Reader._mask st) (Reader._mask_key st) [])
    as [masks|e'] eqn:El; simpl; [discriminate|].
  intros [= <-]. apply (mask_loop_raises _ _ _ (fun i => proj1 (ReadRun.read_keyed file st Hread i)) _ El).
Qed.

(** X9. [save_mask] writes the rows the mask selects, as many as the mask
    has true cells, when the mask has one cell for each row of the
    catalog; a mask without any cell writes a file without rows; and a
    mask of another length raises [IndexError]. *)
Theorem save_mask_rows (m : list bool) (p ext : string) :
  (List.length m = List.length data ->
   save_mask Row data cat_filepath (Some m) (Some p) ext
   = Ok (mkWrite p (select data m) ext (Some cat_filepath))
   /\ List.length (select data m) = count_true m)
  /\ (m = [] ->
      save_mask Row data cat_filepath (Some m) (Some p) ext
      = Ok (mkWrite p [] ext (Some cat_filepath)))
  /\ (List.length m <> List.length data -> m <> [] ->
      save_mask Row data cat_filepath (Some m) (Some p) ext
      = Raise (IndexError "boolean index did not match indexed array")).
Proof.
  unfold save_mask, bool_index. split; [|split].
  - intros H. apply Nat.eqb_eq in H. rewrite H. simpl. split; [reflexivity|].
    apply select_length. apply Nat.eqb_eq. assumption.
  - intros ->. simpl. rewrite orb_true_r. simpl. destruct data; reflexivity.
  - intros H H0. apply Nat.eqb_neq in H. rewrite H.
    destruct m as [|b m']; [contradiction|]. reflexivity.
Qed.

Lemma lines_loop_length (lines : list string) (mask : dict (list bool)) :
  forall mask_tmp m,
    lines_loop Row interpreter data lines mask_tmp mask = Ok m ->
    List.length m = List.length mask_tmp.
Proof.
  induction lines as [|j rest IH]; intros mask_tmp m; simpl.
  - intros [= <-]. reflexivity.
  - destruct (String.eqb j "NO_SAVE"); [apply IH|].
    destruct (interpreter j data true mask) as [r|e]; simpl; [|discriminate].
    destruct (iand mask_tmp r) as [mt|e] eqn:Ei; simpl; [|discriminate].
    intros H. rewrite (IH _ _ H). exact (iand_length _ _ _ Ei).
Qed.

Lemma mask_loop_lengths (_mask : dict (list string)) (ks : list string) :
  forall mask masks,
    mask_loop Row interpreter data _mask ks mask = Ok masks ->
    (forall i m, get i mask = Some m -> List.length m = N) ->
    forall i m, get i masks = Some m -> List.length m = N.
Proof.
  induction ks as [|k rest IH]; intros mask masks; simpl.
  - intros [= <-] H. exact H.
  - destruct (get k _mask) as [lines|]; [|discriminate].
    destruct (lines_loop Row interpreter data lines (ones N) mask) as [mt|e] eqn:El;
      simpl; [|discriminate].
    intros H Hlen. apply (IH _ _ H). intros i m.
    destruct (string_dec k i) as [->|Hne].
    + rewrite get_set_same. intros [= <-].
      rewrite (lines_loop_length _ _ _ _ El). apply ones_length.
    + rewrite get_set_other by assumption. apply Hlen.
Qed.

(** The sections whose mask goes to a file. *)
Definition saved (_mask : dict (list string)) (i : string) : bool :=
  match get i _mask with
  | Some lines => negb (has_no_save lines)
  | None => false
  end.

Lemma save_loop_total (output_dir file_number : string) (_mask : dict (list string))
    (mask : dict (list bool)) (ks : list string) :
  (forall i, In i ks -> In i (keys _mask)) ->
  (forall i, In i ks -> exists m, get i mask = Some m /\ List.length m = N) ->
  exists ws,
    save_loop Row data cat_filepath output_dir file_number _mask mask ks = Ok ws
    /\ List.length ws = List.length (filter (saved _mask) ks).
Proof.
  induction ks as [|k rest IH]; intros Hk Hm; simpl; [exists []; split; reflexivity|].
  destruct IH as (ws & Hws & Hlen).
  { intros i Hi. apply Hk. right. assumption. }
  { intros i Hi. apply Hm. right. assumption. }
  unfold saved at 1.
  destruct (get k _mask) as [lines|] eqn:Eg.
  - destruct (has_no_save lines); simpl.
    + exists ws. split; assumption.
    + destruct (Hm k (or_introl eq_refl)) as (m & Hg & Hl). rewrite Hg.
      unfold save_mask, bool_index. fold N. rewrite Hl, Nat.eqb_refl, Hws. simpl.
      eexists. split; [reflexivity|]. simpl. rewrite Hlen. reflexivity.
  - exfalso. apply get_none_keys in Eg. apply Eg, Hk. left. reflexivity.
Qed.

(** X10. On what [read] returns, once [_make_mask] has built the masks the
    mask part of [process] cannot fail: it returns those masks and writes
    one file for each section without a [NO_SAVE] line. *)
Theorem process_masks_after_read (file : list string) (st : Reader.state)
    (masks : dict (list bool)) (output_dir file_number : string) :
  Reader.read file = Ok st ->
  _make_mask Row interpreter data st = Ok (Some masks) ->
  exists ws,
    process_masks Row interpreter data cat_filepath output_dir file_number st
    = Ok (Some masks, ws)
    /\ List.length ws = List.length (filter (saved (Reader._mask st)) (keys masks)).
Proof.
  intros Hread Hmake. unfold process_masks. rewrite Hmake.
  unfold _make_mask in Hmake.
  destruct (List.length (Reader._mask st) =? 0); [discriminate|]. simpl.
  destruct (mask_loop Row interpreter data (Reader._mask st) (Reader._mask_key st) [])
    as [mk|e] eqn:El; simpl in Hmake; [|discriminate].
  injection Hmake as <-.
  destruct (save_loop_total output_dir file_number (Reader._mask st) mk (keys mk))
    as (ws & Hws & Hlen).
  - intros i Hi. apply (ReadRun.read_keyed file st Hread).
    apply (mask_loop_keys Row interpreter data cat_filepath _ _ _ _ El) in Hi as [Hi|[]].
    assumption.
  - intros i Hi. destruct (get i mk) as [m|] eqn:Eg.
    + exists m. split; [reflexivity|].
      apply (mask_loop_lengths _ _ _ _ El) with (i := i); [|assumption].
      intros i' m' H. discriminate.
    + apply get_none_keys in Eg. contradiction.
  - exists ws. rewrite Hws. simpl. split; [reflexivity|assumption].
Qed.

End WithCatalog.

Lemma mask_selects_row_witness :
  lines_loop Z demo_interpreter demo_data ["bright"; "NO_SAVE"; "MAG>18"] (ones 4)
    [("bright", [true; false; true; false])]
  = Ok [false; false; true; false]
  /\ exists bs,
       Forall2 (evaluates Z demo_interpreter demo_data [("bright", [true; false; true; false])])
         ["bright"; "MAG>18"] bs
       /\ forall k, k < 4 ->
            (nth k [false; false; true; false] false = true
             <-> forall b, In b bs -> nth k b false = true).
Proof.
  split; [reflexivity|].
  apply (mask_selects_row Z demo_interpreter demo_data ["bright"; "NO_SAVE"; "MAG>18"]
           [("bright", [true; false; true; false])] [false; false; true; false]).
  reflexivity.
Defined.

Lemma save_mask_rows_witness :
  (save_mask Z demo_data "cat-001-0.fits" (Some [true; false; true; false])
     (Some "out/mask/bright-001-0.fits") "LDAC_OBJECTS"
   = Ok (mkWrite "out/mask/bright-001-0.fits" [18; 19]%Z "LDAC_OBJECTS" (Some "cat-001-0.fits"))
   /\ List.length (select demo_data [true; false; true; false]) = 2)
  /\ save_mask Z demo_data "cat-001-0.fits" (Some [])
       (Some "out/mask/bright-001-0.fits") "LDAC_OBJECTS"
     = Ok (mkWrite "out/mask/bright-001-0.fits" [] "LDAC_OBJECTS" (Some "cat-001-0.fits"))
  /\ save_mask Z demo_data "cat-001-0.fits" (Some [true; false])
       (Some "out/mask/bright-001-0.fits") "LDAC_OBJECTS"
     = Raise (IndexError "boolean index did not match indexed array").
Proof.
  split; [|split].
  - destruct (save_mask_rows Z demo_data "cat-001-0.fits" [true; false; true; false]
                "out/mask/bright-001-0.fits" "LDAC_OBJECTS") as [H _].
    apply H. reflexivity.
  - destruct (save_mask_rows Z demo_data "cat-001-0.fits" []
                "out/mask/bright-001-0.fits" "LDAC_OBJECTS") as (_ & H & _).
    apply H. reflexivity.
  - destruct (save_mask_rows Z demo_data "cat-001-0.fits" [true; false]
                "out/mask/bright-001-0.fits" "LDAC_OBJECTS") as (_ & _ & H).
    apply H; discriminate.
Defined.

Lemma make_mask_raises_only_witness :
  raised_by_line Z demo_interpreter demo_data (ValueError "unknown name").
Proof.
  apply (make_mask_raises_only Z demo_interpreter demo_data
           (Reader.file_of ["[MASK:m]"; "faint"])
           (Reader.mkState [("m", ["faint"])] ["m"] [] [] [] [] [] 1
              (Some "m") None None None None None)); reflexivity.
Defined.

Lemma process_masks_after_read_witness :
  exists ws,
    process_masks Z demo_interpreter demo_data "cat-001-0.fits" "out" "-001-0" demo_state
    = Ok (Some demo_masks, ws)
    /\ List.length ws = 1.
Proof.
  apply (process_masks_after_read Z demo_interpreter demo_data "cat-001-0.fits"
           demo_file demo_state demo_masks "out" "-001-0"); reflexivity.
Defined.

End MaskFiles.

(** ** More on the random split *)

Module Draws.

Import PyStr Dict Numpy RandSplit.

Section WithRandom.

Variable float : string -> option PrimFloat.float.
Variable rnd : nat -> nat.

(** Asked for fewer indices than it holds, or for more than the pool can
    give, the loop draws until the pool is empty and then fails. *)
Lemma draw_raises (fuel : nat) :
  forall n_keep mask_ratio mask_left k,
    (n_keep < Z.of_nat (List.length mask_ratio)
     \/ Z.of_nat (List.length mask_ratio + List.length mask_left) < n_keep)%Z ->
    List.length mask_left < fuel ->
    draw rnd fuel n_keep mask_ratio mask_left k = Some (Raise (ValueError "low >= high")).
Proof.
  induction fuel as [|fuel IH]; intros n_keep mask_ratio mask_left k Hout Hf; [lia|].
  simpl. destruct (Z.eqb_spec (Z.of_nat (List.length mask_ratio)) n_keep) as [E|E]; simpl; [lia|].
  destruct (Nat.eq_dec (List.length mask_left) 0) as [E0|E0].
  - unfold randint. rewrite E0. reflexivity.
  - destruct (randint_ok rnd k _ E0) as [-> Hlt].
    destruct (pop_some _ _ Hlt) as (x & l' & Hpop). rewrite Hpop.
    pose proof (Permutation_length (pop_perm _ _ _ _ Hpop)) as Hlen. simpl in Hlen.
    apply IH; [|lia]. rewrite length_app. simpl. lia.
Qed.

Lemma draw_split_raises (P : nat) (n_keep : Z) (k : nat) :
  (n_keep < 0 \/ Z.of_nat P < n_keep)%Z ->
  draw_split rnd P n_keep k = Some (Raise (ValueError "low >= high")).
Proof.
  intros Hout. unfold draw_split. apply draw_raises.
  - simpl. rewrite length_seq. lia.
  - rewrite length_seq. lia.
Qed.

(** The draws return only when asked for a number of indices that the
    pool can give. *)
Lemma draw_split_returns (P : nat) (n_keep : Z) (k : nat) kept left k' :
  draw_split rnd P n_keep k = Some (Ok (kept, left, k')) ->
  (0 <= n_keep <= Z.of_nat P)%Z.
Proof.
  intros H.
  destruct (Z_lt_ge_dec n_keep 0) as [Hneg|Hpos].
  { rewrite draw_split_raises in H by (left; assumption). discriminate. }
  destruct (Z_lt_ge_dec (Z.of_nat P) n_keep) as [Hbig|Hsmall].
  { rewrite draw_split_raises in H by (right; assumption). discriminate. }
  lia.
Qed.

(** X11. When the number of indices to keep is negative or exceeds the
    pool, the draws raise the [ValueError] of [randint], whatever it
    returned before, and so does the section whose ratio gives such a
    number: no split of the wrong size is ever produced. A section whose
    ratio is infinite or not a number raises what [int] raises, before any
    draw. *)
Theorem draw_split_out_of_range (P : nat) (k : nat) :
  (forall n_keep, (n_keep < 0 \/ Z.of_nat P < n_keep)%Z ->
     draw_split rnd P n_keep k = Some (Raise (ValueError "low >= high")))
  /\ (forall self_mask i lines rand_split loc loc' r n_keep,
        lines_loop float self_mask (first lines) lines loc = Ok loc' ->
        ratio loc' = Some r ->
        n_keep_of (count_true (mask loc')) r = Ok n_keep ->
        (n_keep < 0 \/ Z.of_nat (count_true (mask loc')) < n_keep)%Z ->
        section_body float rnd self_mask i lines rand_split loc
        = Some (Raise (ValueError "low >= high")))
  /\ (forall self_mask i lines rand_split loc loc' r e,
        lines_loop float self_mask (first lines) lines loc = Ok loc' ->
        ratio loc' = Some r ->
        n_keep_of (count_true (mask loc')) r = Raise e ->
        section_body float rnd self_mask i lines rand_split loc = Some (Raise e)).
Proof.
  split; [intros n_keep; apply draw_split_raises|]. split.
  - intros self_mask i lines rand_split loc loc' r n_keep Hl Hr Hn Hout.
    unfold section_body. rewrite Hl, Hr, Hn.
    rewrite (draw_split_raises _ _ _ Hout). reflexivity.
  - intros self_mask i lines rand_split loc loc' r e Hl Hr Hn.
    unfold section_body. rewrite Hl, Hr, Hn. reflexivity.
Qed.

Lemma ratio_key_inj (a b : Z) : ratio_key a = ratio_key b -> a = b.
Proof. unfold ratio_key. intros H. apply append_inj_l in H. apply str_of_Z_inj. exact H. Qed.

Lemma ratio_key_not_mask (a : Z) : "mask" <> ratio_key a.
Proof. unfold ratio_key. simpl. discriminate. Qed.

(** X12. What a section that returns has drawn and stored. With [P] the
    number of true cells of the pool, the number [n_keep] that
    [int(ceil(P*ratio))] gave lies between 0 and [P]; [n_keep] indices
    are kept and the other [P - n_keep] are left, no index twice, none in
    both sets, all below [P]. The dictionary holds the shared array under
    ['mask'] and the indices left under [ratio_<100 - p>], [p] being
    [int(ratio*100)]; the indices kept are stored under [ratio_<p>] unless
    [p] is 50, in which case the two keys are one and the dictionary holds
    the indices left only. *)
Theorem section_stores (self_mask : option (dict (list bool))) (i : string)
    (lines : list string) (rand_split rand_split' : dict (dict entry))
    (loc loc' : locals) :
  section_body float rnd self_mask i lines rand_split loc = Some (Ok (rand_split', loc')) ->
  exists r n_keep p kept left k' d,
    ratio loc' = Some r
    /\ n_keep_of (count_true (mask loc')) r = Ok n_keep
    /\ percent_of r = Ok p
    /\ draw_split rnd (count_true (mask loc')) n_keep k' = Some (Ok (kept, left, calls loc'))
    /\ Z.of_nat (List.length kept) = n_keep
    /\ List.length left = count_true (mask loc') - List.length kept
    /\ NoDup kept /\ NoDup left
    /\ (forall x, In x kept -> ~ In x left)
    /\ (forall x, In x kept \/ In x left <-> x < count_true (mask loc'))
    /\ get i rand_split' = Some d
    /\ get "mask" d = Some MaskRef
    /\ get (ratio_key (100 - p)) d = Some (Indices left)
    /\ (p <> 50%Z -> get (ratio_key p) d = Some (Indices kept))
    /\ (p = 50%Z -> d = [("mask", MaskRef); ("ratio_50", Indices left)]).
Proof.
  unfold section_body.
  destruct (lines_loop float self_mask (first lines) lines loc) as [l1|e]; [|discriminate].
  destruct (ratio l1) as [r|] eqn:Er; [|discriminate].
  destruct (n_keep_of (count_true (mask l1)) r) as [n_keep|e] eqn:En; [|discriminate].
  destruct (draw_split rnd (count_true (mask l1)) n_keep (calls l1))
    as [[[[kept left] k1]|e]|] eqn:Ed; try discriminate.
  destruct (percent_of r) as [p|e] eqn:Ep; [|discriminate].
  intros [= <- <-]. cbn [ratio mask calls].
  pose proof (draw_split_returns _ _ _ _ _ _ Ed) as Hb.
  destruct (draw_split_partition rnd _ _ (calls l1) Hb)
    as (kept' & left' & Hd' & Hk & Hl & Hnk & Hnl & Hdis & Hcov).
  rewrite Ed in Hd'. injection Hd' as <- <- Hk1.
  exists r, n_keep, p, kept, left, (calls l1),
    (set (ratio_key (100 - p)) (Indices left)
       (set (ratio_key p) (Indices kept) (set "mask" MaskRef []))).
  split; [reflexivity|]. split; [exact En|]. split; [exact Ep|].
  split; [rewrite Ed, Hk1; reflexivity|].
  split; [exact Hk|]. split; [exact Hl|]. split; [exact Hnk|]. split; [exact Hnl|].
  split; [exact Hdis|]. split; [exact Hcov|].
  split; [apply get_set_same|].
  split; [|split; [|split]].
  - rewrite get_set_other by (intros H; symmetry in H; revert H; apply ratio_key_not_mask).
    rewrite get_set_other by (intros H; symmetry in H; revert H; apply ratio_key_not_mask).
    reflexivity.
  - apply get_set_same.
  - intros Hp. rewrite get_set_other.
    + apply get_set_same.
    + intros H. apply ratio_key_inj in H. lia.
  - intros ->. reflexivity.
Qed.

Lemma lines_loop_raises_value (self_mask : option (dict (list bool))) (line0 : string)
    (lines : list string) :
  forall loc e, lines_loop float self_mask line0 lines loc = Raise e ->
  exists msg, e = ValueError msg.
Proof.
  induction lines as [|j rest IH]; intros loc e; simpl; [discriminate|].
  destruct (split_on equal_sign j) as [|s0 [|s1 [|s2 t]]];
    try (intros [= <-]; eexists; reflexivity).
  destruct (String.eqb s0 "RATIO").
  - destruct (float s1); [apply IH|]. intros [= <-]. eexists. reflexivity.
  - destruct (String.eqb s0 "MASK"); [|apply IH].
    destruct (and_masks self_mask (split_on comma s1) (mask loc)) as [m|e'] eqn:Ea; simpl;
      [apply IH|].
    intros [= <-]. clear IH. revert Ea. generalize (mask loc).
    induction (split_on comma s1) as [|k ks IHk]; intros m; simpl; [discriminate|].
    destruct self_mask as [masks|]; [|intros [= <-]; eexists; reflexivity].
    destruct (get k masks) as [mk|]; [|intros [= <-]; eexists; reflexivity].
    destruct (iand m (BoolArr mk)); [apply IHk|intros [= <-]; eexists; reflexivity].
Qed.

(** The key of a line, [re.split('=', j)[0]]. *)
Definition key_of (j : string) : string := first (split_on equal_sign j).

Lemma lines_loop_keeps_ratio (self_mask : option (dict (list bool))) (line0 : string)
    (lines : list string) :
  Forall (fun j => key_of j <> "RATIO") lines ->
  forall loc loc', lines_loop float self_mask line0 lines loc = Ok loc' ->
  ratio loc' = ratio loc.
Proof.
  induction 1 as [|j rest Hj _ IH]; intros loc loc'; simpl.
  - intros [= <-]. reflexivity.
  - unfold key_of in Hj.
    destruct (split_on equal_sign j) as [|s0 [|s1 [|s2 t]]]; try discriminate.
    simpl in Hj. apply String.eqb_neq in Hj. rewrite Hj.
    destruct (String.eqb s0 "MASK"); [|apply IH].
    destruct (and_masks self_mask (split_on comma s1) (mask loc)) as [m|e]; simpl;
      [|discriminate].
    intros H. apply IH in H. exact H.
Qed.

(** X13. [RATIO] is needed: when the section the loop takes first has no
    [RATIO] line, [_make_rand_split] raises, [NameError] for the unbound
    [ratio] unless a line raised a [ValueError] before. *)
Theorem first_section_needs_ratio (cat_size : nat) (self_mask : option (dict (list bool)))
    (i : string) (lines : list string) (rest : dict (list string)) :
  Forall (fun j => key_of j <> "RATIO") lines ->
  exists e,
    _make_rand_split float rnd cat_size self_mask ((i, lines) :: rest) = Some (Raise e)
    /\ (e = NameError "ratio" \/ exists msg, e = ValueError msg).
Proof.
  intros Hno. unfold _make_rand_split. simpl. unfold section_body.
  destruct (lines_loop float self_mask (first lines) lines (mkLocals None (ones cat_size) 0))
    as [loc'|e] eqn:El.
  - rewrite (lines_loop_keeps_ratio _ _ _ Hno _ _ El). simpl.
    exists (NameError "ratio"). split; [reflexivity|left; reflexivity].
  - exists e. split; [reflexivity|]. right. exact (lines_loop_raises_value _ _ _ _ _ El).
Qed.

End WithRandom.

Lemma draw_split_out_of_range_witness :
  draw_split (fun k => k) 4 6 0 = Some (Raise (ValueError "low >= high"))
  /\ section_body demo_float (fun k => k) None "s" ["RATIO=150"] [] (mkLocals None (ones 4) 0)
     = Some (Raise (ValueError "low >= high"))
  /\ section_body demo_float (fun k => k) None "s" ["RATIO=inf"] [] (mkLocals None (ones 4) 0)
     = Some (Raise (OverflowError "cannot convert float infinity to integer")).
Proof.
  destruct (draw_split_out_of_range demo_float (fun k => k) 4 0) as (H1 & H2 & H3).
  split; [apply H1; right; reflexivity|]. split.
  - apply (H2 None "s" ["RATIO=150"] [] (mkLocals None (ones 4) 0)
             (mkLocals (Some (norm_ratio (PyFloat.of_nat 150))) (ones 4) 0)
             (norm_ratio (PyFloat.of_nat 150)) 6%Z).
    + vm_compute. reflexivity.
    + reflexivity.
    + vm_compute. reflexivity.
    + right. reflexivity.
  - apply (H3 None "s" ["RATIO=inf"] [] (mkLocals None (ones 4) 0)
             (mkLocals (Some (norm_ratio PrimFloat.infinity)) (ones 4) 0)
             (norm_ratio PrimFloat.infinity)).
    + vm_compute. reflexivity.
    + reflexivity.
    + vm_compute. reflexivity.
Defined.

(** [RATIO=29] on 10 rows: [29/100.*100] is [28.999999999999996], and the
    keys are [ratio_28] and [ratio_72]. *)
Lemma section_stores_witness :
  exists r n_keep p kept left,
    n_keep_of 10 r = Ok n_keep
    /\ percent_of r = Ok p
    /\ n_keep = 3%Z /\ p = 28%Z
    /\ List.length kept = 3 /\ List.length left = 7
    /\ get (ratio_key 72) [("mask", MaskRef); ("ratio_28", Indices [0; 2; 4]);
                           ("ratio_72", Indices [1; 3; 5; 6; 7; 8; 9])]
       = Some (Indices left)
    /\ get (ratio_key 28) [("mask", MaskRef); ("ratio_28", Indices [0; 2; 4]);
                           ("ratio_72", Indices [1; 3; 5; 6; 7; 8; 9])]
       = Some (Indices kept).
Proof.
  assert (Hrun :
    section_body demo_float (fun k => k) None "s" ["RATIO=29"] [] (mkLocals None (ones 10) 0)
    = Some (Ok ([("s", [("mask", MaskRef); ("ratio_28", Indices [0; 2; 4]);
                        ("ratio_72", Indices [1; 3; 5; 6; 7; 8; 9])])],
                mkLocals (Some (norm_ratio (PyFloat.of_nat 29))) (ones 10) 3)))
    by (vm_compute; reflexivity).
  destruct (section_stores demo_float (fun k => k) None "s" ["RATIO=29"] [] _
              (mkLocals None (ones 10) 0) _ Hrun)
    as (r & n_keep & p & kept & left & k' & d
        & Hr & Hn & Hp & _ & Hk & Hl & _ & _ & _ & _ & Hg & _ & Hleft & Hkept & _).
  cbn [ratio mask] in Hr, Hn, Hl. injection Hr as <-.
  change (count_true (ones 10)) with 10 in Hn, Hl.
  assert (En : n_keep = 3%Z).
  { assert (E : n_keep_of 10 (norm_ratio (PyFloat.of_nat 29)) = Ok 3%Z)
      by (vm_compute; reflexivity).
    rewrite E in Hn. injection Hn as <-. reflexivity. }
  assert (Ep : p = 28%Z).
  { assert (E : percent_of (norm_ratio (PyFloat.of_nat 29)) = Ok 28%Z)
      by (vm_compute; reflexivity).
    rewrite E in Hp. injection Hp as <-. reflexivity. }
  subst n_keep p.
  assert (Ed : d = [("mask", MaskRef); ("ratio_28", Indices [0; 2; 4]);
                    ("ratio_72", Indices [1; 3; 5; 6; 7; 8; 9])]).
  { simpl in Hg. injection Hg as <-. reflexivity. }
  subst d.
  exists (norm_ratio (PyFloat.of_nat 29)), 3%Z, 28%Z, kept, left.
  split; [vm_compute; reflexivity|]. split; [vm_compute; reflexivity|].
  split; [reflexivity|]. split; [reflexivity|].
  assert (Hk3 : List.length kept = 3) by lia.
  split; [exact Hk3|]. split; [lia|].
  split; [exact Hleft|]. apply Hkept. discriminate.
Defined.

Lemma first_section_needs_ratio_witness :
  exists e,
    _make_rand_split demo_float (fun k => k) 4 bright_only [("a", ["MASK=bright"])]
    = Some (Raise e)
    /\ (e = NameError "ratio" \/ exists msg, e = ValueError msg).
Proof.
  apply (first_section_needs_ratio demo_float (fun k => k) 4 bright_only "a" ["MASK=bright"] []).
  repeat constructor. discriminate.
Defined.

Lemma and_masks_and_witness :
  exists bs,
    Forall2 (fun k b => exists m, get k [("bright", [true; false; true; false])] = Some m
                                  /\ broadcast 4 (BoolArr m) = Ok b) ["bright"] bs
    /\ [true; false; true; false] = fold_left vand bs (ones 4)
    /\ List.length [true; false; true; false] = 4.
Proof.
  apply (and_masks_and [("bright", [true; false; true; false])] ["bright"] (ones 4)
           [true; false; true; false]).
  reflexivity.
Defined.

End Draws.

(** ** More on the flag split, and [SETools.save_flag_split] *)

Module FlagFiles.

Import PyStr Dict Numpy FlagSplit.

(** The partitions of a column as a list: one entry for each value. *)
Definition entries (col : list Z) (values : list Z) : dict (list nat) :=
  map (fun v => (str_of_Z v, where_eq 0 col v)) values.

Lemma keys_entries (col values : list Z) (key : string) :
  In key (keys (entries col values)) <-> exists v, In v values /\ key = str_of_Z v.
Proof.
  unfold keys, entries. rewrite map_map. simpl. rewrite in_map_iff.
  split; intros (v & H1 & H2); exists v; auto.
Qed.

Lemma partitions_entries (col : list Z) (values : list Z) :
  NoDup values ->
  forall d, (forall v, In v values -> get (str_of_Z v) d = None) ->
  partitions col values d = (d ++ entries col values)%list.
Proof.
  unfold partitions. induction 1 as [|v values Hv Hnd IH]; intros d Hd; simpl.
  - rewrite app_nil_r. reflexivity.
  - rewrite IH.
    + rewrite (keys_set_new _ _ _ (Hd v (or_introl eq_refl))), <- app_assoc. reflexivity.
    + intros w Hw. rewrite get_set_other; [apply Hd; right; assumption|].
      intros E. apply str_of_Z_inj in E. subst w. contradiction.
Qed.

Lemma where_eq_length (col : list Z) (v : Z) (start : nat) :
  List.length (where_eq start col v) = count_occ Z.eq_dec col v.
Proof.
  revert start. induction col as [|x col IH]; intros start; simpl; [reflexivity|].
  destruct (Z.eqb_spec x v) as [E|E]; destruct (Z.eq_dec x v); try contradiction; simpl;
    rewrite IH; reflexivity.
Qed.

Lemma list_sum_indicator (vs : list Z) (x : Z) :
  NoDup vs -> In x vs ->
  list_sum (map (fun v => if Z.eq_dec x v then 1 else 0) vs) = 1.
Proof.
  induction 1 as [|v vs Hv Hnd IH]; simpl; [tauto|].
  intros [->|Hin].
  - destruct (Z.eq_dec x x); [|contradiction]. f_equal.
    clear IH Hnd. induction vs as [|w vs IHv]; simpl; [reflexivity|].
    destruct (Z.eq_dec x w) as [->|_]; [exfalso; apply Hv; left; reflexivity|].
    apply IHv. intros H. apply Hv. right. assumption.
  - destruct (Z.eq_dec x v) as [->|_]; [contradiction|]. apply IH. assumption.
Qed.

Lemma nodup_map_str (vs : list Z) : NoDup vs -> NoDup (map str_of_Z vs).
Proof.
  induction 1 as [|v vs Hv Hnd IH]; simpl; constructor; [|assumption].
  intros H. apply in_map_iff in H as (w & Hw & Hin).
  apply str_of_Z_inj in Hw. subst w. contradiction.
Qed.

Lemma list_sum_map_add (f g : Z -> nat) (vs : list Z) :
  list_sum (map (fun v => f v + g v) vs) = list_sum (map f vs) + list_sum (map g vs).
Proof. induction vs as [|v vs IH]; simpl in *; lia. Qed.

Lemma list_sum_count_occ (vs : list Z) (col : list Z) :
  NoDup vs -> (forall x, In x col -> In x vs) ->
  list_sum (map (count_occ Z.eq_dec col) vs) = List.length col.
Proof.
  intros Hnd. induction col as [|x col IH]; intros Hin.
  - clear. induction vs as [|v vs IHv]; simpl; [reflexivity|assumption].
  - transitivity (list_sum (map (fun v => if Z.eq_dec x v then 1 else 0) vs)
                  + list_sum (map (count_occ Z.eq_dec col) vs)).
    + rewrite <- list_sum_map_add. f_equal. apply map_ext.
      intros v. simpl. destruct (Z.eq_dec x v); reflexivity.
    + rewrite (list_sum_indicator vs x Hnd (Hin x (or_introl eq_refl))), IH; [reflexivity|].
      intros y Hy. apply Hin. right. assumption.
Qed.

Lemma flag_split_entries (cat_filepath : string) (data : catalog)
    (i : string) (lines : list string) (p : string) (col : list Z) :
  lines_loop (first lines) lines None = Ok (Some p) ->
  get p data = Some col ->
  exists fs,
    _make_flag_split cat_filepath data [(i, lines)] = Ok (Some fs)
    /\ get i fs = Some (entries col (distinct col)).
Proof.
  intros Hlines Hcol.
  destruct (flag_split_single cat_filepath data i lines p col Hlines Hcol)
    as (fs & d & Hmake & Hget & _).
  exists fs. split; [assumption|].
  assert (Hd : d = entries col (distinct col)).
  { unfold _make_flag_split in Hmake. simpl in Hmake. rewrite Hlines in Hmake.
    simpl in Hmake. rewrite Hcol in Hmake.
    destruct (store_all_get i col (distinct col) [(i, [])] []) as (fs' & Hs & Hg & _).
    { simpl. rewrite String.eqb_refl. reflexivity. }
    rewrite Hs in Hmake. simpl in Hmake. injection Hmake as <-.
    rewrite Hg in Hget. injection Hget as <-.
    apply (partitions_entries col (distinct col) (NoDup_nodup _ _) []). reflexivity. }
  subst d. assumption.
Qed.

(** X14. With one FLAG_SPLIT section naming a column of the catalog, the
    section gets one partition for each distinct value of the column,
    keyed by the printed value and holding the positions of the value, and
    no other; the keys are distinct and the sizes of the partitions add up
    to the number of rows. *)
Theorem flag_split_sizes (cat_filepath : string) (data : catalog)
    (i : string) (lines : list string) (p : string) (col : list Z) :
  lines_loop (first lines) lines None = Ok (Some p) ->
  get p data = Some col ->
  exists fs,
    _make_flag_split cat_filepath data [(i, lines)] = Ok (Some fs)
    /\ get i fs = Some (entries col (distinct col))
    /\ NoDup (keys (entries col (distinct col)))
    /\ list_sum (map (fun kv => List.length (snd kv)) (entries col (distinct col)))
       = List.length col.
Proof.
  intros Hlines Hcol.
  destruct (flag_split_entries cat_filepath data i lines p col Hlines Hcol)
    as (fs & Hmake & Hget).
  exists fs. split; [assumption|]. split; [assumption|]. split.
  - unfold keys, entries. rewrite map_map. simpl.
    apply nodup_map_str. apply NoDup_nodup.
  - unfold entries. rewrite map_map. simpl.
    rewrite (map_ext _ (count_occ Z.eq_dec col)) by (intros v; apply where_eq_length).
    apply list_sum_count_occ; [apply NoDup_nodup|].
    intros x Hx. apply nodup_In. assumption.
Qed.

Lemma flag_split_sizes_witness :
  exists fs,
    _make_flag_split "cat.fits" class_catalog [("byflag", ["PARAM_NAME=CLASS"])] = Ok (Some fs)
    /\ list_sum (map (fun kv => List.length (snd kv))
                  (entries [0; 1; 2; 1; 2; 2; 0; 1; 2; 2]%Z
                     (distinct [0; 1; 2; 1; 2; 2; 0; 1; 2; 2]%Z))) = 10.
Proof.
  destruct (flag_split_sizes "cat.fits" class_catalog "byflag" ["PARAM_NAME=CLASS"]
              "CLASS" [0; 1; 2; 1; 2; 2; 0; 1; 2; 2]%Z eq_refl eq_refl)
    as (fs & H1 & _ & _ & H4).
  exists fs. split; assumption.
Defined.

Section WithCatalog.

Variable Row : Type.
Variable data : list Row.
Variable cat_filepath : string.

(** [int(s)], [None] when it raises; it reads back what [format] prints. *)
Variable py_int : string -> option Z.
Hypothesis py_int_str : forall z, py_int (str_of_Z z) = Some z.

(** The loop [for i in flag_split.keys()] of [save_flag_split]. *)
Fixpoint flag_loop (output_path file_number ext_name : string)
    (flag_split : dict (list nat)) : result (list (Masks.fits_write Row)) :=
  match flag_split with
  | [] => Ok []
  | (i, idx) :: rest =>
      selected <- take data idx ;;
      match py_int i with
      | None => Raise (ValueError ("invalid literal for int() with base 10: " ++ i))
      | Some n =>
          ws <- flag_loop output_path file_number ext_name rest ;;
          Ok (Masks.mkWrite (output_path ++ "flag_" ++ str_of_Z n ++ file_number ++ ".fits")
                selected ext_name (Some cat_filepath) :: ws)
      end
  end.

(** [save_flag_split] *)
Definition save_flag_split (flag_split : option (dict (list nat)))
    (output_path file_number : option string) (ext_name : string)
    : result (list (Masks.fits_write Row)) :=
  match flag_split with
  | None => Raise (ValueError "flag_split not provided")
  | Some fs =>
      match output_path with
      | None => Raise (ValueError "output path not provided")
      | Some op =>
          match file_number with
          | None => Raise (ValueError "file_number path not provided")
          | Some fn => flag_loop op fn ext_name fs
          end
      end
  end.

(** The rows whose flag is [v]. *)
Definition rows_with (col : list Z) (v : Z) : list Row :=
  select data (map (fun x => Z.eqb x v) col).

Lemma take_where (col : list Z) (v : Z) :
  forall (pre rows : list Row),
    List.length rows = List.length col ->
    take (pre ++ rows) (where_eq (List.length pre) col v)
    = Ok (select rows (map (fun x => Z.eqb x v) col)).
Proof.
  induction col as [|x col IH]; intros pre rows Hlen; simpl.
  - destruct rows; reflexivity.
  - destruct rows as [|r rows]; [discriminate|]. simpl in Hlen.
    assert (Hnext : take (pre ++ r :: rows) (where_eq (S (List.length pre)) col v)
                    = Ok (select rows (map (fun x => Z.eqb x v) col))).
    { replace (pre ++ r :: rows)%list with ((pre ++ [r]) ++ rows)%list
        by (rewrite <- app_assoc; reflexivity).
      replace (S (List.length pre)) with (List.length (pre ++ [r]))
        by (rewrite length_app; simpl; lia).
      apply IH. lia. }
    destruct (Z.eqb x v); simpl; [|exact Hnext].
    rewrite nth_error_app2 by lia. rewrite Nat.sub_diag. simpl.
    rewrite Hnext. reflexivity.
Qed.

Lemma flag_loop_entries (output_path file_number ext_name : string) (col : list Z) :
  List.length data = List.length col ->
  forall values,
    flag_loop output_path file_number ext_name (entries col values)
    = Ok (map (fun v => Masks.mkWrite
                          (output_path ++ "flag_" ++ str_of_Z v ++ file_number ++ ".fits")
                          (rows_with col v) ext_name (Some cat_filepath)) values).
Proof.
  intros Hlen. induction values as [|v values IH]; simpl; [reflexivity|].
  pose proof (take_where col v [] data Hlen) as Ht. simpl in Ht. rewrite Ht. simpl.
  rewrite py_int_str, IH. reflexivity.
Qed.

(** X15. After a flag split with one section, [save_flag_split] writes
    one file for each distinct value [v] of the column, named
    [flag_<v>], with the rows whose flag is [v]. *)
Theorem save_flag_split_files (data_cat : catalog) (i : string) (lines : list string)
    (p : string) (col : list Z) (output_path file_number ext_name : string) :
  lines_loop (first lines) lines None = Ok (Some p) ->
  get p data_cat = Some col ->
  List.length data = List.length col ->
  exists fs d,
    _make_flag_split cat_filepath data_cat [(i, lines)] = Ok (Some fs)
    /\ get i fs = Some d
    /\ save_flag_split (Some d) (Some output_path) (Some file_number) ext_name
       = Ok (map (fun v => Masks.mkWrite
                             (output_path ++ "flag_" ++ str_of_Z v ++ file_number ++ ".fits")
                             (rows_with col v) ext_name (Some cat_filepath))
               (distinct col)).
Proof.
  intros Hlines Hcol Hlen.
  destruct (flag_split_entries cat_filepath data_cat i lines p col Hlines Hcol)
    as (fs & Hmake & Hget).
  exists fs, (entries col (distinct col)).
  split; [assumption|]. split; [assumption|].
  simpl. apply flag_loop_entries. assumption.
Qed.

End WithCatalog.

(** [int] on the decimal literals [format] prints. *)
Definition decimal_int (s : string) : option Z :=
  match NilEmpty.int_of_string s with
  | Some d => Some (Z.of_int d)
  | None => None
  end.

Lemma decimal_int_str (z : Z) : decimal_int (str_of_Z z) = Some z.
Proof.
  unfold decimal_int, str_of_Z. rewrite NilEmpty.isi, DecimalZ.of_to. reflexivity.
Qed.

Lemma save_flag_split_files_witness :
  exists fs d,
    _make_flag_split "cat.fits" [("F", [7; 8; 7]%Z)] [("s", ["PARAM_NAME=F"])] = Ok (Some fs)
    /\ get "s" fs = Some d
    /\ save_flag_split string ["r0"; "r1"; "r2"] "cat.fits" decimal_int
         (Some d) (Some "out/s_") (Some "-001-0") "LDAC_OBJECTS"
       = Ok [Masks.mkWrite "out/s_flag_8-001-0.fits" ["r1"] "LDAC_OBJECTS" (Some "cat.fits");
             Masks.mkWrite "out/s_flag_7-001-0.fits" ["r0"; "r2"] "LDAC_OBJECTS"
               (Some "cat.fits")].
Proof.
  apply (save_flag_split_files string ["r0"; "r1"; "r2"] "cat.fits" decimal_int
           decimal_int_str [("F", [7; 8; 7]%Z)] "s" ["PARAM_NAME=F"] "F" [7; 8; 7]%Z
           "out/s_" "-001-0" "LDAC_OBJECTS"); reflexivity.
Defined.

End FlagFiles.

(** ** [SETools._make_new_cat] and [SETools._make_stat] *)

Module NewCat.

Import PyStr Dict Numpy Save.

Definition equal_sign : ascii := "="%char.

(** The key of a line, [re.split('=', j)[0]]. *)
Definition key_of (j : string) : string := first (split_on equal_sign j).

Section WithCatalog.

(** The rows of the catalog, the interpreter in value mode
    ([make_compare=False]), its result as [save_new_cat] reads it, and the
    attribute [self.mask], [None] while no MASK section has set it. *)
Variable Row : Type.
Variable interpreter :
  string -> list Row -> bool -> dict (list bool) -> result value.
Variable data : list Row.
Variable self_mask : option (dict (list bool)).

Definition no_mask : string := "'SETools' object has no attribute 'mask'".

(** [sc.interpreter(expr, self._cat_file.get_data(), make_compare=False,
    mask_dict=self.mask).result] *)
Definition evaluate (expr : string) : result value :=
  match self_mask with
  | None => Raise (AttributeError no_mask)
  | Some mask => interpreter expr data false mask
  end.

(** The loop over the lines of one NEW_CAT section; [d] is
    [self.new_cat[i]]. *)
Fixpoint cat_lines (lines : list string) (d : dict value) : result (dict value) :=
  match lines with
  | [] => Ok d
  | j :: rest =>
      match split_on equal_sign j with
      | [s0; s1] =>
          if String.eqb s0 "OUTPUT_FORMAT" then cat_lines rest (set s0 (Str s1) d)
          else
            v <- evaluate s1 ;;
            cat_lines rest (set s0 v d)
      | _ => Raise (ValueError ("Not a good format : " ++ j))
      end
  end.

Fixpoint cat_sections (sections : dict (list string)) (new_cat : dict (dict value))
    : result (dict (dict value)) :=
  match sections with
  | [] => Ok new_cat
  | (i, lines) :: rest =>
      d <- cat_lines lines [] ;;
      cat_sections rest (set i d new_cat)
  end.

(** [_make_new_cat]: [None] when [self.new_cat] is left unset. *)
Definition _make_new_cat (_new_cat : dict (list string)) : result (option (dict (dict value))) :=
  if List.length _new_cat =? 0 then Ok None
  else new_cat <- cat_sections _new_cat [] ;; Ok (Some new_cat).

(** The loop over the lines of one STAT section. *)
Fixpoint stat_lines (lines : list string) (d : dict value) : result (dict value) :=
  match lines with
  | [] => Ok d
  | j :: rest =>
      match split_on equal_sign j with
      | [s0; s1] =>
          v <- evaluate s1 ;;
          stat_lines rest (set s0 v d)
      | _ => Raise (ValueError ("Not a good format : " ++ j))
      end
  end.

Fixpoint stat_sections (sections : dict (list string)) (stat : dict (dict value))
    : result (dict (dict value)) :=
  match sections with
  | [] => Ok stat
  | (i, lines) :: rest =>
      d <- stat_lines lines [] ;;
      stat_sections rest (set i d stat)
  end.

(** [_make_stat] *)
Definition _make_stat (_stat : dict (list string)) : result (option (dict (dict value))) :=
  if List.length _stat =? 0 then Ok None
  else stat <- stat_sections _stat [] ;; Ok (Some stat).

Lemma cat_lines_cons (j : string) (rest : list string) (d : dict value) :
  cat_lines (j :: rest) d
  = match split_on equal_sign j with
    | [s0; s1] =>
        if String.eqb s0 "OUTPUT_FORMAT" then cat_lines rest (set s0 (Str s1) d)
        else v <- evaluate s1 ;; cat_lines rest (set s0 v d)
    | _ => Raise (ValueError ("Not a good format : " ++ j))
    end.
Proof. reflexivity. Qed.

Lemma cat_lines_app (l1 l2 : list string) :
  forall d, cat_lines (l1 ++ l2) d = (d1 <- cat_lines l1 d ;; cat_lines l2 d1).
Proof.
  induction l1 as [|j rest IH]; intros d; simpl; [reflexivity|].
  destruct (split_on equal_sign j) as [|s0 [|s1 [|s2 t]]]; try reflexivity.
  destruct (String.eqb s0 "OUTPUT_FORMAT"); [apply IH|].
  destruct (evaluate s1); simpl; [apply IH|reflexivity].
Qed.

Lemma cat_lines_keeps_format (lines : list string) :
  Forall (fun j => key_of j <> "OUTPUT_FORMAT") lines ->
  forall d d', cat_lines lines d = Ok d' ->
  get "OUTPUT_FORMAT" d' = get "OUTPUT_FORMAT" d.
Proof.
  induction 1 as [|j rest Hj _ IH]; intros d d'; simpl.
  - intros [= <-]. reflexivity.
  - unfold key_of in Hj.
    destruct (split_on equal_sign j) as [|s0 [|s1 [|s2 t]]]; try discriminate.
    simpl in Hj. destruct (String.eqb_spec s0 "OUTPUT_FORMAT") as [E|E]; [contradiction|].
    destruct (evaluate s1) as [v|e]; simpl; [|discriminate].
    intros H. rewrite (IH _ _ H). apply get_set_other. assumption.
Qed.

(** X16. [_make_new_cat] does not ask for an [OUTPUT_FORMAT] line: when
    the loop over the lines of a section without one returns its
    dictionary, it is [save_new_cat] that raises "OUTPUT_FORMAT not
    provided", leaving the dictionary as it was. The loop does not return
    when no MASK section has set [self.mask]: the first line, if it is
    well formed, raises [AttributeError]. *)
Theorem new_cat_without_format (lines : list string)
    (cat_filepath output_path ext_name : string) :
  Forall (fun j => key_of j <> "OUTPUT_FORMAT") lines ->
  (forall d, cat_lines lines [] = Ok d ->
     save_new_cat cat_filepath d output_path ext_name = (d, Raise (ValueError not_provided)))
  /\ (self_mask = None ->
      forall j rest s0 s1, lines = j :: rest -> split_on equal_sign j = [s0; s1] ->
      cat_lines lines [] = Raise (AttributeError no_mask)).
Proof.
  intros Hno. split.
  - intros d Hmake. unfold save_new_cat.
    rewrite (cat_lines_keeps_format lines Hno _ _ Hmake). reflexivity.
  - intros Hm j rest s0 s1 -> Hs. rewrite cat_lines_cons, Hs.
    apply Forall_inv in Hno. unfold key_of in Hno. rewrite Hs in Hno. simpl in Hno.
    apply String.eqb_neq in Hno. rewrite Hno. unfold evaluate. rewrite Hm. reflexivity.
Qed.

(** X17. The value of [OUTPUT_FORMAT] is stored as it is written, the
    last such line winning, and is what [save_new_cat] goes by: with
    [OUTPUT_FORMAT=fits] the catalog is handed over as a FITS table made
    of the other entries. *)
Theorem new_cat_format_literal (pre post : list string) (v : string) (d : dict value)
    (cat_filepath output_path ext_name : string) :
  none (is_char equal_sign) v = true ->
  Forall (fun j => key_of j <> "OUTPUT_FORMAT") post ->
  cat_lines (pre ++ ("OUTPUT_FORMAT=" ++ v) :: post) [] = Ok d ->
  get "OUTPUT_FORMAT" d = Some (Str v)
  /\ (v = "fits" ->
      save_new_cat cat_filepath d output_path ext_name
      = (remove "OUTPUT_FORMAT" d,
         Ok (FitsTable (output_path ++ ".fits") (remove "OUTPUT_FORMAT" d) ext_name))).
Proof.
  intros Hv Hpost Hmake.
  assert (Hget : get "OUTPUT_FORMAT" d = Some (Str v)).
  { assert (Hs : split_on equal_sign ("OUTPUT_FORMAT=" ++ v) = ["OUTPUT_FORMAT"; v]).
    { unfold split_on.
      change ("OUTPUT_FORMAT=" ++ v) with ("OUTPUT_FORMAT" ++ String equal_sign v).
      rewrite split_app_sep by reflexivity. rewrite (split_none _ v Hv). reflexivity. }
    rewrite cat_lines_app in Hmake.
    destruct (cat_lines pre []) as [d1|e]; [|discriminate].
    cbv beta iota delta [bind] in Hmake.
    rewrite cat_lines_cons, Hs in Hmake. cbv beta iota in Hmake.
    rewrite String.eqb_refl in Hmake.
    rewrite (cat_lines_keeps_format post Hpost _ _ Hmake).
    apply get_set_same. }
  split; [assumption|]. intros ->. unfold save_new_cat. rewrite Hget. reflexivity.
Qed.

(** X18. A STAT section is evaluated as a NEW_CAT section without an
    [OUTPUT_FORMAT] line is: the same entries, the same error. *)
Theorem stat_lines_as_cat_lines (lines : list string) :
  Forall (fun j => key_of j <> "OUTPUT_FORMAT") lines ->
  forall d, stat_lines lines d = cat_lines lines d.
Proof.
  induction 1 as [|j rest Hj _ IH]; intros d; simpl; [reflexivity|].
  unfold key_of in Hj.
  destruct (split_on equal_sign j) as [|s0 [|s1 [|s2 t]]]; try reflexivity.
  simpl in Hj. apply String.eqb_neq in Hj. rewrite Hj.
  destruct (evaluate s1); simpl; [apply IH|reflexivity].
Qed.

End WithCatalog.

(** An interpreter in value mode that knows one column and its mean. *)
Definition demo_value (expr : string) (data : list Z) (make_compare : bool)
    (mask : dict (list bool)) : result value :=
  if String.eqb expr "MAG" then Ok (Column (map str_of_Z data))
  else if String.eqb expr "len(MAG)" then Ok (Scalar (str_of_nat (List.length data)))
  else Raise (ValueError "unknown name").

Lemma new_cat_without_format_witness :
  cat_lines Z demo_value [18; 21]%Z (Some []) ["M=MAG"] [] = Ok [("M", Column ["18"; "21"])]
  /\ save_new_cat "cat.fits" [("M", Column ["18"; "21"])] "out/c" "LDAC_OBJECTS"
     = ([("M", Column ["18"; "21"])], Raise (ValueError not_provided))
  /\ cat_lines Z demo_value [18; 21]%Z None ["M=MAG"] [] = Raise (AttributeError no_mask).
Proof.
  split; [reflexivity|]. split.
  - destruct (new_cat_without_format Z demo_value [18; 21]%Z (Some []) ["M=MAG"]
                "cat.fits" "out/c" "LDAC_OBJECTS") as [H _].
    + repeat constructor. discriminate.
    + apply H. reflexivity.
  - destruct (new_cat_without_format Z demo_value [18; 21]%Z None ["M=MAG"]
                "cat.fits" "out/c" "LDAC_OBJECTS") as [_ H].
    + repeat constructor. discriminate.
    + apply (H eq_refl "M=MAG" [] "M" "MAG"); reflexivity.
Defined.

Lemma new_cat_format_literal_witness :
  get "OUTPUT_FORMAT" [("M", Column ["18"; "21"]); ("OUTPUT_FORMAT", Str "fits")]
  = Some (Str "fits")
  /\ save_new_cat "cat.fits" [("M", Column ["18"; "21"]); ("OUTPUT_FORMAT", Str "fits")]
       "out/c" "LDAC_OBJECTS"
     = ([("M", Column ["18"; "21"])],
        Ok (FitsTable "out/c.fits" [("M", Column ["18"; "21"])] "LDAC_OBJECTS")).
Proof.
  destruct (new_cat_format_literal Z demo_value [18; 21]%Z (Some []) ["M=MAG"] [] "fits"
              [("M", Column ["18"; "21"]); ("OUTPUT_FORMAT", Str "fits")]
              "cat.fits" "out/c" "LDAC_OBJECTS" eq_refl (Forall_nil _) eq_refl)
    as [H1 H2].
  split; [exact H1|]. exact (H2 eq_refl).
Defined.

Lemma stat_lines_as_cat_lines_witness :
  stat_lines Z demo_value [18; 21]%Z (Some []) ["N=len(MAG)"; "M=MAG"] []
  = cat_lines Z demo_value [18; 21]%Z (Some []) ["N=len(MAG)"; "M=MAG"] [].
Proof.
  apply (stat_lines_as_cat_lines Z demo_value [18; 21]%Z (Some []) ["N=len(MAG)"; "M=MAG"]).
  repeat constructor; discriminate.
Defined.

End NewCat.

(** ** [SETools._make_plot] and [SEPlot.__init__] *)

Module PlotSpec.

Import PyStr Dict.

Definition equal_sign : ascii := "="%char.
Definition underscore : ascii := "_"%char.

(** One line of a PLOT section: [self.plot[i]] before and after. *)
Definition plot_line (d : dict (dict string)) (j : string) : result (dict (dict string)) :=
  match split_on equal_sign j with
  | [s0; s1] =>
      match split_on underscore s0 with
      | [p] => Ok (set p [("0", s1)] d)
      | [p; sub] =>
          let inner := match get p d with Some x => x | None => [] end in
          Ok (set p (set sub s1 inner) d)
      | _ => Raise (ValueError ("Not a good format : " ++ j))
      end
  | _ => Raise (ValueError ("Not a good format : " ++ j))
  end.

Fixpoint plot_lines (lines : list string) (d : dict (dict string))
    : result (dict (dict string)) :=
  match lines with
  | [] => Ok d
  | j :: rest => d' <- plot_line d j ;; plot_lines rest d'
  end.

Fixpoint plot_sections (sections : dict (list string)) (plot : dict (dict (dict string)))
    : result (dict (dict (dict string))) :=
  match sections with
  | [] => Ok plot
  | (i, lines) :: rest =>
      d <- plot_lines lines [] ;;
      plot_sections rest (set i d plot)
  end.

(** [SETools._make_plot]: [None] when [self.plot] is left unset. *)
Definition _make_plot (_plot : dict (list string))
    : result (option (dict (dict (dict string)))) :=
  if List.length _plot =? 0 then Ok None
  else plot <- plot_sections _plot [] ;; Ok (Some plot).

(** What [SEPlot.__init__] goes on to draw. *)
Inductive drawing : Type := DrawPlot | DrawScatter | DrawHist | DrawNothing.

Definition one_of (names : list string) (t : string) : bool :=
  existsb (String.eqb t) names.

(** [SEPlot.__init__], up to the call of the function that draws. In the
    last branch the source builds a [ValueError] and does not raise it. *)
Definition init {Catalog : Type} (plot_dict : option (dict (dict string)))
    (catalog : option Catalog) (output_path : option string) : result drawing :=
  match plot_dict with
  | None => Raise (ValueError "plot_dict not provided")
  | Some _plot =>
      match catalog with
      | None => Raise (ValueError "catalog not provided")
      | Some _ =>
          match output_path with
          | None => Raise (ValueError "output_path not provided")
          | Some _ =>
              if negb (mem "TYPE" _plot) then Raise (ValueError "Plot type not specified")
              else
                match get "TYPE" _plot with
                | None => Raise (KeyError "TYPE")
                | Some td =>
                    match get "0" td with
                    | None => Raise (KeyError "0")
                    | Some t =>
                        if one_of ["plot"; "PLOT"] t then
                          if negb (mem "X" _plot) || negb (mem "Y" _plot)
                          then Raise (ValueError "X and/or Y not provided")
                          else Ok DrawPlot
                        else if one_of ["scatter"; "SCATTER"] t then
                          if negb (mem "X" _plot) || negb (mem "Y" _plot)
                          then Raise (ValueError "X and/or Y not provided")
                          else Ok DrawScatter
                        else if one_of ["histogram"; "hist"; "HISTOGRAM"; "HIST"] t then
                          if negb (mem "Y" _plot) then Raise (ValueError "Y not provided")
                          else Ok DrawHist
                        else Ok DrawNothing
                    end
                end
          end
      end
  end.

Definition key_of (j : string) : string := first (split_on equal_sign j).

(** The parameter a line sets: the key up to its underscore. *)
Definition param_of (j : string) : string := first (split_on underscore (key_of j)).

(** A line [_make_plot] takes: one [=], and at most one underscore before
    it. *)
Definition well_formed (j : string) : bool :=
  (CleanLine.count equal_sign j =? 1) && (CleanLine.count underscore (key_of j) <=? 1).

Lemma plot_line_ok (d : dict (dict string)) (j : string) :
  (exists d', plot_line d j = Ok d') <-> well_formed j = true.
Proof.
  unfold plot_line, well_formed, key_of.
  pose proof (CleanLine.split_on_length equal_sign j) as H1.
  destruct (split_on equal_sign j) as [|s0 [|s1 [|s2 t]]]; simpl in H1.
  - discriminate.
  - injection H1 as H1. rewrite <- H1. simpl.
    split; [intros (? & ?); discriminate|discriminate].
  - injection H1 as H1. rewrite <- H1. simpl.
    pose proof (CleanLine.split_on_length underscore s0) as H2.
    destruct (split_on underscore s0) as [|p [|sub [|x t]]]; simpl in H2.
    + discriminate.
    + injection H2 as H2. rewrite <- H2. split; [reflexivity|eauto].
    + injection H2 as H2. rewrite <- H2. split; [reflexivity|eauto].
    + injection H2 as H2. rewrite <- H2. simpl.
      split; [intros (? & ?); discriminate|discriminate].
  - injection H1 as H1. rewrite <- H1. simpl.
    split; [intros (? & ?); discriminate|discriminate].
Qed.

(** X19. [_make_plot] takes a section exactly when each of its lines has
    one [=] and at most one underscore before it: a value that holds an
    [=], or a parameter with two underscores, makes it raise. *)
Theorem plot_lines_accepts (lines : list string) :
  forall d, (exists d', plot_lines lines d = Ok d') <-> forallb well_formed lines = true.
Proof.
  induction lines as [|j rest IH]; intros d; simpl.
  - split; [reflexivity|eauto].
  - rewrite andb_true_iff, <- (plot_line_ok d j). split.
    + intros (d' & H). destruct (plot_line d j) as [d1|e]; simpl in H; [|discriminate].
      split; [eauto|]. apply (IH d1). eauto.
    + intros [(d1 & ->) H]. simpl. apply IH. assumption.
Qed.

Lemma plot_lines_app (l1 l2 : list string) :
  forall d, plot_lines (l1 ++ l2) d = (d1 <- plot_lines l1 d ;; plot_lines l2 d1).
Proof.
  induction l1 as [|j rest IH]; intros d; simpl; [reflexivity|].
  destruct (plot_line d j); simpl; [apply IH|reflexivity].
Qed.

Lemma plot_lines_keeps (P : string) (lines : list string) :
  Forall (fun j => param_of j <> P) lines ->
  forall d d', plot_lines lines d = Ok d' -> get P d' = get P d.
Proof.
  induction 1 as [|j rest Hj _ IH]; intros d d'; simpl.
  - intros [= <-]. reflexivity.
  - destruct (plot_line d j) as [d1|e] eqn:E; simpl; [|discriminate].
    intros H. rewrite (IH _ _ H). clear IH H.
    unfold plot_line in E. unfold param_of, key_of in Hj.
    destruct (split_on equal_sign j) as [|s0 [|s1 [|s2 t]]]; try discriminate.
    simpl in Hj.
    destruct (split_on underscore s0) as [|p [|sub [|x t]]]; try discriminate;
      simpl in Hj; injection E as <-; apply get_set_other; assumption.
Qed.

Lemma plot_line_whole (P v : string) (d : dict (dict string)) :
  none (fun a => is_char equal_sign a || is_char underscore a) P = true ->
  none (is_char equal_sign) v = true ->
  plot_line d (P ++ String equal_sign v) = Ok (set P [("0", v)] d).
Proof.
  intros HP Hv. unfold plot_line, split_on.
  rewrite split_app_sep; [|revert HP; apply Reader.none_weaken; intros a ->; reflexivity
                          |reflexivity].
  rewrite (split_none _ v Hv).
  rewrite split_none; [reflexivity|].
  revert HP. apply Reader.none_weaken. intros a ->. apply orb_true_r.
Qed.

Lemma plot_lines_whole (pre post : list string) (P v : string) (d : dict (dict string)) :
  none (fun a => is_char equal_sign a || is_char underscore a) P = true ->
  none (is_char equal_sign) v = true ->
  Forall (fun j => param_of j <> P) post ->
  plot_lines (pre ++ (P ++ String equal_sign v) :: post) [] = Ok d ->
  get P d = Some [("0", v)].
Proof.
  intros HP Hv Hpost H. rewrite plot_lines_app in H.
  destruct (plot_lines pre []) as [d1|e]; simpl in H; [|discriminate].
  rewrite (plot_line_whole P v d1 HP Hv) in H. simpl in H.
  rewrite (plot_lines_keeps P post Hpost _ _ H). apply get_set_same.
Qed.

(** X20. A line [PARAM=value] leaves under [PARAM] the one entry
    ['0': value], whatever [PARAM_sub=...] lines came before it, and lines
    on other parameters do not touch it. *)
Theorem plot_param_reset (pre post : list string) (P v : string) (d : dict (dict string)) :
  none (fun a => is_char equal_sign a || is_char underscore a) P = true ->
  none (is_char equal_sign) v = true ->
  Forall (fun j => param_of j <> P) post ->
  plot_lines (pre ++ (P ++ String equal_sign v) :: post) [] = Ok d ->
  get P d = Some [("0", v)].
Proof. exact (plot_lines_whole pre post P v d). Qed.

(** X21. A plot of a type that is none of the eight names known to
    [SEPlot] raises nothing and draws nothing, whatever else the section
    holds. *)
Theorem unknown_type_draws_nothing {Catalog : Type} (pre post : list string) (t : string)
    (d : dict (dict string)) (catalog : Catalog) (output_path : string) :
  none (is_char equal_sign) t = true ->
  Forall (fun j => param_of j <> "TYPE") post ->
  plot_lines (pre ++ ("TYPE=" ++ t) :: post) [] = Ok d ->
  one_of ["plot"; "PLOT"; "scatter"; "SCATTER"; "histogram"; "hist"; "HISTOGRAM"; "HIST"] t
  = false ->
  init (Some d) (Some catalog) (Some output_path) = Ok DrawNothing.
Proof.
  intros Ht Hpost Hlines Hunknown.
  assert (Hget : get "TYPE" d = Some [("0", t)]).
  { apply (plot_lines_whole pre post "TYPE" t d); try assumption. reflexivity. }
  unfold init, mem. rewrite Hget. simpl.
  unfold one_of in *. simpl in *.
  repeat (apply orb_false_elim in Hunknown as [? Hunknown]).
  repeat match goal with H : String.eqb t _ = false |- _ => rewrite H; clear H end.
  reflexivity.
Qed.

Lemma plot_lines_accepts_witness :
  exists d', plot_lines ["TYPE=hist"; "Y_1=MAG"; "BIN_1=20"] [] = Ok d'.
Proof.
  apply (plot_lines_accepts ["TYPE=hist"; "Y_1=MAG"; "BIN_1=20"] []). reflexivity.
Defined.

Lemma plot_param_reset_witness :
  get "Y" [("Y", [("0", "MAG")])] = Some [("0", "MAG")].
Proof.
  apply (plot_param_reset ["Y_1=FLUX"] [] "Y" "MAG" [("Y", [("0", "MAG")])]).
  - reflexivity.
  - reflexivity.
  - constructor.
  - reflexivity.
Defined.

Lemma unknown_type_draws_nothing_witness :
  init (Catalog := list Z) (Some [("TYPE", [("0", "pie")]); ("Y", [("1", "MAG")])])
    (Some [18; 21]%Z) (Some "out/plot/p-001-0") = Ok DrawNothing.
Proof.
  apply (unknown_type_draws_nothing [] ["Y_1=MAG"] "pie").
  - reflexivity.
  - repeat constructor. discriminate.
  - reflexivity.
  - reflexivity.
Defined.

End PlotSpec.

(** ** The file number of [process] *)

Module FileNumber.

Import PyStr.

Definition dash : ascii := "-"%char.
Definition dot : ascii := "."%char.

(** [[0-9]] *)
Definition is_digit (a : ascii) : bool :=
  (48 <=? nat_of_ascii a) && (nat_of_ascii a <=? 57).

(** The longest run of digits at the head of [s], and what follows it. *)
Fixpoint digits (s : string) : string * string :=
  match s with
  | EmptyString => ("", "")
  | String a r =>
      if is_digit a then let (d, rest) := digits r in (String a d, rest)
      else ("", s)
  end.

(** The groups of [\-([0-9]{3})\-([0-9]+)\.] matched at the head of [s].
    The second group is the whole run of digits: a shorter one would have
    a digit, not a dot, after it. *)
Definition match_here (s : string) : option (string * string) :=
  match s with
  | String c0 (String a (String b (String c (String c4 rest)))) =>
      if Ascii.eqb c0 dash && is_digit a && is_digit b && is_digit c && Ascii.eqb c4 dash
      then
        match digits rest with
        | (String d ds, String c5 _) =>
            if Ascii.eqb c5 dot then Some (String a (String b (String c "")), String d ds)
            else None
        | _ => None
        end
      else None
  | _ => None
  end.

(** The first match, from the left. *)
Fixpoint search (s : string) : option (string * string) :=
  match match_here s with
  | Some g => Some g
  | None =>
      match s with
      | EmptyString => None
      | String _ r => search r
      end
  end.

(** [s = re.split(pattern, cat_filepath)] and
    ['-{0}-{1}'.format(s[1], s[2])]: without a match the list has one
    element. *)
Definition file_number (cat_filepath : string) : result string :=
  match search cat_filepath with
  | Some (g1, g2) => Ok ("-" ++ g1 ++ "-" ++ g2)
  | None => Raise (IndexError "list index out of range")
  end.

Definition all_digits (s : string) : bool := none (fun a => negb (is_digit a)) s.

Lemma match_here_other (x : ascii) (r : string) :
  Ascii.eqb x dash = false -> match_here (String x r) = None.
Proof.
  intros Hx. unfold match_here.
  destruct r as [|a [|b [|c [|c4 rest]]]]; try reflexivity.
  rewrite Hx. reflexivity.
Qed.

Lemma search_skip (base s : string) :
  none (is_char dash) base = true -> search (base ++ s) = search s.
Proof.
  induction base as [|x base IH]; simpl append; intros H; [reflexivity|].
  simpl in H. apply andb_prop in H as [Hx Hb]. apply negb_true_iff in Hx.
  unfold is_char in Hx.
  change (search (String x (base ++ s)))
    with (match match_here (String x (base ++ s)) with
          | Some g => Some g
          | None => search (base ++ s)
          end).
  rewrite (match_here_other x _ Hx). apply IH. assumption.
Qed.

Lemma digits_run (n : string) (c : ascii) (r : string) :
  all_digits n = true -> is_digit c = false ->
  digits (n ++ String c r) = (n, String c r).
Proof.
  intros Hn Hc. induction n as [|a n IH]; simpl.
  - rewrite Hc. reflexivity.
  - simpl in Hn. apply andb_prop in Hn as [Ha Hn]. rewrite negb_involutive in Ha.
    rewrite Ha, (IH Hn). reflexivity.
Qed.

(** X22. For a catalog named [base-ddd-n.ext], with no dash in [base],
    three digits [ddd] and at least one digit [n], the file number is
    [-ddd-n]; for a name without a dash [process] fails with
    [IndexError]. *)
Theorem file_number_of_name (base : string) (a b c : ascii) (d : ascii) (n ext : string) :
  none (is_char dash) base = true ->
  is_digit a = true -> is_digit b = true -> is_digit c = true ->
  all_digits (String d n) = true ->
  file_number
    (base ++ String dash (String a (String b (String c (String dash
       (String d n ++ String dot ext))))))
  = Ok (String dash (String a (String b (String c (String dash (String d n))))))
  /\ file_number base = Raise (IndexError "list index out of range").
Proof.
  intros Hbase Ha Hb Hc Hn. unfold file_number. split.
  - rewrite (search_skip base _ Hbase).
    unfold search, match_here. fold match_here. fold search.
    rewrite Ha, Hb, Hc. simpl andb. cbv iota.
    rewrite (digits_run (String d n) dot ext Hn eq_refl). simpl. reflexivity.
  - rewrite <- (append_nil_r base), (search_skip base "" Hbase). reflexivity.
Qed.

Lemma file_number_of_name_witness :
  file_number "sexcat-001-12.fits" = Ok "-001-12"
  /\ file_number "sexcat" = Raise (IndexError "list index out of range").
Proof.
  apply (file_number_of_name "sexcat" "0" "0" "1" "1" "2" "fits"); reflexivity.
Defined.

End FileNumber.

(** ** The text file of [save_new_cat] *)

Module TextFile.

Import PyStr Dict Save.

Definition newline : ascii := ascii_of_nat 10.
Definition tabulation : ascii := ascii_of_nat 9.

Lemma count_app (c : ascii) (a b : string) :
  CleanLine.count c (a ++ b) = CleanLine.count c a + CleanLine.count c b.
Proof. induction a as [|x a IH]; simpl; [reflexivity|]. rewrite IH. lia. Qed.

Lemma count_none (c : ascii) (s : string) :
  none (is_char c) s = true -> CleanLine.count c s = 0.
Proof.
  induction s as [|x s IH]; simpl; [reflexivity|]. unfold is_char at 1.
  intros H. apply andb_prop in H as [Hx Hs]. apply negb_true_iff in Hx.
  rewrite Hx, (IH Hs). reflexivity.
Qed.

(** A key or a cell that holds neither a newline nor a tab. *)
Definition plain (s : string) : bool :=
  none (is_char newline) s && none (is_char tabulation) s.

(** An entry [save_new_cat] can write as text: a plain key, and a value
    that has a length and plain cells. *)
Definition writable (kv : string * value) : bool :=
  plain (fst kv)
  && match cells_of (snd kv) with
     | Some cells => forallb plain cells
     | None => false
     end.

(** The length of the value of an entry. *)
Definition height (kv : string * value) : nat :=
  match cells_of (snd kv) with
  | Some cells => List.length cells
  | None => 0
  end.

Definition bump (n_max : option nat) (n : nat) : option nat :=
  match n_max with
  | None => Some n
  | Some m => if m <? n then Some n else Some m
  end.

Lemma header_loop_writable (d : dict value) :
  forallb writable d = true ->
  forall n_max out,
    exists out',
      header_loop d n_max out = Ok (fold_left bump (map height d) n_max, out')
      /\ CleanLine.count newline out' = CleanLine.count newline out.
Proof.
  induction d as [|[k v] d IH]; intros Hd n_max out.
  - exists out. split; reflexivity.
  - simpl in Hd. apply andb_prop in Hd as [Hkv Hd].
    unfold writable in Hkv. simpl in Hkv. apply andb_prop in Hkv as [Hk Hv].
    cbn [header_loop map fold_left].
    change (height (k, v))
      with (match cells_of v with Some cells => List.length cells | None => 0 end).
    destruct (cells_of v) as [cells|]; [|discriminate].
    destruct (IH Hd (bump n_max (List.length cells)) (out ++ k ++ tab)) as (out' & Hh & Hc).
    exists out'. split; [exact Hh|]. rewrite Hc, !count_app.
    unfold plain in Hk. apply andb_prop in Hk as [Hk _].
    rewrite (count_none newline k Hk). simpl. lia.
Qed.

Lemma fold_bump_max (l : list nat) (m : nat) :
  fold_left bump l (Some m) = Some (Nat.max m (list_max l)).
Proof.
  revert m. induction l as [|x l IH]; intros m; simpl.
  - rewrite Nat.max_0_r. reflexivity.
  - destruct (Nat.ltb_spec m x); rewrite IH; f_equal; lia.
Qed.

Lemma fold_bump_none (l : list nat) :
  match fold_left bump l None with Some n => n | None => 0 end = list_max l.
Proof.
  destruct l as [|x l]; simpl; [reflexivity|]. rewrite fold_bump_max. reflexivity.
Qed.

Lemma row_text_counts (d : dict value) (i : nat) :
  forallb writable d = true ->
  CleanLine.count newline (row_text d i) = 0
  /\ CleanLine.count tabulation (row_text d i) = List.length d.
Proof.
  induction d as [|[k v] d IH]; intros Hd; [split; reflexivity|].
  simpl in Hd. apply andb_prop in Hd as [Hkv Hd].
  unfold writable in Hkv. simpl in Hkv. apply andb_prop in Hkv as [_ Hv].
  destruct (IH Hd) as [IH1 IH2].
  cbn [row_text List.length].
  destruct (cells_of v) as [cells|]; [|discriminate].
  destruct (nth_error cells i) as [c|] eqn:Ec.
  - assert (Hc : plain c = true).
    { rewrite forallb_forall in Hv. apply Hv. exact (nth_error_In _ _ Ec). }
    unfold plain in Hc. apply andb_prop in Hc as [Hc1 Hc2].
    rewrite !count_app, (count_none _ _ Hc1), (count_none _ _ Hc2), IH1, IH2.
    split; reflexivity.
  - rewrite !count_app, IH1, IH2. split; reflexivity.
Qed.

Lemma rows_text_count (d : dict value) (n : nat) :
  forallb writable d = true ->
  CleanLine.count newline (rows_text d n) = n.
Proof.
  intros Hd. unfold rows_text.
  assert (H : forall l acc,
             CleanLine.count newline
               (fold_left (fun out i => out ++ row_text d i ++ nl) l acc)
             = CleanLine.count newline acc + List.length l).
  { induction l as [|i l IH]; intros acc; simpl; [lia|].
    rewrite IH, !count_app. destruct (row_text_counts d i Hd) as [-> _]. simpl. lia. }
  rewrite H, length_seq. reflexivity.
Qed.

(** X23. For a catalog whose keys and cells hold no newline and no tab
    and whose values all have a length, [save_new_cat] in [txt] format
    writes a text of two header lines and as many rows as the longest
    column has cells; every row has one tab for each key, a column that
    is too short giving an empty cell. *)
Theorem text_file_rows (d : dict value) (output_path : string) :
  forallb writable d = true ->
  exists content,
    write_txt d output_path = Ok (TextFile (output_path ++ ".txt") content)
    /\ CleanLine.count newline content = 2 + list_max (map height d)
    /\ forall i, CleanLine.count tabulation (row_text d i) = List.length d.
Proof.
  intros Hd. unfold write_txt.
  destruct (header_loop_writable d Hd None ("# HEADER" ++ nl ++ "# ")) as (out & -> & Hc).
  simpl bind.
  exists (out ++ nl ++ rows_text d
            (match fold_left bump (map height d) None with Some n => n | None => 0 end)).
  split; [reflexivity|]. split.
  - rewrite count_app, Hc, !count_app, (rows_text_count d _ Hd), fold_bump_none.
    reflexivity.
  - intros i. apply row_text_counts. assumption.
Qed.

Lemma text_file_rows_witness :
  exists content,
    write_txt [("X", Column ["1.5"; "2.5"; "3.5"]); ("Y", Column ["7"])] "out/c"
    = Ok (TextFile "out/c.txt" content)
    /\ CleanLine.count newline content = 5.
Proof.
  destruct (text_file_rows [("X", Column ["1.5"; "2.5"; "3.5"]); ("Y", Column ["7"])]
              "out/c" eq_refl) as (content & H1 & H2 & _).
  exists content. split; assumption.
Defined.

End TextFile.

(** ** The [MASK] line of a RAND_SPLIT section *)

Module PoolMask.

Import PyStr Dict Numpy RandSplit.

Section WithFloat.

Variable float : string -> option PrimFloat.float.

Lemma mask_line_split (names : string) :
  none (is_char equal_sign) names = true ->
  split_on equal_sign ("MASK=" ++ names) = ["MASK"; names].
Proof.
  intros H. unfold split_on.
  change ("MASK=" ++ names) with ("MASK" ++ String equal_sign names).
  rewrite split_app_sep by reflexivity. rewrite (split_none _ names H). reflexivity.
Qed.

(** X24. A line [MASK=a,b,...] ANDs the masks it names into the pool, in
    order, and changes nothing else; the pool keeps its length. A name
    that is not among the masks built raises the [ValueError] that names
    it. *)
Theorem mask_line_pool (masks : dict (list bool)) (line0 names : string) (loc : locals) :
  none (is_char equal_sign) names = true ->
  (forall loc',
      lines_loop float (Some masks) line0 ["MASK=" ++ names] loc = Ok loc' ->
      exists bs,
        Forall2 (fun k b => exists m, get k masks = Some m
                                      /\ broadcast (List.length (mask loc)) (BoolArr m) = Ok b)
          (split_on comma names) bs
        /\ mask loc' = fold_left vand bs (mask loc)
        /\ List.length (mask loc') = List.length (mask loc)
        /\ ratio loc' = ratio loc /\ calls loc' = calls loc)
  /\ (get (first (split_on comma names)) masks = None ->
      lines_loop float (Some masks) line0 ["MASK=" ++ names] loc
      = Raise (ValueError ("mask " ++ first (split_on comma names) ++ " does not exist"))).
Proof.
  intros Hn.
  assert (Hstep : lines_loop float (Some masks) line0 ["MASK=" ++ names] loc
                  = (mask' <- and_masks (Some masks) (split_on comma names) (mask loc) ;;
                     Ok (mkLocals (ratio loc) mask' (calls loc)))).
  { cbn [lines_loop]. rewrite (mask_line_split names Hn). reflexivity. }
  rewrite Hstep. split.
  - intros loc' H.
    destruct (and_masks (Some masks) (split_on comma names) (mask loc)) as [m|e] eqn:Ea;
      simpl in H; [|discriminate].
    injection H as <-. simpl.
    destruct (and_masks_and masks _ _ _ Ea) as (bs & Hf & -> & Hlen).
    exists bs. repeat split; assumption.
  - intros Hmiss.
    destruct (split_on comma names) as [|k ks] eqn:Es.
    + destruct (split_not_nil _ _ Es).
    + simpl in Hmiss. simpl. rewrite Hmiss. reflexivity.
Qed.

End WithFloat.

Lemma mask_line_pool_witness :
  lines_loop demo_float bright_only "RATIO=25" ["MASK=dim"] (mkLocals None (ones 4) 0)
  = Raise (ValueError "mask dim does not exist").
Proof.
  destruct (mask_line_pool demo_float [("bright", [true; false; true; false])]
              "RATIO=25" "dim" (mkLocals None (ones 4) 0) eq_refl) as [_ H].
  apply H. reflexivity.
Defined.

End PoolMask.
